(** * The container recreation script of the Bedrock server manager

    A shallow embedding of the Node.js script that rebuilds the game-server
    containers from the data directories (the JavaScript part of
    [src/docker-entrypoint.sh], from [#!/usr/bin/env node] on), and the
    properties of its network policy, container description and batch loop;
    and of the shell script at the head of the same file, the entrypoint of
    the manager's container.

    JavaScript values are an inductive type with the language's truthiness,
    [||] and string conversion, which throws for the values that have no
    text; JavaScript objects used as dictionaries are finite maps; statements
    that may throw, [continue] or leave the process yield completion records;
    the operating system and the Docker daemon are an interface whose answers
    are arbitrary. The options with which the client reaches the daemon
    ([DOCKER_HOST]) are computed apart from that interface. The lines written
    to the console are kept by what they say, not as text; of [formatBytes],
    which computes in floating point, the conversion of its argument is kept
    and the text it returns is not. *)

From Stdlib Require Import ZArith Ascii.
From Stdlib Require String.
From stdpp Require Import base option list gmap strings fin_maps.

Local Open Scope Z_scope.
Set Warnings "-register-all".

(** ** JavaScript values *)

(** What [JSON.parse] can give, and [undefined]. A number is kept as the
    text that JavaScript writes for it ([Number::toString]), which tells the
    numbers apart up to the sign of zero: 19132 is "19132", 1.21 is "1.21",
    ten to the power of 21 is "1e+21". *)
Inductive value : Type :=
| VUndefined
| VNull
| VBool (b : bool)
| VNum (text : string)
| VStr (s : string)
| VArr (l : list value)
| VObj (o : gmap string value).

(** ToBoolean. The numbers that are falsy are the two zeros, both written
    "0", and [NaN]. *)
Definition truthy (v : value) : bool :=
  match v with
  | VUndefined | VNull => false
  | VBool b => b
  | VNum text => negb (String.eqb text "0" || String.eqb text "NaN")
  | VStr s => negb (String.eqb s "")
  | VArr _ | VObj _ => true
  end.

(** [a || b] *)
Definition js_or (a b : value) : value := if truthy a then a else b.

(** ** Strings *)

Definition lower_ascii (c : ascii) : ascii :=
  let n := nat_of_ascii c in
  if ((65 <=? n) && (n <=? 90))%nat then ascii_of_nat (n + 32) else c.

(** [String.prototype.toLowerCase] on the ASCII letters. *)
Fixpoint toLowerCase (s : string) : string :=
  match s with
  | EmptyString => EmptyString
  | String c r => String (lower_ascii c) (toLowerCase r)
  end.

(** [String.prototype.startsWith] *)
Definition startsWith (s pre : string) : bool := String.prefix pre s.

(** [String.prototype.includes] *)
Fixpoint includes (s sub : string) : bool :=
  if String.prefix sub s then true
  else match s with
       | EmptyString => false
       | String _ r => includes r sub
       end.

(** [s.substring(0, n)] *)
Definition substring0 (n : nat) (s : string) : string := String.substring 0 n s.

(** ** Completion records *)

(** What is thrown: an [Error] object, of which the script reads [message]. *)
Inductive error : Type :=
| TypeError (msg : string)
| Error (msg : string).

Definition message (e : error) : string :=
  match e with TypeError m | Error m => m end.

(** How a statement ends: normally, by a [throw], by [continue] to the next
    iteration of the enclosing loop, or by [process.exit]. *)
Inductive completion (A : Type) : Type :=
| Normal (a : A)
| Throw (e : error)
| Continue
| Exit (code : Z).
Arguments Normal {A} a.
Arguments Throw {A} e.
Arguments Continue {A}.
Arguments Exit {A} code.

(** [c] and then [k], when [c] ends normally. *)
Definition and_then {A B : Type} (c : completion A) (k : A -> completion B)
  : completion B :=
  match c with
  | Normal a => k a
  | Throw e => Throw e
  | Continue => Continue
  | Exit code => Exit code
  end.

(** ** Conversion to a string *)

(** What is thrown for a value that has no text. *)
Definition cannot_convert : error :=
  TypeError "Cannot convert object to primitive value".

(** [Array.prototype.join] with a comma, given the conversion of an
    element: [undefined] and [null] are written as nothing, and the elements
    are converted from the first on. *)
Definition join (text : value -> completion string)
  : list value -> completion string :=
  fix join (l : list value) : completion string :=
    match l with
    | [] => Normal ""
    | x :: r =>
        and_then (match x with
                  | VUndefined | VNull => Normal ""
                  | _ => text x
                  end)
          (fun sx =>
             match r with
             | [] => Normal sx
             | _ :: _ => and_then (join r) (fun sr => Normal (sx +:+ "," +:+ sr))
             end)
    end.

(** ToString, as a template literal applies it and, on what [JSON.parse]
    can give, as [+] with a string and as the conversion to a number do. An
    object is converted by its [toString]: the one it inherits gives
    "[object Object]", and a key [toString] of its own hides that one by a
    value that is no function, so that the conversion throws; an array is
    converted by joining the texts of its elements, and throws when one of
    them does. *)
Fixpoint to_string (v : value) : completion string :=
  match v with
  | VUndefined => Normal "undefined"
  | VNull => Normal "null"
  | VBool true => Normal "true"
  | VBool false => Normal "false"
  | VNum text => Normal text
  | VStr s => Normal s
  | VArr l => join to_string l
  | VObj o =>
      if bool_decide (is_Some (o !! "toString")) then Throw cannot_convert
      else Normal "[object Object]"
  end.

(** ** Metadata and configuration *)

(** The object read from [metadata.json]. *)
Abbreviation metadata := (gmap string value).

(** [metadata.k] *)
Definition prop (m : metadata) (k : string) : value := default VUndefined (m !! k).

(** The environment variables the script reads. *)
Record process_env : Type := {
  env_DATA_DIR : option string;
  env_DOCKER_NETWORK : option string;
  env_ENABLE_SSH : option string
}.

(** [process.env.X] as a value: a string or [undefined]. *)
Definition env_value (o : option string) : value :=
  match o with Some s => VStr s | None => VUndefined end.

Definition BEDROCK_IMAGE : string := "itzg/minecraft-bedrock-server".

(** ** Container descriptions *)

Record portBinding : Type := { HostPort : string }.

Record hostConfig : Type := {
  Binds : option (list string);
  RestartPolicy : option string;
  Memory : option value;
  NetworkMode : option value;
  PortBindings : option (gmap string (list portBinding))
}.

(** [{}] *)
Definition emptyHostConfig : hostConfig :=
  {| Binds := None; RestartPolicy := None; Memory := None;
     NetworkMode := None; PortBindings := None |}.

Record containerConfig : Type := {
  Image : string;
  name : string;
  Labels : gmap string value;
  Env : list string;
  HostConfig : option hostConfig;
  ExposedPorts : option (gmap string unit)
}.

Definition set_NetworkMode (v : value) (h : hostConfig) : hostConfig :=
  {| Binds := Binds h; RestartPolicy := RestartPolicy h; Memory := Memory h;
     NetworkMode := Some v; PortBindings := PortBindings h |}.

Definition set_PortBindings (p : gmap string (list portBinding)) (h : hostConfig)
  : hostConfig :=
  {| Binds := Binds h; RestartPolicy := RestartPolicy h; Memory := Memory h;
     NetworkMode := NetworkMode h; PortBindings := Some p |}.

Definition set_HostConfig (h : hostConfig) (c : containerConfig) : containerConfig :=
  {| Image := Image c; name := name c; Labels := Labels c; Env := Env c;
     HostConfig := Some h; ExposedPorts := ExposedPorts c |}.

Definition set_ExposedPorts (p : gmap string unit) (c : containerConfig)
  : containerConfig :=
  {| Image := Image c; name := name c; Labels := Labels c; Env := Env c;
     HostConfig := HostConfig c; ExposedPorts := Some p |}.

(** [if (!c.HostConfig) c.HostConfig = {}] followed by a read of it. *)
Definition hostConfig_or_empty (c : containerConfig) : hostConfig :=
  default emptyHostConfig (HostConfig c).

(** ** The helpers of the script *)

Section Helpers.

Variable penv : process_env.

(** [process.env.DATA_DIR || '/opt/minecraft-servers']: the variable when
    it is set and not the empty string. *)
Definition DATA_DIR : string :=
  match env_DATA_DIR penv with
  | Some s => if String.eqb s "" then "/opt/minecraft-servers" else s
  | None => "/opt/minecraft-servers"
  end.

(** [process.env.DOCKER_NETWORK || null] *)
Definition DOCKER_NETWORK : value :=
  js_or (env_value (env_DOCKER_NETWORK penv)) VNull.

Definition ENABLE_SSH : bool :=
  match env_ENABLE_SSH penv with
  | Some s => String.eqb s "true" || String.eqb s "TRUE" || String.eqb s "1"
  | None => false
  end.

(** [metadata.network || DOCKER_NETWORK] *)
Definition networkMode_of (m : metadata) : value :=
  js_or (prop m "network") DOCKER_NETWORK.

Definition noPortMappingModes : list string := ["macvlan"; "ipvlan"].

(** [networkMode.toLowerCase()]: a method of strings only. *)
Definition call_toLowerCase (v : value) : completion string :=
  match v with
  | VStr s => Normal (toLowerCase s)
  | _ => Throw (TypeError "networkMode.toLowerCase is not a function")
  end.

(** [Array.prototype.some], with a callback that may throw. *)
Fixpoint some {A : Type} (f : A -> completion bool) (l : list A) : completion bool :=
  match l with
  | [] => Normal false
  | x :: r =>
      match f x with
      | Normal true => Normal true
      | Normal false => some f r
      | Throw e => Throw e
      | Continue => Continue
      | Exit c => Exit c
      end
  end.

Definition requiresPortMapping (m : metadata) : completion bool :=
  let networkMode := networkMode_of m in
  if negb (truthy networkMode) then Normal true
  else
    match some (fun mode =>
                  match call_toLowerCase networkMode with
                  | Normal low => Normal (includes low mode)
                  | Throw e => Throw e
                  | Continue => Continue
                  | Exit c => Exit c
                  end) noPortMappingModes with
    | Normal b => Normal (negb b)
    | Throw e => Throw e
    | Continue => Continue
    | Exit c => Exit c
    end.

(** The two concatenations are evaluated in the order of the array
    literal and throw when the value has no text. *)
Definition buildContainerEnv (m : metadata) : completion (list string) :=
  and_then (to_string (js_or (prop m "version") (VStr "LATEST"))) (fun version =>
  and_then (to_string (js_or (prop m "name") (VStr "Bedrock Server"))) (fun name =>
  let env := [ "EULA=TRUE"; "VERSION=" +:+ version; "SERVER_NAME=" +:+ name ] in
  Normal (if ENABLE_SSH then env ++ ["ENABLE_SSH=TRUE"] else env))).

Definition applyNetworkConfig (c : containerConfig) (m : metadata) : containerConfig :=
  if truthy (networkMode_of m) then
    set_HostConfig (set_NetworkMode (networkMode_of m) (hostConfig_or_empty c)) c
  else c.

(** The description as changed in place, and the value returned. *)
Definition applyPortConfig (c : containerConfig) (m : metadata)
  : completion (containerConfig * value) :=
  match requiresPortMapping m with
  | Normal false =>
      Normal (set_ExposedPorts {[ "19132/udp" := tt ]} c, VNull)
  | Normal true =>
      Normal (set_HostConfig
                (set_PortBindings {[ "19132/udp" := [ {| HostPort := "19132" |} ] ]}
                   (hostConfig_or_empty c)) c,
              VNum "19132")
  | Throw e => Throw e
  | Continue => Continue
  | Exit code => Exit code
  end.

End Helpers.

(** ** The connection to the daemon *)

(** What [new URL(s)] gives, as far as the script reads it. *)
Module Url.
Record t : Type := { hostname : string; port : string }.
End Url.

(** What [parseInt] gives. *)
Inductive number : Type :=
| Num (n : Z)
| NaN.

(** The options given to [new Docker(...)]: [{ host, port }] or
    [{ socketPath }]. *)
Record dockerOptions : Type := {
  host : option string;
  port : option number;
  socketPath : option string
}.

(** [s.substring(n)] *)
Fixpoint substring_from (n : nat) (s : string) : string :=
  match n, s with
  | O, _ => s
  | S n', String _ r => substring_from n' r
  | S _, EmptyString => EmptyString
  end.

(** [String.prototype.replace] with a string for pattern and a replacement
    without [$]: the first occurrence of the pattern is replaced. *)
Fixpoint replace (s pattern replacement : string) : string :=
  if String.prefix pattern s
  then replacement +:+ substring_from (String.length pattern) s
  else match s with
       | EmptyString => EmptyString
       | String c r => String c (replace r pattern replacement)
       end.

Section Connection.

(** [new URL(s)], which gives a URL or throws for a string that is not
    one, and [parseInt]. *)
Variable URL : string -> Url.t + error.
Variable parseInt : string -> number.

(** The statement that sets [dockerConfig], from [process.env.DOCKER_HOST]
    and [process.platform]. *)
Definition dockerConfig (DOCKER_HOST : option string) (platform : string)
  : completion dockerOptions :=
  if truthy (env_value DOCKER_HOST) then
    let dockerHost := default "" DOCKER_HOST in
    if startsWith dockerHost "tcp://" then
      match URL dockerHost with
      | inl url =>
          Normal {| host := Some (Url.hostname url);
                    port := Some (parseInt (Url.port url));
                    socketPath := None |}
      | inr e => Throw e
      end
    else if startsWith dockerHost "unix://" then
      Normal {| host := None; port := None;
                socketPath := Some (replace dockerHost "unix://" "") |}
    else
      Normal {| host := None; port := None; socketPath := Some dockerHost |}
  else
    if String.eqb platform "win32"
    then Normal {| host := Some "localhost"; port := Some (Num 2375); socketPath := None |}
    else Normal {| host := None; port := None; socketPath := Some "/var/run/docker.sock" |}.

End Connection.

(** ** The outside world *)

(** A promise settles: it is fulfilled with a value or rejected with an
    error. *)
Inductive settled (A : Type) : Type :=
| Fulfilled (a : A)
| Rejected (e : error).
Arguments Fulfilled {A} a.
Arguments Rejected {A} e.

(** A mount of a listed container. *)
Record mountPoint : Type := { Source : string; Destination : string }.

(** An entry of [docker.listContainers]: a container with its state
    ("created", "running", "exited", ...). *)
Module Listed.
Record t : Type := {
  Id : string;
  State : string;
  Labels : option (gmap string string);
  Mounts : option (list mountPoint)
}.
End Listed.

(** What [container.inspect()] gives, as far as the script reads it. *)
Module Inspected.
Record t : Type := { Id : string; Status : string }.
End Inspected.

(** The file system, the Docker daemon and [path.join]. Every call may change
    the world and settles either way; created containers are known by a
    handle. [docker_listContainers] is [docker.listContainers({ all: true })],
    the only listing the script asks for: all the containers, running or
    not. [docker_pull] is the promise of [docker.pull(image)] as the script
    awaits it: what its fulfilment says of the image is the daemon's and the
    client library's affair, and nothing is assumed of it. *)
Class Runtime (W : Type) : Type := {
  path_join : string -> string -> string;
  fs_pathExists : string -> W -> settled bool * W;
  fs_readdir : string -> W -> settled (list string) * W;
  fs_readJson : string -> W -> settled value * W;
  docker_listContainers : W -> settled (list Listed.t) * W;
  image_inspect : string -> W -> settled unit * W;
  docker_pull : string -> W -> settled unit * W;
  docker_createContainer : containerConfig -> W -> settled string * W;
  container_start : string -> W -> settled unit * W;
  container_inspect : string -> W -> settled Inspected.t * W
}.

(** A line written by [console.log] or [console.error], with the values
    that are put into it. [LogBanner] stands for the four opening lines,
    [LogRule] for the line of [=] signs; [LogMemory] holds the value given to
    [formatBytes], not the text it returns. *)
Inductive logLine : Type :=
| LogBanner (dataDir : string) (network : value) (ssh : bool)
| LogDataDirNotFound (dataDir : string)
| LogSearchingMount
| LogFoundContainers (n : nat)
| LogNoMount (dataDir : string)
| LogUsingMount (source : string)
| LogHostPathFailed (msg : string)
| LogNoServerDirs
| LogFoundDirs (n : nat)
| LogSkipNoMetadata (serverId : string)
| LogProcessing (serverId : string)
| LogName (text : string)
| LogVersion (text : string)
| LogNetwork (text : string)
| LogMemory (bytes : value)
| LogAlreadyExists (id12 : string)
| LogCheckError (msg : string)
| LogPort (p : value)
| LogPortNone
| LogPulling (image : string)
| LogCreated (id12 : string)
| LogNetworkType (v : option value)
| LogStatus (s : string)
| LogError (msg : string)
| LogRule
| LogSuccessCount (n : nat)
| LogFailedCount (n : nat)
| LogAllRecreated
| LogFatal (msg : string).

(** What can be observed of a run: the lines written and the calls made, each
    with how it settled. *)
Inductive event : Type :=
| EvLog (l : logLine)
| EvPathExists (p : string) (r : settled bool)
| EvReaddir (p : string) (r : settled (list string))
| EvReadJson (p : string) (r : settled value)
| EvListContainers (r : settled (list Listed.t))
| EvImageInspect (image : string) (r : settled unit)
| EvPull (image : string) (r : settled unit)
| EvCreateContainer (c : containerConfig) (r : settled string)
| EvStart (h : string) (r : settled unit)
| EvInspect (h : string) (r : settled Inspected.t).

(** The two counters of the batch. *)
Record counters : Type := { successCount : nat; failureCount : nat }.

(** ** Statements *)

Section Script.

Context {W : Type} {RT : Runtime W}.
Variable penv : process_env.

(** A statement runs in a world, ends with a completion, leaves a world
    and the events it caused. *)
Definition M (A : Type) : Type := W -> completion A * W * list event.

Definition ret {A} (a : A) : M A := fun w => (Normal a, w, []).

Definition bind {A B} (m : M A) (k : A -> M B) : M B :=
  fun w =>
    match m w with
    | (Normal a, w1, t1) => let '(r, w2, t2) := k a w1 in (r, w2, t1 ++ t2)
    | (Throw e, w1, t1) => (Throw e, w1, t1)
    | (Continue, w1, t1) => (Continue, w1, t1)
    | (Exit c, w1, t1) => (Exit c, w1, t1)
    end.

Notation "x <- m ;; k" := (bind m (fun x => k))
  (at level 100, m at next level, right associativity).
Notation "m ;;; k" := (bind m (fun _ => k))
  (at level 100, right associativity).

Definition log (l : logLine) : M unit := fun w => (Normal tt, w, [EvLog l]).

Definition continue {A} : M A := fun w => (Continue, w, []).

(** [process.exit(code)] *)
Definition exit {A} (code : Z) : M A := fun w => (Exit code, w, []).

(** A pure expression that may throw. *)
Definition lift {A} (c : completion A) : M A := fun w => (c, w, []).

(** [await call]: the answer is recorded; a rejection is thrown. *)
Definition await {A} (call : W -> settled A * W) (ev : settled A -> event) : M A :=
  fun w =>
    let '(r, w1) := call w in
    (match r with Fulfilled a => Normal a | Rejected e => Throw e end, w1, [ev r]).

(** [try { m } catch (err) { h err }]: only a [throw] is caught. *)
Definition tryCatch {A} (m : M A) (h : error -> M A) : M A :=
  fun w =>
    match m w with
    | (Throw e, w1, t1) => let '(r, w2, t2) := h e w1 in (r, w2, t1 ++ t2)
    | other => other
    end.

(** [metadata.name], the first read of a property of what [readJson]
    returned: [null] has no properties and the read throws, with a message
    that names the property; a value that is not an object has none of the
    properties the script reads. *)
Definition toObject (v : value) : completion metadata :=
  match v with
  | VUndefined =>
      Throw (TypeError "Cannot read properties of undefined (reading 'name')")
  | VNull => Throw (TypeError "Cannot read properties of null (reading 'name')")
  | VObj o => Normal o
  | _ => Normal ∅
  end.

(** [formatBytes(bytes)] computes in floating point. What is kept of it: it
    converts [bytes] to a number first ([Math.log]), which throws for the
    values whose conversion to a string throws and for no other; and, in
    place of the text it returns, the value it is given. *)
Definition formatBytes (bytes : value) : completion value :=
  and_then (to_string bytes) (fun _ => Normal bytes).

(** The loop over the containers and [Mounts.find] in [getHostDataPath]:
    the first mount of the first container that has one on the manager's
    data path. *)
Fixpoint find_minecraftMount (containers : list Listed.t) : option mountPoint :=
  match containers with
  | [] => None
  | c :: r =>
      match Listed.Mounts c with
      | None => find_minecraftMount r
      | Some ms =>
          match List.find (fun m => String.eqb (Destination m) "/app/minecraft-data") ms with
          | Some mount => Some mount
          | None => find_minecraftMount r
          end
      end
  end.

Definition getHostDataPath : M string :=
  tryCatch
    (log LogSearchingMount ;;;
     containers <- await docker_listContainers EvListContainers ;;
     log (LogFoundContainers (length containers)) ;;;
     match find_minecraftMount containers with
     | None => log (LogNoMount (DATA_DIR penv)) ;;; ret (DATA_DIR penv)
     | Some minecraftMount =>
         log (LogUsingMount (Source minecraftMount)) ;;; ret (Source minecraftMount)
     end)
    (fun err => log (LogHostPathFailed (message err)) ;;; ret (DATA_DIR penv)).

(** [c.Labels?.['server-id'] === serverId] *)
Definition has_server_id (serverId : string) (c : Listed.t) : bool :=
  match Listed.Labels c with
  | Some ls =>
      match ls !! "server-id" with
      | Some v => String.eqb v serverId
      | None => false
      end
  | None => false
  end.

(** The object literal [containerConfig] of the loop body, with the
    environment that [buildContainerEnv] has returned. *)
Definition literalConfig (hostServerPath serverId : string) (m : metadata)
  (env : list string) : containerConfig :=
  {| Image := BEDROCK_IMAGE;
     name := serverId;
     Labels := {[ "server-id" := VStr serverId;
                  "server-name" := js_or (prop m "name") (VStr "Bedrock Server") ]};
     Env := env;
     HostConfig := Some {| Binds := Some [hostServerPath +:+ ":/data"];
                           RestartPolicy := Some "unless-stopped";
                           Memory := Some (js_or (prop m "memory") (VNum "2147483648"));
                           NetworkMode := None;
                           PortBindings := None |};
     ExposedPorts := None |}.

(** The evaluation of the literal: the call of [buildContainerEnv] is the one
    part of it that may throw. *)
Definition initialConfig (hostServerPath serverId : string) (m : metadata)
  : completion containerConfig :=
  and_then (buildContainerEnv penv m)
    (fun env => Normal (literalConfig hostServerPath serverId m env)).

(** The description as the loop body builds it: the literal, then
    [applyNetworkConfig], then [applyPortConfig], whose result comes with
    it. *)
Definition buildConfig (hostServerPath serverId : string) (m : metadata)
  : completion (containerConfig * value) :=
  and_then (initialConfig hostServerPath serverId m) (fun containerConfig =>
  let containerConfig := applyNetworkConfig penv containerConfig m in
  applyPortConfig penv containerConfig m).

(** The [try] block of the loop body, up to and without [successCount++]. *)
Definition tryBlock (hostDataPath serverId : string) : M unit :=
  let serverPath := path_join (DATA_DIR penv) serverId in
  let metadataPath := path_join serverPath "metadata.json" in
  present <- await (fs_pathExists metadataPath) (EvPathExists metadataPath) ;;
  if negb present then log (LogSkipNoMetadata serverId) ;;; continue
  else
    json <- await (fs_readJson metadataPath) (EvReadJson metadataPath) ;;
    let hostServerPath := path_join hostDataPath serverId in
    log (LogProcessing serverId) ;;;
    metadata <- lift (toObject json) ;;
    name <- lift (to_string (js_or (prop metadata "name") (VStr "Bedrock Server"))) ;;
    log (LogName name) ;;;
    version <- lift (to_string (js_or (prop metadata "version") (VStr "LATEST"))) ;;
    log (LogVersion version) ;;;
    network <- lift (to_string (js_or (prop metadata "network")
                                  (VStr "bridge (default)"))) ;;
    log (LogNetwork network) ;;;
    memory <- lift (formatBytes (js_or (prop metadata "memory") (VNum "2147483648"))) ;;
    log (LogMemory memory) ;;;
    tryCatch
      (containers <- await docker_listContainers EvListContainers ;;
       match List.find (has_server_id serverId) containers with
       | Some existing =>
           log (LogAlreadyExists (substring0 12 (Listed.Id existing))) ;;; continue
       | None => ret tt
       end)
      (fun err => log (LogCheckError (message err))) ;;;
    applied <- lift (buildConfig hostServerPath serverId metadata) ;;
    let containerConfig := fst applied in
    let portResult := snd applied in
    (if truthy portResult then log (LogPort portResult) else log LogPortNone) ;;;
    tryCatch
      (await (image_inspect BEDROCK_IMAGE) (EvImageInspect BEDROCK_IMAGE))
      (fun err =>
         log (LogPulling BEDROCK_IMAGE) ;;;
         await (docker_pull BEDROCK_IMAGE) (EvPull BEDROCK_IMAGE)) ;;;
    container <- await (docker_createContainer containerConfig)
                       (EvCreateContainer containerConfig) ;;
    await (container_start container) (EvStart container) ;;;
    containerInfo <- await (container_inspect container) (EvInspect container) ;;
    let hasCustomNetwork := networkMode_of penv metadata in
    log (LogCreated (substring0 12 (Inspected.Id containerInfo))) ;;;
    (if truthy hasCustomNetwork
     then log (LogNetworkType (NetworkMode (hostConfig_or_empty containerConfig)))
     else ret tt) ;;;
    log (LogStatus (Inspected.Status containerInfo)).

(** One turn of the [for] loop: the [try] block, [successCount++] at its
    end, and the [catch] that writes the error and counts it. *)
Definition iteration (hostDataPath serverId : string) (c : counters)
  : W -> counters * W * list event :=
  fun w =>
    match tryBlock hostDataPath serverId w with
    | (Normal _, w1, t) =>
        ({| successCount := S (successCount c); failureCount := failureCount c |}, w1, t)
    | (Throw err, w1, t) =>
        ({| successCount := successCount c; failureCount := S (failureCount c) |}, w1,
         t ++ [EvLog (LogError (message err))])
    | (Continue, w1, t) => (c, w1, t)
    | (Exit _, w1, t) => (c, w1, t)
    end.

(** [for (const serverId of serverDirs) ...] *)
Fixpoint serverLoop (hostDataPath : string) (serverDirs : list string) (c : counters)
  : W -> counters * W * list event :=
  fun w =>
    match serverDirs with
    | [] => (c, w, [])
    | serverId :: rest =>
        let '(c1, w1, t1) := iteration hostDataPath serverId c w in
        let '(c2, w2, t2) := serverLoop hostDataPath rest c1 w1 in
        (c2, w2, t1 ++ t2)
    end.

(** [items.filter(item => item.startsWith('bedrock-'))] *)
Definition serverDirs_of (items : list string) : list string :=
  List.filter (fun item => startsWith item "bedrock-") items.

(** The summary written after the loop. *)
Definition summary (c : counters) : M unit :=
  log LogRule ;;;
  log (LogSuccessCount (successCount c)) ;;;
  (if (0 <? failureCount c)%nat then log (LogFailedCount (failureCount c)) else ret tt) ;;;
  log LogRule ;;;
  (if ((failureCount c =? 0) && (0 <? successCount c))%nat then log LogAllRecreated else ret tt).

Definition recreateServers : M unit :=
  tryCatch
    (log (LogBanner (DATA_DIR penv) (js_or (DOCKER_NETWORK penv) (VStr "default (bridge)"))
            (ENABLE_SSH penv)) ;;;
     present <- await (fs_pathExists (DATA_DIR penv)) (EvPathExists (DATA_DIR penv)) ;;
     if negb present then log (LogDataDirNotFound (DATA_DIR penv)) ;;; exit 1
     else
       hostDataPath <- getHostDataPath ;;
       items <- await (fs_readdir (DATA_DIR penv)) (EvReaddir (DATA_DIR penv)) ;;
       let serverDirs := serverDirs_of items in
       if (length serverDirs =? 0)%nat then log LogNoServerDirs ;;; exit 0
       else
         log (LogFoundDirs (length serverDirs)) ;;;
         c <- (fun w => let '(c, w1, t) :=
                          serverLoop hostDataPath serverDirs
                            {| successCount := 0; failureCount := 0 |} w in
                        (Normal c, w1, t)) ;;
         summary c)
    (fun err => log (LogFatal (message err)) ;;; exit 1).

End Script.

Arguments M W : clear implicits.

(** ** A world to run the script in

    A small file system and a Docker daemon that keeps the containers it is
    asked to create, under their labels. *)
Module Sim.

Inductive file : Type :=
| Dir (entries : list string)
| Json (v : value)
| Garbage.

Record world : Type := {
  files : gmap string file;
  containers : list Listed.t;
  listingUp : bool;
  imageLocal : bool;
  registryUp : bool
}.

Definition with_containers (cs : list Listed.t) (w : world) : world :=
  {| files := files w; containers := cs; listingUp := listingUp w;
     imageLocal := imageLocal w; registryUp := registryUp w |}.

Definition with_image (w : world) : world :=
  {| files := files w; containers := containers w; listingUp := listingUp w;
     imageLocal := true; registryUp := registryUp w |}.

Definition pathExists (p : string) (w : world) : settled bool * world :=
  (Fulfilled (bool_decide (is_Some (files w !! p))), w).

Definition readdir (p : string) (w : world) : settled (list string) * world :=
  match files w !! p with
  | Some (Dir es) => (Fulfilled es, w)
  | _ => (Rejected (Error "ENOENT: no such directory"), w)
  end.

Definition readJson (p : string) (w : world) : settled value * world :=
  match files w !! p with
  | Some (Json v) => (Fulfilled v, w)
  | Some Garbage => (Rejected (Error "Unexpected token in JSON"), w)
  | _ => (Rejected (Error "ENOENT: no such file"), w)
  end.

Definition listContainers (w : world) : settled (list Listed.t) * world :=
  if listingUp w then (Fulfilled (containers w), w)
  else (Rejected (Error "socket hang up"), w).

Definition imageInspect (image : string) (w : world) : settled unit * world :=
  if imageLocal w then (Fulfilled tt, w)
  else (Rejected (Error "No such image"), w).

Definition pull (image : string) (w : world) : settled unit * world :=
  if registryUp w then (Fulfilled tt, with_image w)
  else (Rejected (Error "pull access denied"), w).

(** A label as the daemon keeps it: a string. *)
Definition label_text (v : value) : string :=
  match to_string v with Normal s => s | _ => "" end.

Definition createContainer (c : containerConfig) (w : world) : settled string * world :=
  let id := "c0ffee-" +:+ name c in
  if negb (imageLocal w) then (Rejected (Error "No such image"), w)
  else if existsb (fun x => String.eqb (Listed.Id x) id) (containers w)
  then (Rejected (Error "Conflict: the container name is already in use"), w)
  else
    (Fulfilled id,
     with_containers
       (containers w ++
          [ {| Listed.Id := id;
               Listed.State := "created";
               Listed.Labels := Some (label_text <$> Labels c);
               Listed.Mounts := Some [] |} ]) w).

Definition set_running (h : string) (x : Listed.t) : Listed.t :=
  if String.eqb (Listed.Id x) h
  then {| Listed.Id := Listed.Id x; Listed.State := "running";
          Listed.Labels := Listed.Labels x; Listed.Mounts := Listed.Mounts x |}
  else x.

Definition start (h : string) (w : world) : settled unit * world :=
  (Fulfilled tt, with_containers (set_running h <$> containers w) w).

Definition inspect (h : string) (w : world) : settled Inspected.t * world :=
  match List.find (fun x => String.eqb (Listed.Id x) h) (containers w) with
  | Some x => (Fulfilled {| Inspected.Id := h; Inspected.Status := Listed.State x |}, w)
  | None => (Rejected (Error "No such container"), w)
  end.

#[export] Instance runtime : Runtime world := {
  path_join a b := a +:+ "/" +:+ b;
  fs_pathExists := pathExists;
  fs_readdir := readdir;
  fs_readJson := readJson;
  docker_listContainers := listContainers;
  image_inspect := imageInspect;
  docker_pull := pull;
  docker_createContainer := createContainer;
  container_start := start;
  container_inspect := inspect
}.

(** The same daemon as the client library shows it while an image is
    downloaded: the promise of [docker.pull] is fulfilled with the stream
    that reports the progress, as soon as the download has started, and the
    image is there only when that stream has ended, later than any run of
    this script, which does not read the stream. *)
Definition pull_started (image : string) (w : world) : settled unit * world :=
  if registryUp w then (Fulfilled tt, w)
  else (Rejected (Error "pull access denied"), w).

Definition downloading : Runtime world := {|
  path_join a b := a +:+ "/" +:+ b;
  fs_pathExists := pathExists;
  fs_readdir := readdir;
  fs_readJson := readJson;
  docker_listContainers := listContainers;
  image_inspect := imageInspect;
  docker_pull := pull_started;
  docker_createContainer := createContainer;
  container_start := start;
  container_inspect := inspect
|}.

Definition penv0 : process_env :=
  {| env_DATA_DIR := Some "/srv"; env_DOCKER_NETWORK := None; env_ENABLE_SSH := None |}.

(** Three server directories: one sound, one whose metadata does not
    parse, one without metadata; and the manager's own container. *)
Definition w0 : world :=
  {| files := {[ "/srv" := Dir ["bedrock-a"; "notes.txt"; "bedrock-b"; "bedrock-c"];
                 "/srv/bedrock-a/metadata.json" :=
                   Json (VObj {[ "name" := VStr "Survival"; "network" := VStr "minecraft-macvlan" ]});
                 "/srv/bedrock-b/metadata.json" := Garbage ]};
     containers := [ {| Listed.Id := "manager0"; Listed.State := "running";
                        Listed.Labels := None;
                        Listed.Mounts := Some [ {| Source := "/host/data";
                                                   Destination := "/app/minecraft-data" |} ] |} ];
     listingUp := true;
     imageLocal := false;
     registryUp := true |}.

(** A world whose daemon no longer answers listings. *)
Definition listing_down (w : world) : world :=
  {| files := files w; containers := containers w; listingUp := false;
     imageLocal := true; registryUp := registryUp w |}.

Definition w_down : world := listing_down w0.

(** Three server directories with metadata, the second of which does not
    parse; the third stores a port. *)
Definition w_batch : world :=
  {| files := {[ "/srv" := Dir ["bedrock-a"; "bedrock-b"; "README"; "bedrock-d"];
                 "/srv/bedrock-a/metadata.json" :=
                   Json (VObj {[ "name" := VStr "Survival"; "network" := VStr "minecraft-macvlan" ]});
                 "/srv/bedrock-b/metadata.json" := Garbage;
                 "/srv/bedrock-d/metadata.json" :=
                   Json (VObj {[ "name" := VStr "Creative"; "port" := VNum "19133" ]}) ]};
     containers := containers w0;
     listingUp := true;
     imageLocal := true;
     registryUp := true |}.

Definition corrupted (serverId : string) : bool := String.eqb serverId "bedrock-b".

(** A world in which the only container with a mount on the data path of
    the manager is a manager that has exited. *)
Definition w_stale : world :=
  {| files := files w0;
     containers := [ {| Listed.Id := "manager-old"; Listed.State := "exited";
                        Listed.Labels := None;
                        Listed.Mounts := Some [ {| Source := "/old/data";
                                                   Destination := "/app/minecraft-data" |} ] |} ];
     listingUp := true;
     imageLocal := true;
     registryUp := true |}.

(** A world with two containers that have a mount on the data path of the
    manager; the first has another mount before it. *)
Definition w_two : world :=
  {| files := files w0;
     containers := [ {| Listed.Id := "manager0"; Listed.State := "running";
                        Listed.Labels := None;
                        Listed.Mounts := Some [ {| Source := "/host/temp";
                                                   Destination := "/app/temp" |};
                                                {| Source := "/host/data";
                                                   Destination := "/app/minecraft-data" |} ] |};
                     {| Listed.Id := "manager-old"; Listed.State := "exited";
                        Listed.Labels := None;
                        Listed.Mounts := Some [ {| Source := "/old/data";
                                                   Destination := "/app/minecraft-data" |} ] |} ];
     listingUp := true;
     imageLocal := true;
     registryUp := true |}.

Definition c0 : counters := {| successCount := 0; failureCount := 0 |}.

End Sim.

(** * The entrypoint of the container

    The shell script at the head of [src/docker-entrypoint.sh]: as root it
    gives the user [node] access to the Docker socket and hands over to the
    command under that user; otherwise it hands over at once. The commands
    it runs are an interface; the script is run under [set -e]. A command
    that only reads leaves the system as it is, and [echo] succeeds. *)
Module Entrypoint.

(** The commands that change the groups. *)
Inductive command : Type :=
| Delgroup (group : string)
| AddgroupGid (gid group : string)
| AddgroupUser (user group : string).

(** What the script asks of the system and does to it. [id_u] is the number
    that [id -u] prints, if it prints one; [id_un], [stat_c] and [stat_f]
    are the output of [id -un], [stat -c %g] and [stat -f%g] when they
    succeed; [getent_group] is the entry of a group given by name or number,
    when there is one; a command that changes the groups succeeds or
    fails. *)
Class System (S : Type) : Type := {
  id_u : S -> option Z;
  id_un : S -> option string;
  is_socket : string -> S -> bool;
  stat_c : string -> S -> option string;
  stat_f : string -> S -> option string;
  getent_group : string -> S -> option string;
  run_command : command -> S -> bool * S
}.

(** The lines written with [echo]. *)
Inductive line : Type :=
| SayRoot
| SaySocket (gid : string)
| SayRemoving
| SayCreating (gid : string)
| SayExists (gid group : string)
| SayRenaming (group : string)
| SayAdding
| SayNoGid
| SayNoSocket
| SayDropping
| SayNonRoot (user : string) (uid : option Z).

Inductive event : Type :=
| Said (l : line)
| Ran (c : command) (ok : bool).

(** How the script ends: it hands over to a command with [exec], or it is
    stopped by a command that fails. *)
Inductive outcome : Type :=
| Exec (argv : list string)
| Aborted.

(** [cut -d: -f1] of a line *)
Fixpoint cut_f1 (s : string) : string :=
  match s with
  | EmptyString => EmptyString
  | String c r => if Ascii.eqb c ":" then EmptyString else String c (cut_f1 r)
  end.

Section Script.

Context {S : Type} {SYS : System S}.

(** A part of the script: it goes on, or the script is stopped. *)
Definition sh : Type := S -> bool * S * list event.

Definition echo (l : line) : sh := fun s => (true, s, [Said l]).

(** A command on a line of its own: under [set -e] its failure stops the
    script. *)
Definition run (c : command) : sh :=
  fun s => let '(ok, s1) := run_command c s in (ok, s1, [Ran c ok]).

(** [c || true] *)
Definition run_or_true (c : command) : sh :=
  fun s => let '(ok, s1) := run_command c s in (true, s1, [Ran c ok]).

Definition seq (a b : sh) : sh :=
  fun s =>
    match a s with
    | (true, s1, t1) => let '(ok, s2, t2) := b s1 in (ok, s2, t1 ++ t2)
    | (false, s1, t1) => (false, s1, t1)
    end.

Definition skip : sh := fun s => (true, s, []).

Notation "a ;; b" := (seq a b) (at level 100, right associativity).

Definition socket : string := "/var/run/docker.sock".

(** [$(stat -c %g ... || stat -f%g ... || echo "0")] *)
Definition DOCKER_GID (s : S) : string :=
  match stat_c socket s with
  | Some g => g
  | None => match stat_f socket s with
            | Some g => g
            | None => "0"
            end
  end.

(** The body of [if [ "$DOCKER_GID" != "0" ]]. *)
Definition setup_group (gid : string) : sh :=
  fun s =>
    ((match getent_group gid s with
      | None =>
          (match getent_group "docker" s with
           | Some _ => echo SayRemoving ;; run_or_true (Delgroup "docker")
           | None => skip
           end) ;;
          echo (SayCreating gid) ;;
          run (AddgroupGid gid "docker")
      | Some entry =>
          let EXISTING_GROUP := cut_f1 entry in
          echo (SayExists gid EXISTING_GROUP) ;;
          if negb (String.eqb EXISTING_GROUP "docker") then
            echo (SayRenaming EXISTING_GROUP) ;;
            run_or_true (Delgroup EXISTING_GROUP) ;;
            run (AddgroupGid gid "docker")
          else skip
      end) ;;
     echo SayAdding ;;
     run (AddgroupUser "node" "docker")) s.

(** The branch taken as root, up to the [exec]. *)
Definition as_root : sh :=
  fun s =>
    (echo SayRoot ;;
     if is_socket socket s then
       let gid := DOCKER_GID s in
       echo (SaySocket gid) ;;
       if negb (String.eqb gid "0") then setup_group gid
       else echo SayNoGid
     else echo SayNoSocket) s.

(** The script, called with the arguments ["$@"]. *)
Definition entrypoint (args : list string) (s : S) : outcome * S * list event :=
  match id_u s with
  | Some 0 =>
      match (as_root ;; echo SayDropping) s with
      | (true, s1, t) => (Exec ("su-exec" :: "node" :: args), s1, t)
      | (false, s1, t) => (Aborted, s1, t)
      end
  | _ =>
      match id_un s with
      | Some CURRENT_USER => (Exec args, s, [Said (SayNonRoot CURRENT_USER (id_u s))])
      | None => (Aborted, s, [])
      end
  end.

End Script.

(** The commands on the groups that were run, each with its success. *)
Definition commands (t : list event) : list (command * bool) :=
  omap (fun e => match e with Ran c ok => Some (c, ok) | Said _ => None end) t.

(** A system to run the entrypoint in: the groups with their numbers and
    members. *)
Module Sim.

Record group : Type := { group_name : string; group_gid : string; members : list string }.

Record system : Type := {
  uid : Z;
  socket_gid : option string;
  groups : list group
}.

Definition entry (g : group) : string := group_name g +:+ ":x:" +:+ group_gid g +:+ ":".

Definition getent (key : string) (s : system) : option string :=
  entry <$> List.find (fun g => String.eqb (group_name g) key || String.eqb (group_gid g) key)
              (groups s).

Definition with_groups (gs : list group) (s : system) : system :=
  {| uid := uid s; socket_gid := socket_gid s; groups := gs |}.

Definition command_run (c : command) (s : system) : bool * system :=
  match c with
  | Delgroup n =>
      if existsb (fun g => String.eqb (group_name g) n) (groups s)
      then (true, with_groups (List.filter (fun g => negb (String.eqb (group_name g) n))
                                 (groups s)) s)
      else (false, s)
  | AddgroupGid gid n =>
      if existsb (fun g => String.eqb (group_name g) n || String.eqb (group_gid g) gid)
           (groups s)
      then (false, s)
      else (true, with_groups (groups s ++ [ {| group_name := n; group_gid := gid;
                                                members := [] |} ]) s)
  | AddgroupUser u n =>
      if existsb (fun g => String.eqb (group_name g) n) (groups s)
      then (true, with_groups
                    ((fun g => if String.eqb (group_name g) n
                               then {| group_name := group_name g; group_gid := group_gid g;
                                       members := members g ++ [u] |}
                               else g) <$> groups s) s)
      else (false, s)
  end.

#[export] Instance sys : System system := {
  id_u s := Some (uid s);
  id_un s := Some (if (uid s =? 0)%Z then "root" else "node");
  is_socket p s := String.eqb p "/var/run/docker.sock" && bool_decide (is_Some (socket_gid s));
  stat_c p s := if String.eqb p "/var/run/docker.sock" then socket_gid s else None;
  stat_f p s := None;
  getent_group := getent;
  run_command := command_run
}.

(** Root, a socket of group 998, which is the group [ping], and a group
    [docker] with another number. *)
Definition s0 : system :=
  {| uid := 0; socket_gid := Some "998";
     groups := [ {| group_name := "node"; group_gid := "1000"; members := ["node"] |};
                 {| group_name := "ping"; group_gid := "998"; members := [] |};
                 {| group_name := "docker"; group_gid := "101"; members := [] |} ] |}.

(** Root, the same socket, and no group with its number or called
    [docker]. *)
Definition s_fresh : system :=
  {| uid := 0; socket_gid := Some "998";
     groups := [ {| group_name := "node"; group_gid := "1000"; members := ["node"] |} ] |}.

(** Root and no socket. *)
Definition s_plain : system :=
  {| uid := 0; socket_gid := None; groups := groups s0 |}.

(** The user [node]. *)
Definition s_node : system :=
  {| uid := 1000; socket_gid := Some "998"; groups := groups s0 |}.

End Sim.

End Entrypoint.

(** * The vocabulary of the properties *)

(** [s] has a part that is [word] up to the case of its letters. *)
Definition contains_ignoring_case (s word : string) : Prop :=
  exists pre mid post, s = pre +:+ mid +:+ post /\ toLowerCase mid = toLowerCase word.

(** The name of a network on which a container has an address of its own. *)
Definition names_direct_mode (s : string) : Prop :=
  contains_ignoring_case s "macvlan" \/ contains_ignoring_case s "ipvlan".

(** The network a record names, when it names one: a string that is not
    empty under the key [network]. *)
Definition record_network (m : metadata) : option string :=
  match m !! "network" with
  | Some (VStr s) => if String.eqb s "" then None else Some s
  | _ => None
  end.

(** The global default network, when there is one: the variable
    [DOCKER_NETWORK] of the environment, set and not empty. *)
Definition default_network (penv : process_env) : option string :=
  match env_DOCKER_NETWORK penv with
  | Some s => if String.eqb s "" then None else Some s
  | None => None
  end.

(** The effective network: the network of the record if it is set, else the
    global default. *)
Definition effective_network (penv : process_env) (m : metadata) : option string :=
  match record_network m with
  | Some s => Some s
  | None => default_network penv
  end.

(** The network of the record is of the data model: absent, or a string, or
    one of the values that count as not set ([null], [false], [0]). *)
Definition network_well_typed (m : metadata) : Prop :=
  forall v, m !! "network" = Some v -> truthy v = false \/ exists s, v = VStr s.

(** The text of a field of the record in an entry of the environment: the
    default when the field is absent or holds a value that counts as not set
    ([null], [false], a zero, the empty string); a string as it is; a number
    by the text it is written with; [true]; and for an array or an object
    the text that JavaScript gives it. *)
Definition field_text (m : metadata) (k default text : string) : Prop :=
  match m !! k with
  | None | Some VUndefined | Some VNull | Some (VBool false) => text = default
  | Some (VBool true) => text = "true"
  | Some (VNum t) =>
      text = if String.eqb t "0" || String.eqb t "NaN" then default else t
  | Some (VStr s) => text = if String.eqb s "" then default else s
  | Some v => to_string v = Normal text
  end.

(** The lines that report a server as skipped. *)
Definition is_skip (e : event) : bool :=
  match e with
  | EvLog (LogSkipNoMetadata _) | EvLog (LogAlreadyExists _) => true
  | _ => false
  end.

(** The requests for a container. *)
Definition is_create (e : event) : bool :=
  match e with EvCreateContainer _ _ => true | _ => false end.

(** The line [getHostDataPath] starts with. *)
Definition is_search (e : event) : bool :=
  match e with EvLog LogSearchingMount => true | _ => false end.

(** How many events of a kind a run has. *)
Definition count (f : event -> bool) (t : list event) : nat := length (List.filter f t).

(** What the script has seen of the image when it asks for a container: the
    events before end with a fulfilled inspection of the image, or with a
    rejected one followed by the announcement of the pull and the fulfilled
    promise of [docker.pull]. *)
Definition image_ready (pre : list event) (image : string) : Prop :=
  [EvImageInspect image (Fulfilled tt)] `suffix_of` pre \/
  exists e, [EvImageInspect image (Rejected e); EvLog (LogPulling image);
             EvPull image (Fulfilled tt)] `suffix_of` pre.

(** Every request for a container in [t] comes right after these events. *)
Definition creations_guarded (t : list event) : Prop :=
  forall pre cfg r post,
    t = pre ++ EvCreateContainer cfg r :: post -> image_ready pre (Image cfg).

(** The pure parts of the body end normally or throw. *)
Definition ends_or_throws {A} (c : completion A) : Prop :=
  match c with Normal _ | Throw _ => True | Continue | Exit _ => False end.

(** What the run of a body shows of its directory. [metadata.json] is
    there. *)
Definition has_metadata (t : list event) : Prop :=
  forall p r, EvPathExists p r ∈ t -> r = Fulfilled true.

(** The metadata cannot be read. *)
Definition metadata_corrupted (t : list event) : Prop :=
  forall p r, EvReadJson p r ∈ t -> exists e, r = Rejected e.

(** The four fields that the body writes to the console have a text. *)
Definition fields_have_text (m : metadata) : Prop :=
  forall k, k ∈ ["name"; "version"; "network"; "memory"] ->
            exists s, to_string (prop m k) = Normal s.

(** Nothing stands in the way of creating the container: the metadata is an
    object whose fields have a text, with a network the policy accepts, no
    listed container carries the label of the server, and every call to
    Docker that is made is fulfilled, the inspection of the image apart. *)
Definition creation_unhindered (penv : process_env) (serverId : string) (t : list event)
  : Prop :=
  (forall p r, EvReadJson p r ∈ t ->
     exists json m b, r = Fulfilled json /\ toObject json = Normal m /\
                      fields_have_text m /\
                      requiresPortMapping penv m = Normal b) /\
  (forall cs, EvListContainers (Fulfilled cs) ∈ t ->
     List.find (has_server_id serverId) cs = None) /\
  (forall i r, EvPull i r ∈ t -> r = Fulfilled tt) /\
  (forall c r, EvCreateContainer c r ∈ t -> exists h, r = Fulfilled h) /\
  (forall h r, EvStart h r ∈ t -> r = Fulfilled tt) /\
  (forall h r, EvInspect h r ∈ t -> exists i, r = Fulfilled i).




(** The lines of the summary for given counters. *)
Definition summary_lines (c : counters) : list event :=
  [EvLog LogRule; EvLog (LogSuccessCount (successCount c))] ++
  (if (0 <? failureCount c)%nat then [EvLog (LogFailedCount (failureCount c))] else []) ++
  [EvLog LogRule] ++
  (if ((failureCount c =? 0) && (0 <? successCount c))%nat then [EvLog LogAllRecreated] else []).

(** The line that opens a run of the script. *)
Definition banner (penv : process_env) : event :=
  EvLog (LogBanner (DATA_DIR penv) (js_or (DOCKER_NETWORK penv) (VStr "default (bridge)"))
           (ENABLE_SSH penv)).

Section Traces.

Context {W : Type} {RT : Runtime W}.
Variable penv : process_env.

(** The events of a run of the loop, body by body, each with its server. *)
Fixpoint iterationTraces (hostDataPath : string) (serverDirs : list string) (c : counters)
  (w : W) : list (string * list event) :=
  match serverDirs with
  | [] => []
  | serverId :: rest =>
      let '(c1, w1, t1) := iteration penv hostDataPath serverId c w in
      (serverId, t1) :: iterationTraces hostDataPath rest c1 w1
  end.

End Traces.

(** The same three conditions as checks on the events, one event at a
    time. *)
Definition metadata_present (e : event) : bool :=
  match e with
  | EvPathExists _ (Fulfilled true) => true
  | EvPathExists _ _ => false
  | _ => true
  end.

Definition metadata_unreadable (e : event) : bool :=
  match e with
  | EvReadJson _ (Rejected _) => true
  | EvReadJson _ (Fulfilled _) => false
  | _ => true
  end.

Definition has_text (v : value) : bool :=
  match to_string v with Normal _ => true | _ => false end.

Definition unhindered (penv : process_env) (serverId : string) (e : event) : bool :=
  match e with
  | EvReadJson _ (Fulfilled json) =>
      match toObject json with
      | Normal m =>
          forallb (fun k => has_text (prop m k)) ["name"; "version"; "network"; "memory"] &&
          match requiresPortMapping penv m with Normal _ => true | _ => false end
      | _ => false
      end
  | EvListContainers (Fulfilled cs) =>
      match List.find (has_server_id serverId) cs with None => true | Some _ => false end
  | EvReadJson _ (Rejected _) | EvPull _ (Rejected _) | EvCreateContainer _ (Rejected _)
  | EvStart _ (Rejected _) | EvInspect _ (Rejected _) => false
  | _ => true
  end.

(** The scenario of a batch with corrupted metadata, checked on the run of
    one body. *)
Definition scenario_check (penv : process_env) (corrupted : string -> bool)
  (run : string * list event) : bool :=
  forallb metadata_present run.2 &&
  (if corrupted run.1 then forallb metadata_unreadable run.2
   else forallb (unhindered penv run.1) run.2).

(** ** Further vocabulary: the lines, the calls and their order *)

(** The fields of a description that the two helpers leave alone. *)
Definition same_identity (c c' : containerConfig) : Prop :=
  Image c' = Image c /\ name c' = name c /\ Labels c' = Labels c /\ Env c' = Env c /\
  Binds (hostConfig_or_empty c') = Binds (hostConfig_or_empty c) /\
  RestartPolicy (hostConfig_or_empty c') = RestartPolicy (hostConfig_or_empty c) /\
  Memory (hostConfig_or_empty c') = Memory (hostConfig_or_empty c).

(** The line that reports a failed server. *)
Definition is_error (e : event) : bool :=
  match e with EvLog (LogError _) => true | _ => false end.

(** The line that reports a created container. *)
Definition is_created (e : event) : bool :=
  match e with EvLog (LogCreated _) => true | _ => false end.

(** The calls to the Docker daemon. *)
Definition is_docker (e : event) : bool :=
  match e with
  | EvListContainers _ | EvImageInspect _ _ | EvPull _ _ | EvCreateContainer _ _
  | EvStart _ _ | EvInspect _ _ => true
  | _ => false
  end.

(** What only the script outside the loop writes or asks. *)
Definition is_outer (e : event) : bool :=
  match e with
  | EvLog (LogBanner _ _ _) | EvLog (LogDataDirNotFound _) | EvLog LogSearchingMount
  | EvLog (LogFoundContainers _) | EvLog (LogNoMount _) | EvLog (LogUsingMount _)
  | EvLog (LogHostPathFailed _) | EvLog LogNoServerDirs | EvLog (LogFoundDirs _)
  | EvLog LogRule | EvLog (LogSuccessCount _) | EvLog (LogFailedCount _)
  | EvLog LogAllRecreated | EvLog (LogFatal _) | EvReaddir _ _ => true
  | _ => false
  end.

(** The status a line announces: the three lines that come with
    [process.exit]. *)
Definition exit_line (e : event) : option Z :=
  match e with
  | EvLog (LogDataDirNotFound _) | EvLog (LogFatal _) => Some 1
  | EvLog LogNoServerDirs => Some 0
  | _ => None
  end.

(** The paths asked for with [fs.pathExists], in order. *)
Definition pathExists_paths (t : list event) : list string :=
  omap (fun e => match e with EvPathExists p _ => Some p | _ => None end) t.

(** The entries that [fs.readdir] has given. *)
Definition readdir_entries (t : list event) : list string :=
  concat (omap (fun e => match e with
                         | EvReaddir _ (Fulfilled items) => Some items
                         | _ => None
                         end) t).

(** What has to come just before a call: before the start of a container,
    the fulfilled request that made it; before its inspection, its fulfilled
    start; before a pull, the rejected inspection of the image and the line
    that announces the pull. And before the line of a created container, the
    fulfilled inspection whose [Id] the line shows. *)
Definition call_ready (pre : list event) (x : event) : Prop :=
  match x with
  | EvStart h _ => exists cfg, [EvCreateContainer cfg (Fulfilled h)] `suffix_of` pre
  | EvInspect h _ => [EvStart h (Fulfilled tt)] `suffix_of` pre
  | EvPull image _ =>
      exists e, [EvImageInspect image (Rejected e); EvLog (LogPulling image)] `suffix_of` pre
  | EvLog (LogCreated id12) =>
      exists h info, [EvInspect h (Fulfilled info)] `suffix_of` pre /\
                     id12 = substring0 12 (Inspected.Id info)
  | _ => True
  end.

Definition is_ordered_call (e : event) : bool :=
  match e with
  | EvStart _ _ | EvInspect _ _ | EvPull _ _ | EvLog (LogCreated _) => true
  | _ => false
  end.

(** Every call of [t] comes when it is ready. *)
Definition calls_in_order (t : list event) : Prop :=
  forall pre x post, t = pre ++ x :: post -> call_ready pre x.

(** The rejected calls. *)
Definition is_rejection (e : event) : bool :=
  match e with
  | EvPathExists _ (Rejected _) | EvReaddir _ (Rejected _) | EvReadJson _ (Rejected _)
  | EvListContainers (Rejected _) | EvImageInspect _ (Rejected _) | EvPull _ (Rejected _)
  | EvCreateContainer _ (Rejected _) | EvStart _ (Rejected _) | EvInspect _ (Rejected _) => true
  | _ => false
  end.

(** The line [l] is what the script writes for the rejected call [x]: for a
    rejected listing, the line of the check or of the search for the mount;
    for a rejected inspection of the image, the announcement of the pull;
    for [readdir], the fatal line; for [pathExists], the fatal line or the
    line of the failed server; for any other call, the line of the failed
    server. All but the announcement carry the message of the rejection. *)
Definition reports (l : logLine) (x : event) : Prop :=
  match x with
  | EvListContainers (Rejected e) =>
      l = LogCheckError (message e) \/ l = LogHostPathFailed (message e)
  | EvImageInspect image (Rejected _) => l = LogPulling image
  | EvReaddir _ (Rejected e) => l = LogFatal (message e)
  | EvPathExists _ (Rejected e) => l = LogError (message e) \/ l = LogFatal (message e)
  | EvReadJson _ (Rejected e) | EvPull _ (Rejected e) | EvCreateContainer _ (Rejected e)
  | EvStart _ (Rejected e) | EvInspect _ (Rejected e) => l = LogError (message e)
  | _ => False
  end.

(** What follows an answer at once: after a rejection, the line that reports
    it; after metadata that is [null], the line that names the server and
    the line of its failure. *)
Definition answer_followed (x : event) (post : list event) : Prop :=
  (is_rejection x = true -> exists l post', post = EvLog l :: post' /\ reports l x) /\
  (forall p json e, x = EvReadJson p (Fulfilled json) -> toObject json = Throw e ->
     exists d post', post = EvLog (LogProcessing d) :: EvLog (LogError (message e)) :: post').

(** Every answer of [t] is followed as it should. *)
Definition answers_followed (t : list event) : Prop :=
  forall pre x post, t = pre ++ x :: post -> answer_followed x post.

Section RunShapes.

Context {W : Type} {RT : Runtime W}.
Variable penv : process_env.

(** [metadataPath] of the loop body, for a server directory. *)
Definition metadataPath (serverId : string) : string :=
  path_join (path_join (DATA_DIR penv) serverId) "metadata.json".

(** The events of the search for the mount. *)
Definition search_events (t : list event) : Prop :=
  (exists e, t = [EvLog LogSearchingMount; EvListContainers (Rejected e);
                  EvLog (LogHostPathFailed (message e))]) \/
  (exists cs l, t = [EvLog LogSearchingMount; EvListContainers (Fulfilled cs);
                     EvLog (LogFoundContainers (length cs)); EvLog l] /\
                (l = LogNoMount (DATA_DIR penv) \/ exists s, l = LogUsingMount s)).

(** The ways a run of the script can go, with its events. *)
Definition run_events (r : completion unit) (t : list event) : Prop :=
  let D := DATA_DIR penv in
  (exists e, r = Exit 1 /\
     t = [banner penv; EvPathExists D (Rejected e); EvLog (LogFatal (message e))]) \/
  (r = Exit 1 /\
     t = [banner penv; EvPathExists D (Fulfilled false); EvLog (LogDataDirNotFound D)]) \/
  (exists th, search_events th /\
     ((exists e, r = Exit 1 /\
         t = [banner penv; EvPathExists D (Fulfilled true)] ++ th ++
             [EvReaddir D (Rejected e); EvLog (LogFatal (message e))]) \/
      (exists items, serverDirs_of items = [] /\ r = Exit 0 /\
         t = [banner penv; EvPathExists D (Fulfilled true)] ++ th ++
             [EvReaddir D (Fulfilled items); EvLog LogNoServerDirs]) \/
      (exists hdp items w3 c (w4 : W) tl,
         serverDirs_of items <> [] /\
         serverLoop penv hdp (serverDirs_of items)
           {| successCount := 0; failureCount := 0 |} w3 = (c, w4, tl) /\
         r = Normal tt /\
         t = [banner penv; EvPathExists D (Fulfilled true)] ++ th ++
             [EvReaddir D (Fulfilled items);
              EvLog (LogFoundDirs (length (serverDirs_of items)))] ++ tl ++
             summary_lines c))).

End RunShapes.

(** * Properties *)

(** ** Strings *)

Lemma prefix_spec (p s : string) :
  String.prefix p s = true <-> exists post, s = p +:+ post.
Proof.
  revert s. induction p as [|a p IH]; intros s.
  - split; [intros _; exists s; reflexivity | by destruct s].
  - destruct s as [|b s]; simpl.
    + split; [discriminate | intros [post H]; discriminate H].
    + destruct (Ascii.ascii_dec a b) as [->|Hne].
      * rewrite IH. split; intros [post H]; exists post.
        -- simpl. by rewrite H.
        -- simpl in H. by injection H.
      * split; [discriminate|]. intros [post H]. simpl in H.
        injection H as H1 _. congruence.
Qed.

Lemma includes_unfold (s sub : string) :
  includes s sub =
    if String.prefix sub s then true
    else match s with
         | EmptyString => false
         | String _ r => includes r sub
         end.
Proof. destruct s; reflexivity. Qed.

Lemma includes_spec (s sub : string) :
  includes s sub = true <-> exists pre post, s = pre +:+ sub +:+ post.
Proof.
  induction s as [|c s IH]; rewrite includes_unfold;
    destruct (String.prefix sub _) eqn:Hp.
  - apply prefix_spec in Hp as [post Hp].
    split; [intros _; exists "", post; exact Hp | reflexivity].
  - split; [discriminate|]. intros ([|c pre] & post & H); simpl in H.
    + assert (String.prefix sub "" = true) as Ht
        by (apply prefix_spec; exists post; exact H).
      congruence.
    + discriminate H.
  - apply prefix_spec in Hp as [post Hp].
    split; [intros _; exists "", post; exact Hp | reflexivity].
  - rewrite IH. split.
    + intros (pre & post & ->). exists (String c pre), post. reflexivity.
    + intros ([|d pre] & post & H); simpl in H.
      * assert (String.prefix sub (String c s) = true) as Ht
          by (apply prefix_spec; exists post; exact H).
        congruence.
      * injection H as _ H. exists pre, post. exact H.
Qed.

Lemma toLowerCase_app (a b : string) :
  toLowerCase (a +:+ b) = toLowerCase a +:+ toLowerCase b.
Proof. induction a as [|c a IH]; simpl; [reflexivity | by rewrite IH]. Qed.

Lemma toLowerCase_app_inv (s a b : string) :
  toLowerCase s = a +:+ b ->
  exists a' b', s = a' +:+ b' /\ toLowerCase a' = a /\ toLowerCase b' = b.
Proof.
  revert s. induction a as [|c a IH]; intros s H; simpl in H.
  - exists "", s. auto.
  - destruct s as [|d s]; simpl in H; [discriminate|].
    injection H as Hc Hs. destruct (IH s Hs) as (a' & b' & -> & Ha & Hb).
    exists (String d a'), b'. simpl. by rewrite Hc, Ha.
Qed.

Lemma includes_toLowerCase (s word : string) :
  toLowerCase word = word ->
  includes (toLowerCase s) word = true <-> contains_ignoring_case s word.
Proof.
  intros Hw. rewrite includes_spec. unfold contains_ignoring_case. split.
  - intros (pre & post & H).
    apply toLowerCase_app_inv in H as (pre' & r & -> & _ & H).
    apply toLowerCase_app_inv in H as (mid & post' & -> & H & _).
    exists pre', mid, post'. by rewrite Hw.
  - intros (pre & mid & post & -> & H).
    exists (toLowerCase pre), (toLowerCase post).
    by rewrite !toLowerCase_app, H, Hw.
Qed.

(** ** The network policy *)

Lemma networkMode_of_cases penv (m : metadata) :
  truthy (networkMode_of penv m) = false \/
  (exists s, networkMode_of penv m = VStr s) \/
  (truthy (prop m "network") = true /\ networkMode_of penv m = prop m "network").
Proof.
  unfold networkMode_of, js_or.
  destruct (truthy (prop m "network")) eqn:Ht; [right; right; auto|].
  unfold DOCKER_NETWORK, js_or, env_value.
  destruct (env_DOCKER_NETWORK penv) as [s|]; simpl; [|left; reflexivity].
  destruct (String.eqb s ""); simpl; [left; reflexivity|right; left; eauto].
Qed.

Lemma requiresPortMapping_string penv (m : metadata) (s : string) :
  networkMode_of penv m = VStr s -> truthy (VStr s) = true ->
  requiresPortMapping penv m =
    Normal (negb (includes (toLowerCase s) "macvlan" || includes (toLowerCase s) "ipvlan")).
Proof.
  intros Hn Ht. unfold requiresPortMapping. rewrite Hn, Ht. simpl.
  destruct (includes (toLowerCase s) "macvlan"); [reflexivity|].
  destruct (includes (toLowerCase s) "ipvlan"); reflexivity.
Qed.

Lemma requiresPortMapping_absent penv (m : metadata) :
  truthy (networkMode_of penv m) = false -> requiresPortMapping penv m = Normal true.
Proof. intros Ht. unfold requiresPortMapping. by rewrite Ht. Qed.

Lemma requiresPortMapping_not_string penv (m : metadata) :
  truthy (networkMode_of penv m) = true ->
  (forall s, networkMode_of penv m <> VStr s) ->
  exists e, requiresPortMapping penv m = Throw e.
Proof.
  intros Ht Hs. unfold requiresPortMapping. rewrite Ht. simpl.
  destruct (networkMode_of penv m); simpl; eauto. by destruct (Hs s).
Qed.

Lemma direct_mode_includes (s : string) :
  includes (toLowerCase s) "macvlan" || includes (toLowerCase s) "ipvlan" = true
  <-> names_direct_mode s.
Proof.
  unfold names_direct_mode.
  rewrite <- !includes_toLowerCase by reflexivity.
  rewrite orb_true_iff. reflexivity.
Qed.

Lemma not_direct_empty : ~ names_direct_mode "".
Proof. rewrite <- direct_mode_includes. discriminate. Qed.

(** The effective network is what the policy reads, when the network of
    the record is of the data model. *)
Lemma effective_network_read penv (m : metadata) :
  network_well_typed m ->
  match effective_network penv m with
  | Some s => networkMode_of penv m = VStr s /\ truthy (VStr s) = true
  | None => truthy (networkMode_of penv m) = false
  end.
Proof.
  intros Hty. unfold effective_network, record_network, networkMode_of, js_or, prop.
  assert (Hd : match default_network penv with
               | Some s => DOCKER_NETWORK penv = VStr s /\ truthy (VStr s) = true
               | None => truthy (DOCKER_NETWORK penv) = false
               end).
  { unfold default_network, DOCKER_NETWORK, js_or, env_value.
    destruct (env_DOCKER_NETWORK penv) as [s|]; simpl; [|reflexivity].
    destruct (String.eqb s "") eqn:E; simpl; rewrite ?E; simpl;
      [reflexivity|split; reflexivity]. }
  destruct (m !! "network") as [v|] eqn:Hv; simpl; [|exact Hd].
  destruct (Hty v Hv) as [Hf|[s ->]].
  - rewrite Hf. destruct v as [| | | |s| |]; try exact Hd; try discriminate Hf.
    simpl in Hf. destruct (String.eqb s ""); [exact Hd|discriminate Hf].
  - simpl. destruct (String.eqb s "") eqn:E; simpl; rewrite ?E; simpl;
      [exact Hd|split; reflexivity].
Qed.

(** C1. For a record whose network is of the data model and any global
    default network, [requiresPortMapping] is false exactly when the
    effective network, the network of the record if it is set and else the
    global default, is a name that contains "macvlan" or "ipvlan" whatever
    the case of its letters; it is true exactly when no network is set at
    all or the name contains neither; and it is one of the two. For a
    network that is not of the data model it throws. *)
Theorem requiresPortMapping_spec penv (m : metadata) :
  (network_well_typed m ->
   (requiresPortMapping penv m = Normal false <->
      exists s, effective_network penv m = Some s /\ names_direct_mode s) /\
   (requiresPortMapping penv m = Normal true <->
      effective_network penv m = None \/
      exists s, effective_network penv m = Some s /\ ~ names_direct_mode s) /\
   exists b, requiresPortMapping penv m = Normal b) /\
  (~ network_well_typed m -> exists e, requiresPortMapping penv m = Throw e).
Proof.
  split.
  - intros Hty. pose proof (effective_network_read penv m Hty) as He.
    destruct (effective_network penv m) as [s|].
    + destruct He as [Hn Ht].
      rewrite (requiresPortMapping_string penv m s Hn Ht).
      pose proof (direct_mode_includes s) as Hd.
      destruct (includes (toLowerCase s) "macvlan" || includes (toLowerCase s) "ipvlan");
        simpl; (split; [|split; [|eauto]]).
      * split; [intros _; exists s; split; [reflexivity|by apply Hd]|reflexivity].
      * split; [discriminate|]. intros [[=]|(s' & [= <-] & H)]. destruct H. by apply Hd.
      * split; [discriminate|]. intros (s' & [= <-] & H). apply Hd in H. discriminate.
      * split; [|reflexivity]. intros _. right. exists s. split; [reflexivity|].
        intros H. apply Hd in H. discriminate.
    + rewrite (requiresPortMapping_absent penv m He). split; [|split; [|eauto]].
      * split; [discriminate|]. intros (s & [=] & _).
      * split; [auto|reflexivity].
  - intros Hn.
    destruct (m !! "network") as [v|] eqn:Hv.
    + assert (truthy v = true /\ forall s, v <> VStr s) as [Ht Hs].
      { destruct (truthy v) eqn:Ht.
        - split; [reflexivity|]. intros s ->. apply Hn. intros v' Hv'.
          rewrite Hv in Hv'. injection Hv' as <-. eauto.
        - destruct Hn. intros v' Hv'. rewrite Hv in Hv'. injection Hv' as <-. auto. }
      assert (networkMode_of penv m = v) as Heq
        by (unfold networkMode_of, js_or, prop; rewrite Hv; simpl; by rewrite Ht).
      apply requiresPortMapping_not_string; rewrite Heq; auto.
    + destruct Hn. intros v Hv'. rewrite Hv in Hv'. discriminate Hv'.
Qed.

(** A record without a network under a global default of the ipvlan kind;
    the scenario of the documentation, a network named after macvlan; and a
    server on the bridge. *)
Lemma requiresPortMapping_spec_witness :
  let lan := {| env_DATA_DIR := None; env_DOCKER_NETWORK := Some "lan-ipvlan";
                env_ENABLE_SSH := None |} in
  requiresPortMapping lan {[ "name" := VStr "Survival" ]} = Normal false /\
  requiresPortMapping lan {[ "network" := VStr "bridge" ]} = Normal true /\
  requiresPortMapping Sim.penv0 {[ "network" := VStr "Minecraft-MacVLAN" ]} = Normal false /\
  requiresPortMapping Sim.penv0 {[ "name" := VStr "Survival" ]} = Normal true.
Proof.
  intros lan.
  assert (Hty : forall k s, network_well_typed {[ k := VStr s ]}).
  { intros k s v Hv. apply lookup_singleton_Some in Hv as [_ <-]. eauto. }
  split; [|split; [|split]].
  - destruct (requiresPortMapping_spec lan {[ "name" := VStr "Survival" ]}) as [H _].
    apply (H (Hty _ _)). exists "lan-ipvlan". split; [reflexivity|].
    right. exists "lan-", "ipvlan", "". split; reflexivity.
  - destruct (requiresPortMapping_spec lan {[ "network" := VStr "bridge" ]}) as [H _].
    apply (H (Hty _ _)). right. exists "bridge". split; [reflexivity|].
    rewrite <- direct_mode_includes. discriminate.
  - destruct (requiresPortMapping_spec Sim.penv0 {[ "network" := VStr "Minecraft-MacVLAN" ]})
      as [H _].
    apply (H (Hty _ _)). exists "Minecraft-MacVLAN". split; [reflexivity|].
    left. exists "Minecraft-", "MacVLAN", "". split; reflexivity.
  - destruct (requiresPortMapping_spec Sim.penv0 {[ "name" := VStr "Survival" ]}) as [H _].
    apply (H (Hty _ _)). left. reflexivity.
Defined.

(** ** The container description *)

(** A conversion gives a text or throws the one error. *)
Lemma join_result (text : value -> completion string) (l : list value) :
  Forall (fun x => (exists s, text x = Normal s) \/ text x = Throw cannot_convert) l ->
  (exists s, join text l = Normal s) \/ join text l = Throw cannot_convert.
Proof.
  induction 1 as [|x r Hx _ IH]; [left; by eexists|].
  assert (Hx' : let c := match x with
                         | VUndefined | VNull => Normal ""
                         | _ => text x
                         end in
                (exists s, c = Normal s) \/ c = Throw cannot_convert)
    by (destruct x; simpl; eauto).
  cbn [join]. simpl in Hx'.
  destruct Hx' as [[sx ->]| ->]; simpl; [|by right].
  destruct r as [|y r']; [left; by eexists|].
  destruct IH as [[sr ->]| ->]; simpl; [left; by eexists|by right].
Qed.

Lemma to_string_result :
  forall v : value, (exists s, to_string v = Normal s) \/ to_string v = Throw cannot_convert.
Proof.
  fix IH 1. intros [| |[|]| | |l|o]; simpl; try (left; by eexists).
  - apply join_result. revert l. fix IHl 1.
    intros [|x r]; constructor; [apply IH | apply IHl].
  - destruct (bool_decide (is_Some (o !! "toString"))); [by right|left; by eexists].
Qed.

Lemma to_string_ends (v : value) : ends_or_throws (to_string v).
Proof. by destruct (to_string_result v) as [[s ->]| ->]. Qed.

Lemma buildContainerEnv_ends penv (m : metadata) :
  ends_or_throws (buildContainerEnv penv m).
Proof.
  unfold buildContainerEnv.
  pose proof (to_string_ends (js_or (prop m "version") (VStr "LATEST"))) as Hv.
  pose proof (to_string_ends (js_or (prop m "name") (VStr "Bedrock Server"))) as Hn.
  destruct (to_string (js_or (prop m "version") _)); simpl; try done.
  destruct (to_string (js_or (prop m "name") _)); simpl; done.
Qed.

(** The environment is built exactly when the version and the name have a
    text, and then from these texts. *)
Lemma buildContainerEnv_built penv (m : metadata) (env : list string) :
  buildContainerEnv penv m = Normal env <->
  exists version name,
    to_string (js_or (prop m "version") (VStr "LATEST")) = Normal version /\
    to_string (js_or (prop m "name") (VStr "Bedrock Server")) = Normal name /\
    env = ["EULA=TRUE"; "VERSION=" +:+ version; "SERVER_NAME=" +:+ name] ++
          (if ENABLE_SSH penv then ["ENABLE_SSH=TRUE"] else []).
Proof.
  unfold buildContainerEnv.
  destruct (to_string (js_or (prop m "version") _)) as [version| | |]; simpl.
  2-4: split; [discriminate|]; intros (? & ? & [=] & _).
  destruct (to_string (js_or (prop m "name") _)) as [name| | |]; simpl.
  2-4: split; [discriminate|]; intros (? & ? & _ & [=] & _).
  split.
  - intros [= <-]. exists version, name. by destruct (ENABLE_SSH penv).
  - intros (? & ? & [= <-] & [= <-] & ->). by destruct (ENABLE_SSH penv).
Qed.

(** A value has a text exactly when it has one with a default in its
    place. *)
Lemma to_string_js_or (v : value) (d : string) :
  (exists s, to_string (js_or v (VStr d)) = Normal s) <-> exists s, to_string v = Normal s.
Proof.
  unfold js_or. destruct (truthy v) eqn:Ht; [reflexivity|].
  split; intros _; [|simpl; eauto].
  destruct v as [| |[|]| | | |]; simpl; try discriminate Ht; eauto.
Qed.

Lemma buildContainerEnv_throws penv (m : metadata) (e : error) :
  buildContainerEnv penv m = Throw e ->
  e = cannot_convert /\
  ((exists s, to_string (prop m "version") = Normal s) ->
   (exists s, to_string (prop m "name") = Normal s) -> False).
Proof.
  unfold buildContainerEnv. intros H. split.
  - destruct (to_string_result (js_or (prop m "version") (VStr "LATEST")))
      as [[v Hv]|Hv]; rewrite Hv in H; simpl in H; [|congruence].
    destruct (to_string_result (js_or (prop m "name") (VStr "Bedrock Server")))
      as [[n Hn]|Hn]; rewrite Hn in H; simpl in H; congruence.
  - intros Hv Hn.
    apply (to_string_js_or _ "LATEST") in Hv as [v Hv].
    apply (to_string_js_or _ "Bedrock Server") in Hn as [n Hn].
    rewrite Hv in H. simpl in H. rewrite Hn in H. discriminate H.
Qed.

Lemma hostConfig_of_applyNetworkConfig penv hostServerPath serverId (m : metadata) env :
  exists h, HostConfig (applyNetworkConfig penv
                          (literalConfig hostServerPath serverId m env) m)
            = Some h /\ PortBindings h = None /\
            Binds h = Some [hostServerPath +:+ ":/data"].
Proof.
  unfold applyNetworkConfig. destruct (truthy (networkMode_of penv m)); simpl; eauto.
Qed.

Lemma exposedPorts_of_applyNetworkConfig penv hostServerPath serverId (m : metadata) env :
  ExposedPorts (applyNetworkConfig penv (literalConfig hostServerPath serverId m env) m)
  = None.
Proof. unfold applyNetworkConfig. by destruct (truthy (networkMode_of penv m)). Qed.

(** The description is built from the environment, when there is one;
    without it nothing is built. *)
Lemma buildConfig_with_env penv hostServerPath serverId (m : metadata) env :
  buildContainerEnv penv m = Normal env ->
  buildConfig penv hostServerPath serverId m =
  applyPortConfig penv
    (applyNetworkConfig penv (literalConfig hostServerPath serverId m env) m) m.
Proof. intros H. unfold buildConfig, initialConfig. by rewrite H. Qed.

Lemma buildConfig_without_env penv hostServerPath serverId (m : metadata) e :
  buildContainerEnv penv m = Throw e ->
  buildConfig penv hostServerPath serverId m = Throw e.
Proof. intros H. unfold buildConfig, initialConfig. by rewrite H. Qed.

Lemma buildConfig_env penv hostServerPath serverId (m : metadata) c v :
  buildConfig penv hostServerPath serverId m = Normal (c, v) ->
  exists env,
    buildContainerEnv penv m = Normal env /\
    applyPortConfig penv
      (applyNetworkConfig penv (literalConfig hostServerPath serverId m env) m) m
    = Normal (c, v).
Proof.
  unfold buildConfig, initialConfig.
  destruct (buildContainerEnv penv m) as [env| | |]; simpl; try discriminate. eauto.
Qed.

(** When port mapping is required the description binds 19132/udp to the
    host port 19132 and the port 19132 is returned, whatever the record
    holds. *)
Lemma buildConfig_mapped penv hostServerPath serverId (m : metadata) env :
  requiresPortMapping penv m = Normal true ->
  buildContainerEnv penv m = Normal env ->
  exists c h,
    buildConfig penv hostServerPath serverId m = Normal (c, VNum "19132") /\
    HostConfig c = Some h /\
    PortBindings h = Some {[ "19132/udp" := [ {| HostPort := "19132" |} ] ]} /\
    ExposedPorts c = None.
Proof.
  intros Hr He. rewrite (buildConfig_with_env _ _ _ _ _ He). unfold applyPortConfig.
  rewrite Hr. eexists _, _. split; [reflexivity|]. simpl. split; [reflexivity|].
  split; [reflexivity|]. apply exposedPorts_of_applyNetworkConfig.
Qed.

(** C4. A record that stores the port 19133 and names no network needs port
    mapping; the description built from it binds 19132/udp to the host port
    19132, not to the stored port. *)
Theorem buildConfig_stored_port :
  let m : metadata := {[ "name" := VStr "Creative"; "port" := VNum "19133" ]} in
  requiresPortMapping Sim.penv0 m = Normal true /\
  to_string (prop m "port") = Normal "19133" /\
  exists c h,
    buildConfig Sim.penv0 "/host/data/bedrock-b" "bedrock-b" m = Normal (c, VNum "19132") /\
    HostConfig c = Some h /\
    PortBindings h = Some {[ "19132/udp" := [ {| HostPort := "19132" |} ] ]}.
Proof.
  intros m. split; [reflexivity|]. split; [reflexivity|].
  destruct (buildConfig_mapped Sim.penv0 "/host/data/bedrock-b" "bedrock-b" m _
              eq_refl eq_refl) as (c & h & Hb & Hh & Hp & _).
  eauto.
Qed.

(** C5. When port mapping is not required, every description that is built
    exposes 19132/udp, has a host configuration without port bindings, and
    comes with no host port; one is built whenever the environment of the
    container is, and when that throws nothing is built. *)
Theorem buildConfig_direct penv hostServerPath serverId (m : metadata) :
  requiresPortMapping penv m = Normal false ->
  (forall c v, buildConfig penv hostServerPath serverId m = Normal (c, v) ->
     v = VNull /\ ExposedPorts c = Some {[ "19132/udp" := tt ]} /\
     exists h, HostConfig c = Some h /\ PortBindings h = None) /\
  (forall env, buildContainerEnv penv m = Normal env ->
     exists c, buildConfig penv hostServerPath serverId m = Normal (c, VNull) /\
               Env c = env) /\
  (forall e, buildContainerEnv penv m = Throw e ->
     buildConfig penv hostServerPath serverId m = Throw e).
Proof.
  intros Hr. split; [|split].
  - intros c v Hb. apply buildConfig_env in Hb as (env & He & Hb).
    unfold applyPortConfig in Hb. rewrite Hr in Hb. injection Hb as <- <-.
    destruct (hostConfig_of_applyNetworkConfig penv hostServerPath serverId m env)
      as (h & Hh & Hp & _).
    split; [reflexivity|]. split; [reflexivity|]. exists h. simpl. auto.
  - intros env He. rewrite (buildConfig_with_env _ _ _ _ _ He). unfold applyPortConfig.
    rewrite Hr. eexists. split; [reflexivity|]. simpl.
    unfold applyNetworkConfig. by destruct (truthy (networkMode_of penv m)).
  - apply buildConfig_without_env.
Qed.

Lemma buildConfig_direct_witness :
  let m : metadata := {[ "network" := VStr "minecraft-macvlan" ]} in
  exists c,
    buildConfig Sim.penv0 "/host/data/bedrock-a" "bedrock-a" m = Normal (c, VNull) /\
    ExposedPorts c = Some {[ "19132/udp" := tt ]} /\
    exists h, HostConfig c = Some h /\ PortBindings h = None.
Proof.
  intros m.
  destruct (buildConfig_direct Sim.penv0 "/host/data/bedrock-a" "bedrock-a" m eq_refl)
    as (Hshape & Hbuilt & _).
  destruct (Hbuilt _ eq_refl) as (c & Hb & _).
  exists c. split; [exact Hb|]. by destruct (Hshape c VNull Hb) as (_ & He & Hh).
Defined.

(** The text of a field with its default in an entry of the environment. *)
Lemma field_text_read (m : metadata) (k default text : string) :
  to_string (js_or (prop m k) (VStr default)) = Normal text <-> field_text m k default text.
Proof.
  unfold field_text, js_or, prop.
  destruct (m !! k) as [[| |[|]|t|s|l|o]|]; simpl.
  all: try (split; [by intros [= <-]|by intros ->]).
  - destruct (String.eqb t "0" || String.eqb t "NaN"); simpl;
      (split; [by intros [= <-]|by intros ->]).
  - destruct (String.eqb s ""); simpl; (split; [by intros [= <-]|by intros ->]).
Qed.

(** C6. Whenever the environment of the container is built it is, in this
    order, the acceptance of the EULA, the version of the record, "LATEST"
    when the record has none, the name of the record, "Bedrock Server" when
    it has none, and then the SSH entry exactly when SSH is enabled. It is
    built for every record whose version and name have a text, which are all
    the records in which they are absent, strings, numbers, booleans or
    [null]; for any other record the call throws a [TypeError]. *)
Theorem buildContainerEnv_spec penv (m : metadata) :
  (forall env, buildContainerEnv penv m = Normal env ->
     (exists version name,
        field_text m "version" "LATEST" version /\
        field_text m "name" "Bedrock Server" name /\
        env = ["EULA=TRUE"; "VERSION=" +:+ version; "SERVER_NAME=" +:+ name] ++
              (if ENABLE_SSH penv then ["ENABLE_SSH=TRUE"] else [])) /\
     "EULA=TRUE" ∈ env /\
     ("ENABLE_SSH=TRUE" ∈ env <-> ENABLE_SSH penv = true)) /\
  ((exists env, buildContainerEnv penv m = Normal env) <->
     (exists s, to_string (prop m "version") = Normal s) /\
     (exists s, to_string (prop m "name") = Normal s)) /\
  ((forall k v, (k = "version" \/ k = "name") -> m !! k = Some v ->
                forall l o, v <> VArr l /\ v <> VObj o) ->
   exists env, buildContainerEnv penv m = Normal env) /\
  ((exists env, buildContainerEnv penv m = Normal env) \/
   buildContainerEnv penv m = Throw cannot_convert).
Proof.
  assert (Hbuilt : (exists env, buildContainerEnv penv m = Normal env) <->
     (exists s, to_string (prop m "version") = Normal s) /\
     (exists s, to_string (prop m "name") = Normal s)).
  { rewrite <- (to_string_js_or (prop m "version") "LATEST").
    rewrite <- (to_string_js_or (prop m "name") "Bedrock Server"). split.
    - intros [env H]. apply buildContainerEnv_built in H as (v & n & Hv & Hn & _). eauto.
    - intros [[v Hv] [n Hn]]. eexists. apply buildContainerEnv_built. eauto. }
  split; [|split; [exact Hbuilt|split]].
  - intros env H. apply buildContainerEnv_built in H as (v & n & Hv & Hn & ->).
    split; [|split].
    + exists v, n. by rewrite <- !field_text_read.
    + apply list_elem_of_here.
    + destruct (ENABLE_SSH penv); split; try done.
      * intros _. rewrite elem_of_app, !elem_of_cons. auto.
      * rewrite app_nil_r, !elem_of_cons, elem_of_nil. intros [H|[H|[H|[]]]]; discriminate H.
  - intros Hplain. apply Hbuilt.
    assert (Hk : forall k, k = "version" \/ k = "name" ->
                           exists s, to_string (prop m k) = Normal s).
    { intros k Hk. unfold prop. destruct (m !! k) as [v|] eqn:Hv; simpl; [|eauto].
      destruct v as [| |[|]| | |l|o]; simpl; eauto.
      - by destruct (Hplain k _ Hk Hv l ∅) as [? _].
      - by destruct (Hplain k _ Hk Hv [] o) as [_ ?]. }
    split; apply Hk; auto.
  - destruct (buildContainerEnv penv m) as [env|e| |] eqn:E; [eauto| |exfalso..].
    + right. by apply buildContainerEnv_throws in E as [-> _].
    + pose proof (buildContainerEnv_ends penv m) as H. by rewrite E in H.
    + pose proof (buildContainerEnv_ends penv m) as H. by rewrite E in H.
Qed.

(** A record of the data model; a version stored as the number 1.21; and a
    record outside the data model, whose name hides [toString]. *)
Lemma buildContainerEnv_spec_witness :
  buildContainerEnv Sim.penv0 {[ "name" := VStr "Survival" ]} =
    Normal ["EULA=TRUE"; "VERSION=LATEST"; "SERVER_NAME=Survival"] /\
  buildContainerEnv
    {| env_DATA_DIR := None; env_DOCKER_NETWORK := None; env_ENABLE_SSH := Some "1" |}
    {[ "version" := VNum "1.21" ]} =
    Normal ["EULA=TRUE"; "VERSION=1.21"; "SERVER_NAME=Bedrock Server"; "ENABLE_SSH=TRUE"] /\
  buildContainerEnv Sim.penv0 {[ "name" := VObj {[ "toString" := VNum "1" ]} ]} =
    Throw cannot_convert.
Proof.
  split; [|split].
  - destruct (buildContainerEnv_spec Sim.penv0 {[ "name" := VStr "Survival" ]})
      as (Hshape & _ & Hplain & _).
    destruct Hplain as [env He].
    { intros k v _ Hv l o. apply lookup_singleton_Some in Hv as [_ <-]. done. }
    destruct (Hshape env He) as ((v & n & Hv & Hn & ->) & _).
    rewrite He. vm_compute in Hv, Hn. by subst.
  - set (penv := {| env_DATA_DIR := None; env_DOCKER_NETWORK := None;
                    env_ENABLE_SSH := Some "1" |}).
    destruct (buildContainerEnv_spec penv {[ "version" := VNum "1.21" ]})
      as (Hshape & _ & Hplain & _).
    destruct Hplain as [env He].
    { intros k v _ Hv l o. apply lookup_singleton_Some in Hv as [_ <-]. done. }
    destruct (Hshape env He) as ((v & n & Hv & Hn & ->) & _).
    rewrite He. vm_compute in Hv, Hn. by subst.
  - destruct (buildContainerEnv_spec Sim.penv0
                {[ "name" := VObj {[ "toString" := VNum "1" ]} ]}) as (_ & Hiff & _ & Hc).
    destruct Hc as [[env He]|He]; [|exact He].
    destruct Hiff as [Hiff _]. destruct Hiff as [_ [s Hs]]; [eauto|].
    vm_compute in Hs. discriminate Hs.
Defined.


(** ** Runs of the loop body *)

Lemma count_app f (t1 t2 : list event) : count f (t1 ++ t2) = (count f t1 + count f t2)%nat.
Proof. unfold count. by rewrite List.filter_app, length_app. Qed.

Lemma count_cons f (x : event) (t : list event) :
  count f (x :: t) = ((if f x then 1 else 0) + count f t)%nat.
Proof. unfold count. simpl. by destruct (f x). Qed.

Lemma count_nil f : count f [] = 0%nat.
Proof. reflexivity. Qed.

Lemma image_ready_app (t pre : list event) (image : string) :
  image_ready pre image -> image_ready (t ++ pre) image.
Proof.
  intros [H|[e H]]; [left|right; exists e]; by apply suffix_app_r.
Qed.

Lemma creations_guarded_none (t : list event) :
  count is_create t = 0%nat -> creations_guarded t.
Proof.
  intros H pre cfg r post ->. rewrite count_app in H. cbn in H. lia.
Qed.

Lemma creations_guarded_app (t1 t2 : list event) :
  creations_guarded t1 -> creations_guarded t2 -> creations_guarded (t1 ++ t2).
Proof.
  intros H1 H2 pre cfg r post Heq.
  apply app_eq_inv in Heq as [(k & -> & Hk)|(k & -> & Hk)].
  - destruct k as [|x k]; simpl in Hk.
    + rewrite <- (app_nil_r pre). apply image_ready_app.
      apply (H2 [] cfg r post). by rewrite <- Hk.
    + injection Hk as <- ->. by apply (H1 pre cfg r k).
  - apply image_ready_app. by apply (H2 k cfg r post).
Qed.

Lemma requiresPortMapping_ends penv (m : metadata) :
  ends_or_throws (requiresPortMapping penv m).
Proof.
  unfold requiresPortMapping. destruct (truthy (networkMode_of penv m)); simpl; [|done].
  destruct (networkMode_of penv m); simpl; try done.
  destruct (includes (toLowerCase s) "macvlan"); [done|].
  by destruct (includes (toLowerCase s) "ipvlan").
Qed.

Lemma buildConfig_ends penv hostServerPath serverId (m : metadata) :
  ends_or_throws (buildConfig penv hostServerPath serverId m).
Proof.
  unfold buildConfig, initialConfig, applyPortConfig.
  pose proof (buildContainerEnv_ends penv m) as He.
  destruct (buildContainerEnv penv m); simpl; try done.
  pose proof (requiresPortMapping_ends penv m) as H.
  by destruct (requiresPortMapping penv m) as [[|]| | |].
Qed.

Lemma toObject_ends (v : value) : ends_or_throws (toObject v).
Proof. by destruct v. Qed.

Lemma formatBytes_ends (v : value) : ends_or_throws (formatBytes v).
Proof.
  unfold formatBytes. pose proof (to_string_ends v) as H. by destruct (to_string v).
Qed.

Lemma buildConfig_fields penv hostServerPath serverId (m : metadata) c v :
  buildConfig penv hostServerPath serverId m = Normal (c, v) ->
  Image c = BEDROCK_IMAGE /\ name c = serverId /\
  Labels c !! "server-id" = Some (VStr serverId) /\
  buildContainerEnv penv m = Normal (Env c) /\
  exists h, HostConfig c = Some h /\ Binds h = Some [hostServerPath +:+ ":/data"].
Proof.
  intros Hb. apply buildConfig_env in Hb as (env & He & Hb). revert Hb.
  unfold applyPortConfig.
  destruct (hostConfig_of_applyNetworkConfig penv hostServerPath serverId m env)
    as (h & Hh & _ & Hb).
  assert (Hpre : forall c0, c0 = applyNetworkConfig penv
                                   (literalConfig hostServerPath serverId m env) m ->
                 Image c0 = BEDROCK_IMAGE /\ name c0 = serverId /\
                 Labels c0 !! "server-id" = Some (VStr serverId) /\
                 Env c0 = env).
  { intros c0 ->. unfold applyNetworkConfig.
    destruct (truthy (networkMode_of penv m)); simpl; auto. }
  destruct (Hpre _ eq_refl) as (Hi & Hn & Hl & Hv).
  destruct (requiresPortMapping penv m) as [[|]| | |]; intros [= <- <-]; simpl;
    unfold hostConfig_or_empty; rewrite ?Hh, ?Hv; simpl; eauto 10.
Qed.

(** Once the name and the version have been written to the console, only
    the port policy can keep the description from being built. *)
Lemma buildConfig_throws penv hostServerPath serverId (m : metadata) e :
  buildConfig penv hostServerPath serverId m = Throw e ->
  buildContainerEnv penv m = Throw e \/ requiresPortMapping penv m = Throw e.
Proof.
  unfold buildConfig, initialConfig, applyPortConfig.
  destruct (buildContainerEnv penv m) as [env|e'| |]; simpl; try discriminate.
  - destruct (requiresPortMapping penv m) as [[|]| | |]; try discriminate.
    intros [= ->]. by right.
  - intros [= ->]. by left.
Qed.

Lemma buildConfig_throws_policy penv hostServerPath serverId (m : metadata) e n v :
  to_string (js_or (prop m "name") (VStr "Bedrock Server")) = Normal n ->
  to_string (js_or (prop m "version") (VStr "LATEST")) = Normal v ->
  buildConfig penv hostServerPath serverId m = Throw e ->
  requiresPortMapping penv m = Throw e.
Proof.
  intros Hn Hv [He|Hp]%buildConfig_throws; [|exact Hp].
  unfold buildContainerEnv in He. rewrite Hv in He. simpl in He. rewrite Hn in He.
  discriminate He.
Qed.

Lemma fields_have_text_lines (m : metadata) :
  fields_have_text m ->
  (exists s, to_string (js_or (prop m "name") (VStr "Bedrock Server")) = Normal s) /\
  (exists s, to_string (js_or (prop m "version") (VStr "LATEST")) = Normal s) /\
  (exists s, to_string (js_or (prop m "network") (VStr "bridge (default)")) = Normal s) /\
  (exists v, formatBytes (js_or (prop m "memory") (VNum "2147483648")) = Normal v).
Proof.
  intros H.
  assert (Hk : forall k, k ∈ ["name"; "version"; "network"; "memory"] ->
                         forall d, (exists s, to_string d = Normal s) ->
                                   exists s, to_string (js_or (prop m k) d) = Normal s).
  { intros k Hin d Hd. unfold js_or. destruct (truthy (prop m k)); [|exact Hd].
    by apply H. }
  repeat split.
  - apply Hk; [set_solver|]. simpl. eauto.
  - apply Hk; [set_solver|]. simpl. eauto.
  - apply Hk; [set_solver|]. simpl. eauto.
  - unfold formatBytes.
    destruct (Hk "memory" ltac:(set_solver) (VNum "2147483648")) as [s ->];
      simpl; eauto.
Qed.

(** ** Symbolic execution of the loop body

    The body is unfolded and every call it makes is settled either way;
    what is left is one goal for each path through the body, with the events
    of the path spelled out. *)
Ltac unfold_script :=
  unfold iteration, tryBlock, getHostDataPath, summary, bind, await, log, tryCatch,
    lift, ret, continue, exit.

Ltac reduce := cbn -[buildConfig to_string formatBytes js_or] in *.

Ltac settle call :=
  let r := fresh "r" in let w := fresh "w" in let E := fresh "E" in
  destruct call as [r w] eqn:E; destruct r; reduce.

(** The next step of the body that is not settled, in the order of the
    body. *)
Ltac next_call :=
  match goal with
  | |- context [fs_pathExists ?p ?w] => settle (fs_pathExists p w)
  | |- context [if negb ?b then _ else _] => destruct b; reduce
  | |- context [fs_readJson ?p ?w] => settle (fs_readJson p w)
  | |- context [toObject ?j] =>
      let H := fresh "H" in
      pose proof (toObject_ends j) as H;
      destruct (toObject j) eqn:?; try (by destruct H); clear H; reduce
  | |- context [to_string ?v] =>
      let H := fresh "H" in
      pose proof (to_string_ends v) as H;
      destruct (to_string v) eqn:?; try (by destruct H); clear H; reduce
  | |- context [formatBytes ?v] =>
      let H := fresh "H" in
      pose proof (formatBytes_ends v) as H;
      destruct (formatBytes v) eqn:?; try (by destruct H); clear H; reduce
  | |- context [docker_listContainers ?w] => settle (docker_listContainers w)
  | |- context [List.find ?f ?l] => destruct (List.find f l) eqn:?; reduce
  | |- context [buildConfig ?p ?a ?b ?m] =>
      let H := fresh "H" in
      pose proof (buildConfig_ends p a b m) as H;
      destruct (buildConfig p a b m) as [[? ?]| | |] eqn:?; try (by destruct H); clear H;
      reduce
  | |- context [image_inspect ?i ?w] => settle (image_inspect i w)
  | |- context [docker_pull ?i ?w] => settle (docker_pull i w)
  | |- context [docker_createContainer ?c ?w] => settle (docker_createContainer c w)
  | |- context [container_start ?h ?w] => settle (container_start h w)
  | |- context [container_inspect ?h ?w] => settle (container_inspect h w)
  | |- context [if truthy ?v then _ else _] => destruct (truthy v) eqn:?; reduce
  end.

Ltac run_iteration := unfold_script; reduce; repeat next_call.

Ltac in_trace H := repeat (apply elem_of_cons in H as [H|H]; [simplify_eq|]);
                   try (apply elem_of_nil in H; destruct H).

Ltac split_trace H pre :=
  repeat (destruct pre as [|? pre]; cbn [app] in H;
          [ first [discriminate H | injection H as H; simplify_eq]
          | first [discriminate H | injection H as <- H] ]).

Ltac find_in_trace :=
  solve [repeat first [apply list_elem_of_here | apply list_elem_of_further]].

Ltac use_event H :=
  let H' := fresh "Hev" in
  try (pose proof (H _ _ ltac:(find_in_trace)) as H'); clear H.

Ltac contradict_events :=
  repeat match goal with
         | H : exists _, _ |- _ => destruct H
         | H : _ /\ _ |- _ => destruct H
         | H : _ = _ |- _ => discriminate H
         | H : Fulfilled ?a = Fulfilled ?b |- _ => injection H as H; subst
         | H : Some _ = None |- _ => discriminate H
         | H1 : ?x = Some _, H2 : ?x = None |- _ => congruence
         | H1 : toObject ?j = Normal _, H2 : toObject ?j = Throw _ |- _ => congruence
         | H1 : toObject ?j = Normal _, H2 : toObject ?j = Normal _ |- _ =>
             rewrite H1 in H2; injection H2 as H2; subst
         end.

Section Runs.

Context {W : Type} {RT : Runtime W}.
Variable penv : process_env.


(** A body asks for at most one container, and never for the host path. *)
Lemma iteration_creates hostDataPath serverId c w c' w' t :
  iteration penv hostDataPath serverId c w = (c', w', t) ->
  (count is_create t <= 1)%nat /\ count is_search t = 0%nat.
Proof.
  run_iteration.
  all: intros [= <- <- <-]; cbn; auto.
Qed.

(** [containers.find(c => c.Labels?.['server-id'] === serverId)] finds a
    container exactly when one of the listed carries the label. *)
Lemma find_has_server_id (serverId : string) (cs : list Listed.t) :
  (exists x ls, x ∈ cs /\ Listed.Labels x = Some ls /\ ls !! "server-id" = Some serverId)
  <-> exists existing, List.find (has_server_id serverId) cs = Some existing.
Proof.
  assert (Hl : forall x, has_server_id serverId x = true <->
               exists ls, Listed.Labels x = Some ls /\ ls !! "server-id" = Some serverId).
  { intros x. unfold has_server_id. destruct (Listed.Labels x) as [ls|].
    - destruct (ls !! "server-id") as [v|] eqn:Hv.
      + destruct (String.eqb_spec v serverId) as [->|Hne].
        * split; [eauto | reflexivity].
        * split; [discriminate|]. intros (ls' & [= <-] & H). congruence.
      + split; [discriminate|]. intros (ls' & [= <-] & H). congruence.
    - split; [discriminate|]. intros (ls' & [=] & _). }
  split.
  - intros (x & ls & Hx & Hls & Hid).
    destruct (List.find (has_server_id serverId) cs) as [y|] eqn:Hf; [eauto|].
    apply list_elem_of_In in Hx.
    pose proof (List.find_none _ _ Hf x Hx) as Hn.
    assert (has_server_id serverId x = true) as Ht by (apply Hl; eauto).
    congruence.
  - intros [existing Hf]. apply List.find_some in Hf as [Hin Ht].
    apply Hl in Ht as (ls & Hls & Hid). exists existing, ls.
    split; [by apply list_elem_of_In | auto].
Qed.

(** When the listing of a body shows a container with the label of its
    server, the body reports it, asks for no container and counts
    nothing. *)
Lemma iteration_existing hostDataPath serverId c w c' w' t cs existing :
  iteration penv hostDataPath serverId c w = (c', w', t) ->
  EvListContainers (Fulfilled cs) ∈ t ->
  List.find (has_server_id serverId) cs = Some existing ->
  c' = c /\
  EvLog (LogAlreadyExists (substring0 12 (Listed.Id existing))) ∈ t /\
  count is_create t = 0%nat /\
  forall msg, EvLog (LogError msg) ∉ t.
Proof.
  run_iteration.
  all: intros [= <- <- <-] Hin Hfind; in_trace Hin.
  split; [reflexivity|]. split; [|split; [reflexivity|]].
  - rewrite !elem_of_cons. auto 10.
  - intros msg Hm. in_trace Hm.
Qed.

(** C9. After a rejected listing the error is written, the server is not
    skipped, and the body goes on to ask for the container without knowing
    whether one exists, unless the network of the record makes the port
    policy throw or the image can be neither found nor pulled. *)
Theorem listing_failure_proceeds hostDataPath serverId c w c' w' t pre e rest :
  iteration penv hostDataPath serverId c w = (c', w', t) ->
  t = pre ++ EvListContainers (Rejected e) :: rest ->
  exists post,
    rest = EvLog (LogCheckError (message e)) :: post /\
    count is_skip t = 0%nat /\
    ((exists cfg r, EvCreateContainer cfg r ∈ post /\ name cfg = serverId) \/
     (exists e', EvPull BEDROCK_IMAGE (Rejected e') ∈ post) \/
     (exists p json m e',
         EvReadJson p (Fulfilled json) ∈ pre /\ toObject json = Normal m /\
         requiresPortMapping penv m = Throw e')).
Proof.
  run_iteration.
  all: intros [= <- <- <-] Heq; split_trace Heq pre.
  all: eexists; split; [reflexivity|]; split; [reflexivity|].
  all: try (left; eexists _, _; split;
            [ find_in_trace | eapply buildConfig_fields; eassumption ]).
  all: try (right; left; eexists; find_in_trace).
  all: right; right; eexists _, _, _, _; split; [find_in_trace|].
  all: split; [eassumption|].
  all: eapply buildConfig_throws_policy; eassumption.
Qed.

(** Within a body the container is asked for only when the image is
    ready. *)
Lemma iteration_guarded hostDataPath serverId c w c' w' t :
  iteration penv hostDataPath serverId c w = (c', w', t) ->
  creations_guarded t.
Proof.
  run_iteration.
  all: intros [= <- <- <-].
  all: try (apply creations_guarded_none; reflexivity).
  all: intros pre cfg r post Heq; split_trace Heq pre.
  all: repeat match goal with u : unit |- _ => destruct u end.
  all: match goal with
       | H : buildConfig _ _ _ _ = Normal _ |- _ =>
           apply buildConfig_fields in H as (-> & _)
       end.
  all: first [ left; solve [repeat first [reflexivity | apply suffix_cons_r]]
             | right; eexists; solve [repeat first [reflexivity | apply suffix_cons_r]] ].
Qed.

(** The container a body asks for is named after its server and binds the
    directory of the server under the host path. *)
Lemma iteration_binds hostDataPath serverId c w c' w' t cfg r :
  iteration penv hostDataPath serverId c w = (c', w', t) ->
  EvCreateContainer cfg r ∈ t ->
  Image cfg = BEDROCK_IMAGE /\
  name cfg = serverId /\
  Labels cfg !! "server-id" = Some (VStr serverId) /\
  exists h, HostConfig cfg = Some h /\
            Binds h = Some [path_join hostDataPath serverId +:+ ":/data"].
Proof.
  run_iteration.
  all: intros [= <- <- <-] Hin; in_trace Hin.
  all: match goal with
       | H : buildConfig _ _ _ _ = Normal _ |- _ =>
           apply buildConfig_fields in H as (? & ? & ? & _ & ?)
       end; auto.
Qed.


(** A body starts by asking whether the metadata of its server is there. *)
Lemma iteration_starts hostDataPath serverId c w c' w' t :
  iteration penv hostDataPath serverId c w = (c', w', t) ->
  exists r rest,
    t = EvPathExists (path_join (path_join (DATA_DIR penv) serverId) "metadata.json") r
          :: rest.
Proof.
  run_iteration.
  all: intros [= <- <- <-]; eauto.
Qed.

(** Metadata that cannot be read is caught, written and counted as one
    failure. *)
Lemma iteration_corrupted hostDataPath serverId c w c' w' t :
  iteration penv hostDataPath serverId c w = (c', w', t) ->
  has_metadata t -> metadata_corrupted t ->
  c' = {| successCount := successCount c; failureCount := S (failureCount c) |} /\
  (exists msg, EvLog (LogError msg) ∈ t) /\
  count is_create t = 0%nat.
Proof.
  run_iteration.
  all: intros [= <- <- <-] Hm Hj; use_event Hm; use_event Hj.
  all: contradict_events.
  split; [reflexivity|]. split; [|reflexivity]. eexists. find_in_trace.
Qed.

(** When nothing stands in the way the container is created and counted as
    one success. *)
Lemma iteration_unhindered hostDataPath serverId c w c' w' t :
  iteration penv hostDataPath serverId c w = (c', w', t) ->
  has_metadata t -> creation_unhindered penv serverId t ->
  c' = {| successCount := S (successCount c); failureCount := failureCount c |} /\
  count is_create t = 1%nat.
Proof.
  run_iteration.
  all: intros [= <- <- <-] Hm (Hj & Hl & Hp & Hc & Hs & Hi).
  all: use_event Hm; use_event Hj; use_event Hp; use_event Hc; use_event Hs; use_event Hi.
  all: try (pose proof (Hl _ ltac:(find_in_trace)); clear Hl).
  all: contradict_events.
  all: try match goal with
           | H : fields_have_text ?m |- _ =>
               destruct (fields_have_text_lines m H) as ((? & ?) & (? & ?) & (? & ?) & (? & ?))
           end.
  all: try congruence.
  all: try match goal with
           | H : buildConfig _ _ _ _ = Throw _ |- _ =>
               eapply buildConfig_throws_policy in H; [|eassumption..]; congruence
           end.
  all: auto.
Qed.


End Runs.

(** ** Runs of the loop and of the script *)

Ltac count_trace :=
  repeat first [rewrite count_cons | rewrite count_app | rewrite count_nil];
  cbn [is_create is_search is_skip].

Section Batch.

Context {W : Type} {RT : Runtime W}.
Variable penv : process_env.

Lemma serverLoop_traces hostDataPath serverDirs c w c' w' t :
  serverLoop penv hostDataPath serverDirs c w = (c', w', t) ->
  (iterationTraces penv hostDataPath serverDirs c w).*1 = serverDirs /\
  t = concat (iterationTraces penv hostDataPath serverDirs c w).*2.
Proof.
  revert c w c' w' t. induction serverDirs as [|d ds IH]; intros c w c' w' t;
    cbn [serverLoop iterationTraces].
  - intros [= <- <- <-]. auto.
  - destruct (iteration penv hostDataPath d c w) as [[c1 w1] t1].
    destruct (serverLoop penv hostDataPath ds c1 w1) as [[c2 w2] t2] eqn:E.
    intros [= <- <- <-]. destruct (IH _ _ _ _ _ E) as [H1 H2].
    rewrite !fmap_cons. cbn [fst snd concat]. by rewrite H1, <- H2.
Qed.




Lemma serverLoop_guarded hostDataPath serverDirs c w c' w' t :
  serverLoop penv hostDataPath serverDirs c w = (c', w', t) ->
  creations_guarded t.
Proof.
  revert c w c' w' t. induction serverDirs as [|d ds IH]; intros c w c' w' t; simpl.
  - intros [= <- <- <-]. by apply creations_guarded_none.
  - destruct (iteration penv hostDataPath d c w) as [[c1 w1] t1] eqn:E1.
    destruct (serverLoop penv hostDataPath ds c1 w1) as [[c2 w2] t2] eqn:E2.
    intros [= <- <- <-]. apply creations_guarded_app; [|by eapply IH].
    by eapply iteration_guarded.
Qed.

(** Every container a run of the loop asks for binds a directory under the
    one host path, and the loop never resolves that path again. *)
Lemma serverLoop_binds hostDataPath serverDirs c w c' w' t :
  serverLoop penv hostDataPath serverDirs c w = (c', w', t) ->
  count is_search t = 0%nat /\
  forall cfg r, EvCreateContainer cfg r ∈ t ->
    Image cfg = BEDROCK_IMAGE /\
    name cfg ∈ serverDirs /\
    exists h, HostConfig cfg = Some h /\
              Binds h = Some [path_join hostDataPath (name cfg) +:+ ":/data"].
Proof.
  revert c w c' w' t. induction serverDirs as [|d ds IH]; intros c w c' w' t; simpl.
  - intros [= <- <- <-]. split; [reflexivity|]. intros cfg r H. by apply elem_of_nil in H.
  - destruct (iteration penv hostDataPath d c w) as [[c1 w1] t1] eqn:E1.
    destruct (serverLoop penv hostDataPath ds c1 w1) as [[c2 w2] t2] eqn:E2.
    intros [= <- <- <-]. destruct (IH _ _ _ _ _ E2) as [Hs Hb].
    destruct (iteration_creates penv _ _ _ _ _ _ _ E1) as [_ Hs1].
    split; [rewrite count_app; lia|].
    intros cfg r [H|H]%elem_of_app.
    + destruct (iteration_binds penv _ _ _ _ _ _ _ _ _ E1 H) as (Hi & Hn & _ & Hh).
      rewrite Hn. split; [exact Hi|]. split; [apply list_elem_of_here | exact Hh].
    + destruct (Hb cfg r H) as (Hi & Hn & Hh).
      split; [exact Hi|]. split; [by apply list_elem_of_further | exact Hh].
Qed.

(** The counts of a run of the loop in which every directory has its
    metadata, the directories marked corrupted cannot be read and nothing
    stands in the way of the others. *)
Lemma serverLoop_partial_failure (corrupted : string -> bool)
      hostDataPath serverDirs c w c' w' t :
  serverLoop penv hostDataPath serverDirs c w = (c', w', t) ->
  (forall d td, (d, td) ∈ iterationTraces penv hostDataPath serverDirs c w ->
     has_metadata td /\
     if corrupted d then metadata_corrupted td else creation_unhindered penv d td) ->
  successCount c' =
    (successCount c + (length serverDirs - length (List.filter corrupted serverDirs)))%nat /\
  failureCount c' = (failureCount c + length (List.filter corrupted serverDirs))%nat /\
  count is_create t = (length serverDirs - length (List.filter corrupted serverDirs))%nat.
Proof.
  revert c w c' w' t. induction serverDirs as [|d ds IH]; intros c w c' w' t; simpl.
  - intros [= <- <- <-] _. cbn. lia.
  - destruct (iteration penv hostDataPath d c w) as [[c1 w1] t1] eqn:E1.
    destruct (serverLoop penv hostDataPath ds c1 w1) as [[c2 w2] t2] eqn:E2.
    intros [= <- <- <-] Hruns.
    destruct (Hruns d t1 (list_elem_of_here _ _)) as [Hm Hd].
    destruct (IH _ _ _ _ _ E2) as (Hs & Hf & Hc).
    { intros d' td' Hin. apply Hruns. by apply list_elem_of_further. }
    pose proof (List.filter_length_le corrupted ds) as Hle.
    rewrite count_app, Hs, Hf, Hc. destruct (corrupted d); simpl.
    + destruct (iteration_corrupted penv _ _ _ _ _ _ _ E1 Hm Hd) as (-> & _ & ->).
      simpl. lia.
    + destruct (iteration_unhindered penv _ _ _ _ _ _ _ E1 Hm Hd) as (-> & ->).
      simpl. lia.
Qed.

Lemma iterationTraces_start hostDataPath serverDirs c w d td :
  (d, td) ∈ iterationTraces penv hostDataPath serverDirs c w ->
  exists r rest,
    td = EvPathExists (path_join (path_join (DATA_DIR penv) d) "metadata.json") r :: rest.
Proof.
  revert c w. induction serverDirs as [|d0 ds IH]; intros c w; simpl.
  - intros H. by apply elem_of_nil in H.
  - destruct (iteration penv hostDataPath d0 c w) as [[c1 w1] t1] eqn:E1.
    intros [[= -> ->]|H]%elem_of_cons; [by eapply iteration_starts | by eapply IH].
Qed.

Lemma summary_run c (w : W) : summary c w = (Normal tt, w, summary_lines c).
Proof.
  unfold summary, summary_lines, bind, log, ret.
  destruct (0 <? failureCount c)%nat;
    destruct ((failureCount c =? 0) && (0 <? successCount c))%nat; reflexivity.
Qed.

Lemma summary_lines_quiet c :
  count is_create (summary_lines c) = 0%nat /\ count is_search (summary_lines c) = 0%nat.
Proof.
  unfold summary_lines.
  destruct (0 <? failureCount c)%nat;
    destruct ((failureCount c =? 0) && (0 <? successCount c))%nat; split; reflexivity.
Qed.

(** The mount [getHostDataPath] finds is a mount on the data path of the
    manager of one of the listed containers; it finds none only when there is
    none. *)
Lemma find_split {A : Type} (f : A -> bool) (l : list A) (x : A) :
  List.find f l = Some x ->
  exists l1 l2, l = l1 ++ x :: l2 /\ f x = true /\ forall y, y ∈ l1 -> f y = false.
Proof.
  induction l as [|a l IH]; simpl; [discriminate|].
  destruct (f a) eqn:Ha.
  - intros [= ->]. exists [], l. split; [reflexivity|]. split; [exact Ha|].
    intros y Hy. by apply elem_of_nil in Hy.
  - intros (l1 & l2 & -> & Hx & Hl)%IH. exists (a :: l1), l2.
    split; [reflexivity|]. split; [exact Hx|].
    intros y [->|Hy]%elem_of_cons; [exact Ha | by apply Hl].
Qed.

(** The mount that the search gives is the first on the data path of the
    manager, in the order of the listing and of the mounts of its
    container; the search gives none when there is none. *)
Lemma find_minecraftMount_spec (cs : list Listed.t) :
  match find_minecraftMount cs with
  | Some mount =>
      Destination mount = "/app/minecraft-data" /\
      exists pre c post ms1 ms2,
        cs = pre ++ c :: post /\ Listed.Mounts c = Some (ms1 ++ mount :: ms2) /\
        (forall c' ms m, c' ∈ pre -> Listed.Mounts c' = Some ms -> m ∈ ms ->
                         Destination m <> "/app/minecraft-data") /\
        (forall m, m ∈ ms1 -> Destination m <> "/app/minecraft-data")
  | None =>
      forall c ms m, c ∈ cs -> Listed.Mounts c = Some ms -> m ∈ ms ->
                     Destination m <> "/app/minecraft-data"
  end.
Proof.
  induction cs as [|c cs IH]; simpl.
  - intros c ms m H. by apply elem_of_nil in H.
  - assert (Hnone : forall ms,
              Listed.Mounts c = None \/
              (Listed.Mounts c = Some ms /\
               List.find (fun m => String.eqb (Destination m) "/app/minecraft-data") ms
                 = None) ->
              forall c' ms' m, c' ∈ [c] -> Listed.Mounts c' = Some ms' -> m ∈ ms' ->
                               Destination m <> "/app/minecraft-data").
    { intros ms Hc c' ms' m ->%list_elem_of_singleton Hms Hin.
      destruct Hc as [Hc|[Hc Hf]]; [congruence|].
      rewrite Hc in Hms. injection Hms as <-.
      apply list_elem_of_In in Hin.
      pose proof (List.find_none _ _ Hf m Hin) as Hn. simpl in Hn.
      by apply String.eqb_neq. }
    assert (Hnext : forall ms,
              Listed.Mounts c = None \/
              (Listed.Mounts c = Some ms /\
               List.find (fun m => String.eqb (Destination m) "/app/minecraft-data") ms
                 = None) ->
              match find_minecraftMount cs with
              | Some mount =>
                  Destination mount = "/app/minecraft-data" /\
                  exists pre c0 post ms1 ms2,
                    c :: cs = pre ++ c0 :: post /\
                    Listed.Mounts c0 = Some (ms1 ++ mount :: ms2) /\
                    (forall c' ms m, c' ∈ pre -> Listed.Mounts c' = Some ms -> m ∈ ms ->
                                     Destination m <> "/app/minecraft-data") /\
                    (forall m, m ∈ ms1 -> Destination m <> "/app/minecraft-data")
              | None =>
                  forall c0 ms m, c0 ∈ c :: cs -> Listed.Mounts c0 = Some ms -> m ∈ ms ->
                                  Destination m <> "/app/minecraft-data"
              end).
    { intros ms Hc. destruct (find_minecraftMount cs) as [mount|].
      - destruct IH as (Hd & pre & c0 & post & ms1 & ms2 & -> & Hms & Hpre & Hms1).
        split; [exact Hd|]. exists (c :: pre), c0, post, ms1, ms2.
        split; [reflexivity|]. split; [exact Hms|]. split; [|exact Hms1].
        intros c' ms' m [->|Hin]%elem_of_cons.
        + eapply Hnone; [exact Hc | apply list_elem_of_here].
        + by apply Hpre.
      - intros c0 ms' m [->|Hin]%elem_of_cons.
        + eapply Hnone; [exact Hc | apply list_elem_of_here].
        + by apply IH. }
    destruct (Listed.Mounts c) as [ms|] eqn:Hm.
    + destruct (List.find _ ms) as [mount|] eqn:Hf.
      * apply find_split in Hf as (ms1 & ms2 & -> & Hd & Hms1).
        split; [by apply String.eqb_eq|].
        exists [], c, cs, ms1, ms2. split; [reflexivity|]. split; [exact Hm|]. split.
        -- intros c' ms' m Hin. by apply elem_of_nil in Hin.
        -- intros m Hin. apply String.eqb_neq. by apply Hms1.
      * apply (Hnext ms). right. by split.
    + apply (Hnext []). by left.
Qed.

(** [getHostDataPath] always returns: the source of the mount found in the
    listing, or [DATA_DIR] when none is found or the listing is rejected. *)
Lemma getHostDataPath_run (w : W) :
  exists p w1 t,
    getHostDataPath penv w = (Normal p, w1, t) /\
    count is_search t = 1%nat /\ count is_create t = 0%nat /\
    match docker_listContainers w with
    | (Fulfilled cs, _) =>
        p = match find_minecraftMount cs with
            | Some mount => Source mount
            | None => DATA_DIR penv
            end
    | (Rejected _, _) => p = DATA_DIR penv
    end.
Proof.
  unfold getHostDataPath, tryCatch, bind, await, log, ret.
  destruct (docker_listContainers w) as [[cs|e] w1]; cbn.
  - destruct (find_minecraftMount cs) as [mount|]; cbn; eauto 10.
  - eauto 10.
Qed.

(** A run of the script either leaves before the loop, having asked for no
    container, or goes through the loop with the host path resolved before
    it and writes the summary of the counters. *)
Lemma recreateServers_run (w0 : W) :
  exists r w' t,
    recreateServers penv w0 = (r, w', t) /\
    ((exists code, r = Exit code /\ count is_create t = 0%nat /\
                   (count is_search t <= 1)%nat /\
                   forall w1, fs_pathExists (DATA_DIR penv) w0 = (Fulfilled true, w1) ->
                              count is_search t = 1%nat) \/
     (exists w1 hdp w2 th items w3 c tl,
         fs_pathExists (DATA_DIR penv) w0 = (Fulfilled true, w1) /\
         getHostDataPath penv w1 = (Normal hdp, w2, th) /\
         fs_readdir (DATA_DIR penv) w2 = (Fulfilled items, w3) /\
         serverDirs_of items <> [] /\
         serverLoop penv hdp (serverDirs_of items)
           {| successCount := 0; failureCount := 0 |} w3 = (c, w', tl) /\
         r = Normal tt /\
         t = [banner penv; EvPathExists (DATA_DIR penv) (Fulfilled true)] ++ th ++
             [EvReaddir (DATA_DIR penv) (Fulfilled items);
              EvLog (LogFoundDirs (length (serverDirs_of items)))] ++ tl ++
             summary_lines c)).
Proof.
  unfold recreateServers, tryCatch, bind, await, log, ret, exit.
  destruct (fs_pathExists (DATA_DIR penv) w0) as [[[|]|e] w1] eqn:E0;
    cbn -[getHostDataPath serverLoop summary serverDirs_of].
  2,3: eexists _, _, _; split; [reflexivity|]; left; eexists;
       split; [reflexivity|]; split; [reflexivity|]; split; [cbn; lia|]; intros ? [=].
  destruct (getHostDataPath_run w1) as (hdp & w2 & th & Eh & Hs & Hc & _).
  rewrite Eh. cbn -[getHostDataPath serverLoop summary serverDirs_of].
  destruct (fs_readdir (DATA_DIR penv) w2) as [[items|e] w3] eqn:E2;
    cbn -[getHostDataPath serverLoop summary serverDirs_of].
  2: { eexists _, _, _; split; [reflexivity|]; left; eexists.
       split; [reflexivity|]. count_trace. rewrite Hs, Hc.
       split; [reflexivity|]. split; [lia|]. intros _ _. reflexivity. }
  destruct (serverDirs_of items) as [|d ds] eqn:Ed;
    cbn -[getHostDataPath serverLoop summary serverDirs_of].
  { eexists _, _, _; split; [reflexivity|]; left; eexists.
    split; [reflexivity|]. count_trace. rewrite Hs, Hc.
    split; [reflexivity|]. split; [lia|]. intros _ _. reflexivity. }
  destruct (serverLoop penv hdp (d :: ds) _ w3) as [[c w4] tl] eqn:El.
  rewrite summary_run. cbn -[getHostDataPath serverLoop summary serverDirs_of summary_lines].
  eexists _, _, _; split; [reflexivity|]. right.
  exists w1, hdp, w2, th, items, w3, c, tl.
  repeat (split; [done|]).
  unfold banner. cbn. by rewrite <- ?app_assoc, ?Ed.
Qed.

End Batch.

(** ** The batch *)

Lemma count_elem f (x : event) (t : list event) :
  x ∈ t -> f x = true -> (1 <= count f t)%nat.
Proof.
  intros Hin Hf. apply list_elem_of_split in Hin as (t1 & t2 & ->).
  rewrite count_app, count_cons, Hf. lia.
Qed.

Lemma count_zero f (x : event) (t : list event) :
  count f t = 0%nat -> x ∈ t -> f x = false.
Proof.
  intros Hc Hin. destruct (f x) eqn:Hf; [|reflexivity].
  pose proof (count_elem f x t Hin Hf). lia.
Qed.

Section Claims.

Context {W : Type} {RT : Runtime W}.
Variable penv : process_env.

(** The script goes through the loop when the data directory is there, its
    entries can be read and some of them are server directories. *)
Lemma recreateServers_batch (w0 w1 w2 w3 w4 : W) hdp th items c tl :
  fs_pathExists (DATA_DIR penv) w0 = (Fulfilled true, w1) ->
  getHostDataPath penv w1 = (Normal hdp, w2, th) ->
  fs_readdir (DATA_DIR penv) w2 = (Fulfilled items, w3) ->
  serverDirs_of items <> [] ->
  serverLoop penv hdp (serverDirs_of items)
    {| successCount := 0; failureCount := 0 |} w3 = (c, w4, tl) ->
  recreateServers penv w0 =
    (Normal tt, w4,
     [banner penv; EvPathExists (DATA_DIR penv) (Fulfilled true)] ++ th ++
     [EvReaddir (DATA_DIR penv) (Fulfilled items);
      EvLog (LogFoundDirs (length (serverDirs_of items)))] ++ tl ++ summary_lines c).
Proof.
  intros E0 Eh E2 Hne El.
  destruct (recreateServers_run penv w0) as (r & w' & t & Er & [Hexit|Hbatch]).
  - exfalso. destruct Hexit as (code & -> & _).
    revert Er. unfold recreateServers, tryCatch, bind, await, log, ret, exit.
    rewrite E0. cbn -[getHostDataPath serverLoop summary serverDirs_of].
    rewrite Eh. cbn -[getHostDataPath serverLoop summary serverDirs_of].
    rewrite E2. cbn -[getHostDataPath serverLoop summary serverDirs_of].
    destruct (serverDirs_of items) as [|d ds] eqn:Ed; [done|].
    cbn -[getHostDataPath serverLoop summary serverDirs_of].
    rewrite El, summary_run. cbn -[getHostDataPath serverLoop summary serverDirs_of].
    discriminate.
  - destruct Hbatch as (w1' & hdp' & w2' & th' & items' & w3' & c' & tl' &
                        E0' & Eh' & E2' & _ & El' & -> & ->).
    rewrite E0 in E0'. injection E0' as <-.
    rewrite Eh in Eh'. injection Eh' as <- <- <-.
    rewrite E2 in E2'. injection E2' as <- <-.
    rewrite El in El'. injection El' as <- <- <-.
    exact Er.
Qed.

(** C2. When the listing shows a container labelled with the server, the
    create step reports that it exists, asks for no container and counts no
    error; and when a create step has made the container and the next one
    for the same server sees it listed, one container has been asked for in
    all. *)
Theorem create_idempotent hostDataPath serverId :
  (forall c w c' w' t cs,
      iteration penv hostDataPath serverId c w = (c', w', t) ->
      EvListContainers (Fulfilled cs) ∈ t ->
      (exists x ls, x ∈ cs /\ Listed.Labels x = Some ls /\
                    ls !! "server-id" = Some serverId) ->
      c' = c /\ count is_create t = 0%nat /\
      (forall msg, EvLog (LogError msg) ∉ t) /\
      exists existing,
        existing ∈ cs /\
        EvLog (LogAlreadyExists (substring0 12 (Listed.Id existing))) ∈ t) /\
  (forall c w c1 w1 t1 w1' c2 w2 t2 cfg h cs,
      iteration penv hostDataPath serverId c w = (c1, w1, t1) ->
      EvCreateContainer cfg (Fulfilled h) ∈ t1 ->
      iteration penv hostDataPath serverId c1 w1' = (c2, w2, t2) ->
      EvListContainers (Fulfilled cs) ∈ t2 ->
      (exists x ls, x ∈ cs /\ Listed.Labels x = Some ls /\
                    ls !! "server-id" = Some serverId) ->
      count is_create (t1 ++ t2) = 1%nat /\ c2 = c1 /\
      exists id12, EvLog (LogAlreadyExists id12) ∈ t2).
Proof.
  assert (Hskip : forall c w c' w' t cs,
      iteration penv hostDataPath serverId c w = (c', w', t) ->
      EvListContainers (Fulfilled cs) ∈ t ->
      (exists x ls, x ∈ cs /\ Listed.Labels x = Some ls /\
                    ls !! "server-id" = Some serverId) ->
      c' = c /\ count is_create t = 0%nat /\
      (forall msg, EvLog (LogError msg) ∉ t) /\
      exists existing,
        existing ∈ cs /\
        EvLog (LogAlreadyExists (substring0 12 (Listed.Id existing))) ∈ t).
  { intros c w c' w' t cs Hit Hin Hl.
    apply find_has_server_id in Hl as [existing Hf].
    destruct (iteration_existing penv _ _ _ _ _ _ _ _ _ Hit Hin Hf) as (Hc & Hlog & Hn & He).
    repeat (split; [done|]). exists existing. split; [|done].
    apply List.find_some in Hf as [Hf _]. by apply list_elem_of_In. }
  split; [exact Hskip|].
  intros c w c1 w1 t1 w1' c2 w2 t2 cfg h cs H1 Hc H2 Hin Hl.
  destruct (Hskip _ _ _ _ _ _ H2 Hin Hl) as (-> & Hn & _ & existing & _ & Hlog).
  destruct (iteration_creates penv _ _ _ _ _ _ _ H1) as [Hle _].
  pose proof (count_elem is_create _ _ Hc eq_refl) as Hge.
  rewrite count_app, Hn. split; [lia|]. split; [reflexivity|]. eauto.
Qed.

(** C3. A batch over N server directories that all have their metadata, M
    of which cannot be read while nothing stands in the way of the others,
    goes through all N in order, asks for N - M containers and writes the
    summary of N - M successes and M failures. *)
Theorem recreateServers_partial_failure (corrupted : string -> bool)
        (w0 w1 w2 w3 : W) hdp th items :
  fs_pathExists (DATA_DIR penv) w0 = (Fulfilled true, w1) ->
  getHostDataPath penv w1 = (Normal hdp, w2, th) ->
  fs_readdir (DATA_DIR penv) w2 = (Fulfilled items, w3) ->
  serverDirs_of items <> [] ->
  (forall d td,
      (d, td) ∈ iterationTraces penv hdp (serverDirs_of items)
                  {| successCount := 0; failureCount := 0 |} w3 ->
      has_metadata td /\
      if corrupted d then metadata_corrupted td else creation_unhindered penv d td) ->
  let runs := iterationTraces penv hdp (serverDirs_of items)
                {| successCount := 0; failureCount := 0 |} w3 in
  let N := length (serverDirs_of items) in
  let M := length (List.filter corrupted (serverDirs_of items)) in
  exists w4 tl,
    recreateServers penv w0 =
      (Normal tt, w4,
       [banner penv; EvPathExists (DATA_DIR penv) (Fulfilled true)] ++ th ++
       [EvReaddir (DATA_DIR penv) (Fulfilled items); EvLog (LogFoundDirs N)] ++ tl ++
       summary_lines {| successCount := N - M; failureCount := M |}) /\
    runs.*1 = serverDirs_of items /\
    tl = concat runs.*2 /\
    (forall d td, (d, td) ∈ runs ->
       exists r rest,
         td = EvPathExists (path_join (path_join (DATA_DIR penv) d) "metadata.json") r
                :: rest) /\
    count is_create tl = (N - M)%nat.
Proof.
  intros E0 Eh E2 Hne Hruns runs N M.
  destruct (serverLoop penv hdp (serverDirs_of items)
              {| successCount := 0; failureCount := 0 |} w3) as [[c w4] tl] eqn:El.
  destruct (serverLoop_partial_failure penv corrupted _ _ _ _ _ _ _ El Hruns)
    as (Hs & Hf & Hc).
  destruct (serverLoop_traces penv _ _ _ _ _ _ _ El) as [Hd Ht].
  exists w4, tl. split.
  - rewrite (recreateServers_batch _ _ _ _ _ _ _ _ _ _ E0 Eh E2 Hne El).
    destruct c as [s f]. simpl in Hs, Hf. by rewrite Hs, Hf.
  - split; [exact Hd|]. split; [exact Ht|]. split; [|exact Hc].
    intros d td Hin. by eapply iterationTraces_start.
Qed.

(** C7. The host path is the source of the first mount on the data path of
    the manager among the listed containers, running or not, in the order
    of the listing and of the mounts of a container, when there is one, and
    [DATA_DIR] when there is none or the listing is rejected; a run of the
    script resolves it at most once, once when the data directory is there,
    and every container it asks for binds a directory under that one
    path. *)
Theorem hostDataPath_resolved_once :
  (forall w, exists p w1 t,
      getHostDataPath penv w = (Normal p, w1, t) /\
      match docker_listContainers w with
      | (Fulfilled cs, _) =>
          (exists pre c post ms1 mount ms2,
              cs = pre ++ c :: post /\
              Listed.Mounts c = Some (ms1 ++ mount :: ms2) /\
              (forall c' ms m, c' ∈ pre -> Listed.Mounts c' = Some ms -> m ∈ ms ->
                               Destination m <> "/app/minecraft-data") /\
              (forall m, m ∈ ms1 -> Destination m <> "/app/minecraft-data") /\
              Destination mount = "/app/minecraft-data" /\ p = Source mount) \/
          ((forall c ms m, c ∈ cs -> Listed.Mounts c = Some ms -> m ∈ ms ->
                           Destination m <> "/app/minecraft-data") /\
           p = DATA_DIR penv)
      | (Rejected _, _) => p = DATA_DIR penv
      end) /\
  (forall w0 r w' t,
      recreateServers penv w0 = (r, w', t) ->
      (count is_search t <= 1)%nat /\
      forall w1, fs_pathExists (DATA_DIR penv) w0 = (Fulfilled true, w1) ->
        count is_search t = 1%nat /\
        exists hdp w2 th,
          getHostDataPath penv w1 = (Normal hdp, w2, th) /\
          forall cfg res, EvCreateContainer cfg res ∈ t ->
            exists h, HostConfig cfg = Some h /\
                      Binds h = Some [path_join hdp (name cfg) +:+ ":/data"]).
Proof.
  split.
  - intros w. destruct (getHostDataPath_run penv w) as (p & w1 & t & E & _ & _ & Hp).
    exists p, w1, t. split; [exact E|].
    destruct (docker_listContainers w) as [[cs|e] w1']; [|exact Hp].
    pose proof (find_minecraftMount_spec cs) as Hf.
    destruct (find_minecraftMount cs) as [mount|].
    + left. destruct Hf as (Hd & pre & c & post & ms1 & ms2 & Hcs & Hms & Hpre & Hms1).
      by exists pre, c, post, ms1, mount, ms2.
    + right. auto.
  - intros w0 r w' t Er.
    destruct (recreateServers_run penv w0) as (r' & w'' & t' & Er' & Hcases).
    rewrite Er in Er'. injection Er' as <- <- <-.
    destruct Hcases as [(code & -> & Hc & Hle & H1)|
                        (w1 & hdp & w2 & th & items & w3 & c & tl &
                         E0 & Eh & E2 & Hne & El & -> & ->)].
    + split; [exact Hle|]. intros w1 E0. split; [by eapply H1|].
      destruct (getHostDataPath_run penv w1) as (hdp & w2 & th & Eh & _).
      exists hdp, w2, th. split; [exact Eh|]. intros cfg res Hin.
      pose proof (count_zero is_create _ _ Hc Hin). discriminate.
    + destruct (getHostDataPath_run penv w1) as (hdp' & w2' & th' & Eh' & Hs & Hc & _).
      rewrite Eh in Eh'. injection Eh' as <- <- <-.
      destruct (serverLoop_binds penv _ _ _ _ _ _ _ El) as [Hsl Hb].
      destruct (summary_lines_quiet c) as [Hqc Hqs].
      assert (count is_search
                ([banner penv; EvPathExists (DATA_DIR penv) (Fulfilled true)] ++ th ++
                 [EvReaddir (DATA_DIR penv) (Fulfilled items);
                  EvLog (LogFoundDirs (length (serverDirs_of items)))] ++ tl ++
                 summary_lines c) = 1%nat) as Hone.
      { count_trace. rewrite Hs, Hsl, Hqs. unfold banner. reflexivity. }
      split; [lia|]. intros w1' E0'. rewrite E0 in E0'. injection E0' as <-.
      split; [exact Hone|]. exists hdp, w2, th. split; [exact Eh|].
      intros cfg res Hin.
      rewrite !elem_of_app in Hin. destruct Hin as [Hin|[Hin|[Hin|[Hin|Hin]]]].
      * in_trace Hin.
      * pose proof (count_zero is_create _ _ Hc Hin). discriminate.
      * in_trace Hin.
      * by destruct (Hb cfg res Hin) as (_ & _ & Hh).
      * pose proof (count_zero is_create _ _ Hqc Hin). discriminate.
Qed.


End Claims.

(** ** The properties at work in the small world *)

Lemma run_eta {A B C : Type} (x : A * B * C) : x = (x.1.1, x.1.2, x.2).
Proof. by destruct x as [[? ?] ?]. Qed.

Lemma create_idempotent_witness :
  let r1 := iteration (RT := Sim.runtime) Sim.penv0 "/host/data" "bedrock-a" Sim.c0 Sim.w0 in
  let r2 := iteration (RT := Sim.runtime) Sim.penv0 "/host/data" "bedrock-a" r1.1.1 r1.1.2 in
  count is_create (r1.2 ++ r2.2) = 1%nat /\ r2.1.1 = r1.1.1 /\
  exists id12, EvLog (LogAlreadyExists id12) ∈ r2.2.
Proof.
  intros r1 r2.
  assert (exists cfg h, EvCreateContainer cfg (Fulfilled h) ∈ r1.2) as (cfg & h & Hc).
  { vm_compute. eexists _, _. find_in_trace. }
  assert (exists cs, EvListContainers (Fulfilled cs) ∈ r2.2 /\
                     exists x ls, x ∈ cs /\ Listed.Labels x = Some ls /\
                                  ls !! "server-id" = Some "bedrock-a")
    as (cs & Hl & Hx).
  { vm_compute. eexists. split; [find_in_trace|].
    eexists _, _.
    split; [apply list_elem_of_further, list_elem_of_here | split; reflexivity]. }
  destruct (create_idempotent (RT := Sim.runtime) Sim.penv0 "/host/data" "bedrock-a")
    as [_ H].
  apply (H Sim.c0 Sim.w0 r1.1.1 r1.1.2 r1.2 r1.1.2 r2.1.1 r2.1.2 r2.2 cfg h cs).
  - apply run_eta.
  - exact Hc.
  - apply run_eta.
  - exact Hl.
  - exact Hx.
Defined.

(** C2, as stated, fails: the container made by a first create step exists,
    the daemon stops answering listings, and the second create step for the
    same server asks for the container again, reports no existing container
    and ends in a counted error. *)
Lemma create_idempotent_counterexample :
  let r1 := iteration (RT := Sim.runtime) Sim.penv0 "/host/data" "bedrock-a" Sim.c0 Sim.w0 in
  let w1 := Sim.listing_down r1.1.2 in
  let r2 := iteration (RT := Sim.runtime) Sim.penv0 "/host/data" "bedrock-a" r1.1.1 w1 in
  (exists x ls, x ∈ Sim.containers w1 /\ Listed.Labels x = Some ls /\
                ls !! "server-id" = Some "bedrock-a") /\
  count is_create r2.2 = 1%nat /\
  count is_skip r2.2 = 0%nat /\
  failureCount r2.1.1 = S (failureCount r1.1.1) /\
  count is_create (r1.2 ++ r2.2) = 2%nat.
Proof.
  intros r1 w1 r2. split.
  - vm_compute. eexists _, _.
    split; [apply list_elem_of_further, list_elem_of_here | split; reflexivity].
  - vm_compute. auto.
Qed.

Lemma listing_failure_proceeds_witness :
  let r := iteration (RT := Sim.runtime) Sim.penv0 "/host/data" "bedrock-a" Sim.c0 Sim.w_down in
  exists post,
    drop 8 r.2 = EvLog (LogCheckError "socket hang up") :: post /\
    count is_skip r.2 = 0%nat /\
    ((exists cfg res, EvCreateContainer cfg res ∈ post /\ name cfg = "bedrock-a") \/
     (exists e', EvPull BEDROCK_IMAGE (Rejected e') ∈ post) \/
     (exists p json m e',
         EvReadJson p (Fulfilled json) ∈ take 7 r.2 /\ toObject json = Normal m /\
         requiresPortMapping Sim.penv0 m = Throw e')).
Proof.
  intros r.
  apply (listing_failure_proceeds (RT := Sim.runtime) Sim.penv0 "/host/data" "bedrock-a"
           Sim.c0 Sim.w_down r.1.1 r.1.2 r.2 (take 7 r.2)
           (Error "socket hang up") (drop 8 r.2)).
  - apply run_eta.
  - vm_compute. reflexivity.
Defined.


(** C8. The claim fails on a daemon that has begun to download the image
    when the promise of [docker.pull] is fulfilled: the inspection of the
    image is rejected, the pull is announced and its promise fulfilled, and
    the script asks for the container at once, while the image is still
    absent; the daemon refuses, the error is written and the server is
    counted as failed. *)
Theorem creation_before_pull_completes :
  let run := recreateServers (RT := Sim.downloading) Sim.penv0 Sim.w0 in
  Sim.imageLocal Sim.w0 = false /\
  exists pre cfg post,
    run.2 = pre ++
            [EvImageInspect BEDROCK_IMAGE (Rejected (Error "No such image"));
             EvLog (LogPulling BEDROCK_IMAGE);
             EvPull BEDROCK_IMAGE (Fulfilled tt);
             EvCreateContainer cfg (Rejected (Error "No such image"));
             EvLog (LogError "No such image")] ++ post /\
    Image cfg = BEDROCK_IMAGE /\ name cfg = "bedrock-a" /\
    count is_create pre = 0%nat /\
    Sim.imageLocal run.1.2 = false /\
    Sim.containers run.1.2 = Sim.containers Sim.w0 /\
    EvLog (LogSuccessCount 0) ∈ post /\ EvLog (LogFailedCount 2) ∈ post.
Proof.
  intros run. split; [reflexivity|].
  assert (exists cfg res, run.2 !! 20%nat = Some (EvCreateContainer cfg res))
    as (cfg & res & Hc).
  { vm_compute. eauto. }
  exists (take 17 run.2), cfg, (drop 22 run.2).
  split.
  - rewrite <- (take_drop 17 run.2) at 1. f_equal.
    rewrite <- (take_drop 5 (drop 17 run.2)) at 1. rewrite drop_drop. f_equal.
    revert Hc. vm_compute. by intros [= <- <-].
  - revert Hc. vm_compute. intros [= <- <-].
    repeat (split; [reflexivity|]). split; find_in_trace.
Qed.

(** C7, as stated, fails: no listed container is running, and the host path
    is the source of the mount of the manager that has exited, not
    [DATA_DIR]. *)
Lemma hostDataPath_resolved_once_counterexample :
  (forall c, c ∈ Sim.containers Sim.w_stale -> Listed.State c <> "running") /\
  Sim.listContainers Sim.w_stale = (Fulfilled (Sim.containers Sim.w_stale), Sim.w_stale) /\
  (getHostDataPath (RT := Sim.runtime) Sim.penv0 Sim.w_stale).1.1 = Normal "/old/data" /\
  DATA_DIR Sim.penv0 = "/srv".
Proof.
  split; [|split; [reflexivity|split; reflexivity]].
  intros c Hc. apply list_elem_of_singleton in Hc as ->. discriminate.
Qed.

Lemma hostDataPath_resolved_once_witness :
  let t := (recreateServers (RT := Sim.runtime) Sim.penv0 Sim.w0).2 in
  (exists w1 th,
      getHostDataPath (RT := Sim.runtime) Sim.penv0 Sim.w_two = (Normal "/host/data", w1, th)) /\
  count is_search t = 1%nat /\
  exists hdp w2 th,
    getHostDataPath (RT := Sim.runtime) Sim.penv0 Sim.w0 = (Normal hdp, w2, th) /\
    forall cfg res, EvCreateContainer cfg res ∈ t ->
      exists h, HostConfig cfg = Some h /\
                Binds h = Some [@path_join _ Sim.runtime hdp (name cfg) +:+ ":/data"].
Proof.
  intros t.
  destruct (hostDataPath_resolved_once (RT := Sim.runtime) Sim.penv0) as [Hp H].
  split.
  - destruct (Hp Sim.w_two) as (p & w1 & th & E & Hcases).
    exists w1, th. rewrite E. do 2 f_equal. f_equal.
    change (docker_listContainers Sim.w_two)
      with (Fulfilled (Sim.containers Sim.w_two), Sim.w_two) in Hcases.
    cbv beta iota in Hcases.
    destruct Hcases as [(pre & c & post & ms1 & mount & ms2 & Hcs & Hms & Hpre & Hms1 &
                         Hd & ->)|[Hnone _]].
    + destruct pre as [|c1 pre].
      * injection Hcs as <- _. cbn in Hms. injection Hms as Hms.
        destruct ms1 as [|m1 ms1].
        -- injection Hms as <- _. discriminate Hd.
        -- injection Hms as <- Hms. destruct ms1 as [|m2 ms1].
           ++ by injection Hms as <- _.
           ++ injection Hms as _ Hms. by destruct ms1.
      * injection Hcs as <- _.
        destruct (Hpre _ _ {| Source := "/host/data"; Destination := "/app/minecraft-data" |}
                    ltac:(apply list_elem_of_here) eq_refl
                    ltac:(apply list_elem_of_further, list_elem_of_here)).
        reflexivity.
    + destruct (Hnone _ _ {| Source := "/host/data"; Destination := "/app/minecraft-data" |}
                  ltac:(apply list_elem_of_here) eq_refl
                  ltac:(apply list_elem_of_further, list_elem_of_here)).
      reflexivity.
  - destruct (H Sim.w0 (recreateServers (RT := Sim.runtime) Sim.penv0 Sim.w0).1.1
                (recreateServers (RT := Sim.runtime) Sim.penv0 Sim.w0).1.2 t) as [_ H1].
    + apply run_eta.
    + apply (H1 Sim.w0). reflexivity.
Defined.

Lemma forallb_elem (f : event -> bool) (t : list event) (e : event) :
  forallb f t = true -> e ∈ t -> f e = true.
Proof.
  intros Hf Hin. apply list_elem_of_In in Hin.
  by apply (proj1 (List.forallb_forall f t) Hf).
Qed.

Lemma scenario_check_sound penv corrupted (runs : list (string * list event)) :
  forallb (scenario_check penv corrupted) runs = true ->
  forall d td, (d, td) ∈ runs ->
    has_metadata td /\
    if corrupted d then metadata_corrupted td else creation_unhindered penv d td.
Proof.
  intros Hall d td Hin. apply list_elem_of_In in Hin.
  pose proof (proj1 (List.forallb_forall _ runs) Hall (d, td) Hin) as Hrun.
  unfold scenario_check in Hrun. simpl in Hrun.
  apply andb_true_iff in Hrun as [Hm Hd]. split.
  - intros p r He. pose proof (forallb_elem _ _ _ Hm He) as Hb.
    by destruct r as [[|]|].
  - destruct (corrupted d).
    + intros p r He. pose proof (forallb_elem _ _ _ Hd He) as Hb.
      destruct r as [json|e]; [discriminate | eauto].
    + split; [|split; [|split; [|split; [|split]]]].
      * intros p r He. pose proof (forallb_elem _ _ _ Hd He) as Hb.
        destruct r as [json|e]; [|discriminate]. cbn [unhindered] in Hb.
        destruct (toObject json) as [m| | |] eqn:Ho; try discriminate.
        apply andb_true_iff in Hb as [Ht Hb].
        destruct (requiresPortMapping penv m) as [b| | |] eqn:Hr; try discriminate.
        exists json, m, b. split; [reflexivity|]. split; [exact Ho|].
        split; [|exact Hr].
        intros k Hk. apply list_elem_of_In in Hk.
        pose proof (proj1 (List.forallb_forall _ _) Ht k Hk) as Hx.
        unfold has_text in Hx. destruct (to_string (prop m k)); [eauto|discriminate..].
      * intros cs He. pose proof (forallb_elem _ _ _ Hd He) as Hb. simpl in Hb.
        by destruct (List.find (has_server_id d) cs).
      * intros i r He. pose proof (forallb_elem _ _ _ Hd He) as Hb.
        by destruct r as [[]|].
      * intros c r He. pose proof (forallb_elem _ _ _ Hd He) as Hb.
        destruct r; [eauto | discriminate].
      * intros h r He. pose proof (forallb_elem _ _ _ Hd He) as Hb.
        by destruct r as [[]|].
      * intros h r He. pose proof (forallb_elem _ _ _ Hd He) as Hb.
        destruct r; [eauto | discriminate].
Qed.

Lemma recreateServers_partial_failure_witness :
  exists w4 tl,
    recreateServers (RT := Sim.runtime) Sim.penv0 Sim.w_batch =
      (Normal tt, w4,
       [banner Sim.penv0; EvPathExists "/srv" (Fulfilled true)] ++
       (getHostDataPath (RT := Sim.runtime) Sim.penv0 Sim.w_batch).2 ++
       [EvReaddir "/srv" (Fulfilled ["bedrock-a"; "bedrock-b"; "README"; "bedrock-d"]);
        EvLog (LogFoundDirs 3)] ++ tl ++
       [EvLog LogRule; EvLog (LogSuccessCount 2); EvLog (LogFailedCount 1); EvLog LogRule]) /\
    count is_create tl = 2%nat.
Proof.
  destruct (recreateServers_partial_failure (RT := Sim.runtime) Sim.penv0 Sim.corrupted
              Sim.w_batch Sim.w_batch Sim.w_batch Sim.w_batch "/host/data"
              (getHostDataPath (RT := Sim.runtime) Sim.penv0 Sim.w_batch).2
              ["bedrock-a"; "bedrock-b"; "README"; "bedrock-d"])
    as (w4 & tl & Hr & _ & _ & _ & Hc).
  - reflexivity.
  - vm_compute. reflexivity.
  - reflexivity.
  - discriminate.
  - apply scenario_check_sound. vm_compute. reflexivity.
  - exists w4, tl. split; [exact Hr | exact Hc].
Defined.

(** * Further properties

    What the code shows besides. *)

(** ** The helpers *)

Lemma DOCKER_NETWORK_cases penv :
  DOCKER_NETWORK penv = VNull \/
  exists s, DOCKER_NETWORK penv = VStr s /\ s <> "".
Proof.
  unfold DOCKER_NETWORK, js_or, env_value.
  destruct (env_DOCKER_NETWORK penv) as [s|]; simpl; [|by left].
  destruct (String.eqb_spec s ""); simpl; [by left | right; eauto].
Qed.

Lemma truthy_VStr (s : string) : truthy (VStr s) = true <-> s <> "".
Proof. simpl. destruct (String.eqb_spec s ""); simpl; split; congruence. Qed.

Lemma prop_insert_ne (m : metadata) (k k' : string) (v : value) :
  k <> k' -> prop (<[k := v]> m) k' = prop m k'.
Proof. intros H. unfold prop. by rewrite lookup_insert_ne. Qed.

(** X1. [DATA_DIR] is never the empty string: a variable that is unset or
    empty gives the default directory, any other value is taken as it is. *)
Theorem DATA_DIR_nonempty penv :
  DATA_DIR penv <> "" /\
  (forall s, env_DATA_DIR penv = Some s -> s <> "" -> DATA_DIR penv = s) /\
  (env_DATA_DIR penv = None \/ env_DATA_DIR penv = Some "" ->
   DATA_DIR penv = "/opt/minecraft-servers").
Proof.
  unfold DATA_DIR. destruct (env_DATA_DIR penv) as [s|]; [|by intuition].
  destruct (String.eqb_spec s "") as [->|Hne]; split; try done.
  - split; [by intros ? [= <-]|done].
  - split; [by intros ? [= <-]|]. intros [H|[= H]]; congruence.
Qed.

Lemma DATA_DIR_nonempty_witness :
  DATA_DIR {| env_DATA_DIR := Some "/srv"; env_DOCKER_NETWORK := None;
              env_ENABLE_SSH := None |} = "/srv" /\
  DATA_DIR {| env_DATA_DIR := Some ""; env_DOCKER_NETWORK := None;
              env_ENABLE_SSH := None |} = "/opt/minecraft-servers".
Proof.
  split.
  - apply (DATA_DIR_nonempty {| env_DATA_DIR := Some "/srv"; env_DOCKER_NETWORK := None;
                                 env_ENABLE_SSH := None |} ); [reflexivity | discriminate].
  - apply (DATA_DIR_nonempty {| env_DATA_DIR := Some ""; env_DOCKER_NETWORK := None;
                                 env_ENABLE_SSH := None |} ). by right.
Defined.

(** X2. [applyNetworkConfig] sets [NetworkMode] exactly when the record or
    the environment names a network, to the network of the record when it has
    one and to [DOCKER_NETWORK] otherwise; the mode it sets is never an empty
    string (an empty [DOCKER_NETWORK] counts as unset); without a network the
    description is returned unchanged. *)
Theorem applyNetworkConfig_mode penv (c : containerConfig) (m : metadata) :
  (truthy (networkMode_of penv m) = false -> applyNetworkConfig penv c m = c) /\
  (truthy (networkMode_of penv m) = true ->
   exists h, HostConfig (applyNetworkConfig penv c m) = Some h /\
             NetworkMode h = Some (networkMode_of penv m)) /\
  (truthy (prop m "network") = true -> networkMode_of penv m = prop m "network") /\
  (truthy (prop m "network") = false -> networkMode_of penv m = DOCKER_NETWORK penv) /\
  networkMode_of penv m <> VStr "".
Proof.
  split; [|split; [|split; [|split]]].
  - intros H. unfold applyNetworkConfig. by rewrite H.
  - intros H. unfold applyNetworkConfig. rewrite H. simpl. eauto.
  - intros H. unfold networkMode_of, js_or. by rewrite H.
  - intros H. unfold networkMode_of, js_or. by rewrite H.
  - unfold networkMode_of, js_or.
    destruct (truthy (prop m "network")) eqn:Ht.
    + intros Heq. rewrite Heq in Ht. discriminate.
    + destruct (DOCKER_NETWORK_cases penv) as [->|(s & -> & Hs)]; congruence.
Qed.

Lemma applyNetworkConfig_mode_witness :
  let penv := {| env_DATA_DIR := None; env_DOCKER_NETWORK := Some "minecraft-net";
                 env_ENABLE_SSH := None |} in
  let c := literalConfig "/host/bedrock-a" "bedrock-a" ∅
             ["EULA=TRUE"; "VERSION=LATEST"; "SERVER_NAME=Bedrock Server"] in
  (exists h, HostConfig (applyNetworkConfig penv c ∅) = Some h /\
             NetworkMode h = Some (VStr "minecraft-net")) /\
  applyNetworkConfig Sim.penv0 c ∅ = c.
Proof.
  intros penv c. split.
  - destruct (applyNetworkConfig_mode penv c ∅) as (_ & H & _). by apply H.
  - by apply (applyNetworkConfig_mode Sim.penv0 c ∅).
Defined.

(** X3. Whatever description they are given, the two helpers change nothing
    but the network mode, the port bindings and the exposed ports:
    [applyNetworkConfig] leaves the port bindings and exposed ports,
    [applyPortConfig] leaves the network mode, and both leave the image, the
    name, the labels, the environment, the binds, the restart policy and the
    memory. *)
Theorem helpers_frame penv (c : containerConfig) (m : metadata) :
  (same_identity c (applyNetworkConfig penv c m) /\
   ExposedPorts (applyNetworkConfig penv c m) = ExposedPorts c /\
   PortBindings (hostConfig_or_empty (applyNetworkConfig penv c m)) =
     PortBindings (hostConfig_or_empty c)) /\
  (forall c' v, applyPortConfig penv c m = Normal (c', v) ->
     same_identity c c' /\
     NetworkMode (hostConfig_or_empty c') = NetworkMode (hostConfig_or_empty c)).
Proof.
  split.
  - unfold applyNetworkConfig. destruct (truthy (networkMode_of penv m)); done.
  - intros c' v. unfold applyPortConfig.
    destruct (requiresPortMapping penv m) as [[|]| | |]; intros [= <- <-]; done.
Qed.

Lemma helpers_frame_witness :
  let c := literalConfig "/host/bedrock-a" "bedrock-a" ∅
             ["EULA=TRUE"; "VERSION=LATEST"; "SERVER_NAME=Bedrock Server"] in
  exists c' v,
    applyPortConfig Sim.penv0 c ∅ = Normal (c', v) /\
    same_identity c c' /\
    NetworkMode (hostConfig_or_empty c') = NetworkMode (hostConfig_or_empty c).
Proof.
  intros c. eexists _, _. split; [reflexivity|].
  destruct (helpers_frame Sim.penv0 c ∅) as [_ H]. eapply H. reflexivity.
Defined.

(** X4. The two helpers can be applied in either order: the description and
    the port returned are the same. *)
Theorem helpers_commute penv (c : containerConfig) (m : metadata) :
  applyPortConfig penv (applyNetworkConfig penv c m) m =
  match applyPortConfig penv c m with
  | Normal (c', v) => Normal (applyNetworkConfig penv c' m, v)
  | Throw e => Throw e
  | Continue => Continue
  | Exit code => Exit code
  end.
Proof.
  unfold applyPortConfig, applyNetworkConfig.
  destruct (requiresPortMapping penv m) as [[|]| | |];
    destruct (truthy (networkMode_of penv m)); destruct c as [? ? ? ? [[]|] ?]; reflexivity.
Qed.

(** X5. Applying a helper a second time changes nothing. *)
Theorem helpers_idempotent penv (c : containerConfig) (m : metadata) :
  applyNetworkConfig penv (applyNetworkConfig penv c m) m = applyNetworkConfig penv c m /\
  (forall c' v, applyPortConfig penv c m = Normal (c', v) ->
                applyPortConfig penv c' m = Normal (c', v)).
Proof.
  split.
  - unfold applyNetworkConfig.
    destruct (truthy (networkMode_of penv m)) eqn:H; rewrite ?H;
      destruct c as [? ? ? ? [[]|] ?]; reflexivity.
  - intros c' v. unfold applyPortConfig.
    destruct (requiresPortMapping penv m) as [[|]| | |]; intros [= <- <-];
      destruct c as [? ? ? ? [[]|] ?]; reflexivity.
Qed.

Lemma helpers_idempotent_witness :
  let c := literalConfig "/host/bedrock-a" "bedrock-a" ∅
             ["EULA=TRUE"; "VERSION=LATEST"; "SERVER_NAME=Bedrock Server"] in
  exists c' v,
    applyPortConfig Sim.penv0 c ∅ = Normal (c', v) /\
    applyPortConfig Sim.penv0 c' ∅ = Normal (c', v).
Proof.
  intros c. eexists _, _. split; [reflexivity|].
  destruct (helpers_idempotent Sim.penv0 c ∅) as [_ H]. eapply H. reflexivity.
Defined.

(** X6. The description depends on four fields of the record only: a value
    stored under any other key (a port, an image) changes nothing. *)
Theorem buildConfig_reads_four_fields penv hostServerPath serverId
        (m : metadata) (k : string) (v : value) :
  k <> "name" -> k <> "version" -> k <> "network" -> k <> "memory" ->
  buildConfig penv hostServerPath serverId (<[k := v]> m) =
  buildConfig penv hostServerPath serverId m.
Proof.
  intros Hn Hv Hw Hm.
  unfold buildConfig, applyPortConfig, applyNetworkConfig, requiresPortMapping,
    initialConfig, literalConfig, buildContainerEnv, networkMode_of.
  by rewrite !prop_insert_ne.
Qed.

Lemma buildConfig_reads_four_fields_witness :
  buildConfig Sim.penv0 "/host/bedrock-d" "bedrock-d"
    (<["image" := VStr "custom/image"]> {[ "name" := VStr "Creative" ]}) =
  buildConfig Sim.penv0 "/host/bedrock-d" "bedrock-d" {[ "name" := VStr "Creative" ]}.
Proof.
  apply buildConfig_reads_four_fields; discriminate.
Defined.

(** X7. The label written into the description is the one the existence
    check reads: a listed container that carries the [server-id] label of
    the description built for a server is found by the check for that
    server and for no other. *)
Theorem server_id_label_round_trip penv hostServerPath serverId (m : metadata)
        c v (x : Listed.t) (ls : gmap string string) (other : string) :
  buildConfig penv hostServerPath serverId m = Normal (c, v) ->
  Listed.Labels x = Some ls ->
  (forall s, Labels c !! "server-id" = Some (VStr s) -> ls !! "server-id" = Some s) ->
  has_server_id other x = true <-> other = serverId.
Proof.
  intros Hb Hx Hls. apply buildConfig_fields in Hb as (_ & _ & Hl & _).
  unfold has_server_id. rewrite Hx, (Hls _ Hl). simpl.
  destruct (String.eqb_spec serverId other); split; congruence.
Qed.

Lemma server_id_label_round_trip_witness :
  exists c v,
    buildConfig Sim.penv0 "/host/bedrock-a" "bedrock-a" ∅ = Normal (c, v) /\
    (has_server_id "bedrock-a"
       {| Listed.Id := "1"; Listed.State := "created";
          Listed.Labels := Some (Sim.label_text <$> Labels c); Listed.Mounts := None |} = true
     <-> "bedrock-a" = "bedrock-a").
Proof.
  destruct (buildConfig Sim.penv0 "/host/bedrock-a" "bedrock-a" ∅) as [[c v]| | |] eqn:E;
    try discriminate E.
  exists c, v. split; [reflexivity|].
  apply (server_id_label_round_trip Sim.penv0 "/host/bedrock-a" "bedrock-a" ∅ c v _
           (Sim.label_text <$> Labels c)); [exact E | reflexivity |].
  intros s Hs. by rewrite lookup_fmap, Hs.
Defined.

(** X8. A field that is there but falsy (an empty string, [0], [false],
    [null]) is replaced by its default like a missing one: the version by
    "LATEST", the name by "Bedrock Server" in the environment and in the
    label, the memory by 2147483648. *)
Theorem buildConfig_falsy_defaults penv hostServerPath serverId (m : metadata) c v :
  buildConfig penv hostServerPath serverId m = Normal (c, v) ->
  (truthy (prop m "version") = false -> "VERSION=LATEST" ∈ Env c) /\
  (truthy (prop m "name") = false ->
   "SERVER_NAME=Bedrock Server" ∈ Env c /\
   Labels c !! "server-name" = Some (VStr "Bedrock Server")) /\
  (truthy (prop m "memory") = false ->
   Memory (hostConfig_or_empty c) = Some (VNum "2147483648")).
Proof.
  intros Hb. apply buildConfig_env in Hb as (env & Henv & Hb).
  apply buildContainerEnv_built in Henv as (version & nm & Hv & Hn & Henv).
  assert (Env c = env /\
          Labels c = Labels (literalConfig hostServerPath serverId m env) /\
          Memory (hostConfig_or_empty c) =
            Memory (hostConfig_or_empty (literalConfig hostServerPath serverId m env)))
    as (He & Hl & Hm).
  { revert Hb. unfold applyPortConfig, applyNetworkConfig.
    destruct (requiresPortMapping penv m) as [[|]| | |];
      destruct (truthy (networkMode_of penv m)); intros [= <- <-]; done. }
  rewrite He, Hl, Hm, Henv. split; [|split].
  - intros H. unfold js_or in Hv. rewrite H in Hv. injection Hv as <-.
    apply elem_of_app. left. apply list_elem_of_further, list_elem_of_here.
  - intros H. split.
    + unfold js_or in Hn. rewrite H in Hn. injection Hn as <-.
      apply elem_of_app. left. do 2 apply list_elem_of_further. apply list_elem_of_here.
    + simpl. unfold js_or. rewrite H. by rewrite lookup_insert_ne, lookup_singleton_eq.
  - intros H. simpl. unfold js_or. by rewrite H.
Qed.

Lemma buildConfig_falsy_defaults_witness :
  exists c v,
    buildConfig Sim.penv0 "/host/bedrock-a" "bedrock-a"
      {[ "version" := VStr ""; "memory" := VNum "0" ]} = Normal (c, v) /\
    "VERSION=LATEST" ∈ Env c /\
    Memory (hostConfig_or_empty c) = Some (VNum "2147483648").
Proof.
  destruct (buildConfig Sim.penv0 "/host/bedrock-a" "bedrock-a"
              {[ "version" := VStr ""; "memory" := VNum "0" ]}) as [[c v]| | |] eqn:E;
    try discriminate E.
  exists c, v. split; [reflexivity|].
  destruct (buildConfig_falsy_defaults Sim.penv0 "/host/bedrock-a" "bedrock-a"
              {[ "version" := VStr ""; "memory" := VNum "0" ]} c v E) as (Hv & _ & Hm).
  split; [by apply Hv | by apply Hm].
Defined.

Lemma has_text_spec (v : value) :
  has_text v = true <-> exists s, to_string v = Normal s.
Proof.
  unfold has_text. destruct (to_string v); split; try discriminate; eauto;
    intros [s [=]].
Qed.

Lemma requiresPortMapping_throws penv (m : metadata) (e : error) :
  requiresPortMapping penv m = Throw e -> exists msg, e = TypeError msg.
Proof.
  unfold requiresPortMapping.
  destruct (truthy (networkMode_of penv m)); simpl; [|discriminate].
  destruct (networkMode_of penv m); simpl; intros H; simplify_eq; eauto.
  all: revert H; repeat case_match; intros; simplify_eq.
Qed.

(** X9. No description can be built exactly for the records whose version
    or name has no text, or whose network is truthy and not a string; the
    error is a [TypeError]. *)
Theorem buildConfig_throws_iff penv hostServerPath serverId (m : metadata) :
  ((exists e, buildConfig penv hostServerPath serverId m = Throw e) <->
   has_text (prop m "version") = false \/ has_text (prop m "name") = false \/
   (truthy (prop m "network") = true /\ forall s, prop m "network" <> VStr s)) /\
  (forall e, buildConfig penv hostServerPath serverId m = Throw e ->
             exists msg, e = TypeError msg).
Proof.
  assert (Hpolicy : (exists e, requiresPortMapping penv m = Throw e) <->
                    truthy (prop m "network") = true /\
                    forall s, prop m "network" <> VStr s).
  { split.
    - intros [e He].
      destruct (networkMode_of_cases penv m) as [Hf|[[s Hs]|[Ht Heq]]].
      + rewrite (requiresPortMapping_absent penv m Hf) in He. discriminate.
      + destruct (truthy (VStr s)) eqn:Hts.
        * rewrite (requiresPortMapping_string penv m s Hs Hts) in He. discriminate.
        * rewrite requiresPortMapping_absent in He by (by rewrite Hs). discriminate.
      + split; [exact Ht|]. intros s Hs. rewrite Hs in Heq, Ht.
        rewrite (requiresPortMapping_string penv m s Heq Ht) in He. discriminate.
    - intros [Ht Hs].
      assert (networkMode_of penv m = prop m "network") as Heq
        by (unfold networkMode_of, js_or; by rewrite Ht).
      apply requiresPortMapping_not_string; rewrite Heq; auto. }
  assert (Henv : (exists e, buildContainerEnv penv m = Throw e) <->
                 has_text (prop m "version") = false \/ has_text (prop m "name") = false).
  { split.
    - intros [e [_ He]%buildContainerEnv_throws].
      destruct (has_text (prop m "version")) eqn:Hv; [|by left].
      destruct (has_text (prop m "name")) eqn:Hn; [|by right].
      destruct He; by apply has_text_spec.
    - intros H. pose proof (buildContainerEnv_ends penv m) as Hends.
      destruct (buildContainerEnv penv m) as [env|e| |] eqn:E; [|by eauto|done..].
      apply buildContainerEnv_built in E as (version & nm & Hv & Hn & _).
      assert (has_text (prop m "version") = true) as Hv'
        by (apply has_text_spec, (to_string_js_or _ "LATEST"); eauto).
      assert (has_text (prop m "name") = true) as Hn'
        by (apply has_text_spec, (to_string_js_or _ "Bedrock Server"); eauto).
      destruct H; congruence. }
  split; [split|].
  - intros [e [He|Hp]%buildConfig_throws].
    + apply or_assoc. left. apply Henv. eauto.
    + right. right. apply Hpolicy. eauto.
  - intros H. apply or_assoc in H as [H|H].
    + apply Henv in H as [e He]. exists e. by apply buildConfig_without_env.
    + apply Hpolicy in H as [e He].
      pose proof (buildContainerEnv_ends penv m) as Hends.
      destruct (buildContainerEnv penv m) as [env|e'| |] eqn:E; [| |done..].
      * exists e. rewrite (buildConfig_with_env _ _ _ _ _ E).
        unfold applyPortConfig. by rewrite He.
      * exists e'. by apply buildConfig_without_env.
  - intros e [[-> _]%buildContainerEnv_throws|Hp]%buildConfig_throws.
    + by eexists.
    + by eapply requiresPortMapping_throws.
Qed.

Lemma buildConfig_throws_iff_witness :
  (exists e, buildConfig Sim.penv0 "/host/bedrock-a" "bedrock-a"
               {[ "network" := VNum "5" ]} = Throw e) /\
  (exists e, buildConfig Sim.penv0 "/host/bedrock-a" "bedrock-a"
               {[ "name" := VObj {[ "toString" := VNull ]} ]} = Throw e).
Proof.
  split.
  - apply (buildConfig_throws_iff Sim.penv0 "/host/bedrock-a" "bedrock-a"
             {[ "network" := VNum "5" ]}).
    right. right. split; [reflexivity | discriminate].
  - apply (buildConfig_throws_iff Sim.penv0 "/host/bedrock-a" "bedrock-a"
             {[ "name" := VObj {[ "toString" := VNull ]} ]}).
    right. left. reflexivity.
Defined.

(** ** The search for the mount *)

(** X10. [getHostDataPath] takes the first mount on the data path of the
    manager, in the order of the listing and, within a container, of its
    mounts: containers before it that have no mounts or none on that path
    are passed over, and what comes after it, containers or mounts, is not
    looked at. *)
Theorem find_minecraftMount_first (pre post : list Listed.t) (c : Listed.t)
        (ms1 ms2 : list mountPoint) (mount : mountPoint) :
  (forall c' ms m, c' ∈ pre -> Listed.Mounts c' = Some ms -> m ∈ ms ->
                   Destination m <> "/app/minecraft-data") ->
  Listed.Mounts c = Some (ms1 ++ mount :: ms2) ->
  (forall m, m ∈ ms1 -> Destination m <> "/app/minecraft-data") ->
  Destination mount = "/app/minecraft-data" ->
  find_minecraftMount (pre ++ c :: post) = Some mount.
Proof.
  intros Hpre Hc Hms Hd.
  assert (Hnone : forall ms, (forall m, m ∈ ms -> Destination m <> "/app/minecraft-data") ->
            List.find (fun m => String.eqb (Destination m) "/app/minecraft-data") ms = None).
  { induction ms as [|m ms IH]; intros H; simpl; [done|].
    destruct (String.eqb_spec (Destination m) "/app/minecraft-data") as [E|_].
    - destruct (H m); [apply list_elem_of_here|exact E].
    - apply IH. intros m' Hm'. apply H. by apply list_elem_of_further. }
  assert (Hhere : List.find (fun m => String.eqb (Destination m) "/app/minecraft-data")
                    (ms1 ++ mount :: ms2) = Some mount).
  { clear Hc. induction ms1 as [|m ms1 IH]; simpl.
    - by rewrite Hd.
    - destruct (String.eqb_spec (Destination m) "/app/minecraft-data") as [E|_].
      + destruct (Hms m); [apply list_elem_of_here|exact E].
      + apply IH. intros m' Hm'. apply Hms. by apply list_elem_of_further. }
  induction pre as [|c' pre IH]; simpl.
  - by rewrite Hc, Hhere.
  - destruct (Listed.Mounts c') as [ms|] eqn:Em.
    + rewrite (Hnone ms).
      * apply IH. intros c'' ms' m Hin. apply Hpre. by apply list_elem_of_further.
      * intros m Hm. eapply Hpre; [apply list_elem_of_here|exact Em|exact Hm].
    + apply IH. intros c'' ms' m Hin. apply Hpre. by apply list_elem_of_further.
Qed.

Lemma find_minecraftMount_first_witness :
  let mount := {| Source := "/host/data"; Destination := "/app/minecraft-data" |} in
  let other := {| Source := "/late"; Destination := "/app/minecraft-data" |} in
  let temp := {| Source := "/host/temp"; Destination := "/app/temp" |} in
  let container ms := {| Listed.Id := "x"; Listed.State := "exited"; Listed.Labels := None;
                         Listed.Mounts := ms |} in
  find_minecraftMount
    ([container None; container (Some [temp])] ++
     container (Some ([temp] ++ mount :: [other])) :: [container (Some [other])]) =
  Some mount.
Proof.
  intros mount other temp container.
  apply (find_minecraftMount_first [container None; container (Some [temp])]
           [container (Some [other])] (container (Some ([temp] ++ mount :: [other])))
           [temp] [other] mount).
  - intros c' ms m Hc Hm Hin. subst container temp.
    in_trace Hc; cbn in Hm; simplify_eq. in_trace Hin. cbn. discriminate.
  - reflexivity.
  - intros m Hin. subst temp. in_trace Hin. cbn. discriminate.
  - reflexivity.
Defined.

(** ** The loop body and the loop, by their events *)

Lemma call_ready_app (k pre : list event) (x : event) :
  call_ready pre x -> call_ready (k ++ pre) x.
Proof.
  destruct x as [[]| | | | | | | | | ]; simpl; try done.
  - intros (h & info & H & ->). exists h, info. split; [by apply suffix_app_r|done].
  - intros [e H]. exists e. by apply suffix_app_r.
  - intros [cfg H]. exists cfg. by apply suffix_app_r.
  - apply suffix_app_r.
Qed.

Lemma calls_in_order_none (t : list event) :
  count is_ordered_call t = 0%nat -> calls_in_order t.
Proof.
  intros H pre x post ->. rewrite count_app, count_cons in H.
  destruct x as [[]| | | | | | | | | ]; simpl in *; try done; lia.
Qed.

Lemma calls_in_order_app (t1 t2 : list event) :
  calls_in_order t1 -> calls_in_order t2 -> calls_in_order (t1 ++ t2).
Proof.
  intros H1 H2 pre x post Heq.
  apply app_eq_inv in Heq as [(k & -> & Hk)|(k & -> & Hk)].
  - destruct k as [|y k]; simpl in Hk.
    + rewrite <- (app_nil_r pre). apply call_ready_app.
      apply (H2 [] x post). by rewrite <- Hk.
    + injection Hk as <- ->. by apply (H1 pre x k).
  - apply call_ready_app. by apply (H2 k x post).
Qed.

Lemma pathExists_paths_app (t1 t2 : list event) :
  pathExists_paths (t1 ++ t2) = pathExists_paths t1 ++ pathExists_paths t2.
Proof. apply omap_app. Qed.

Section Orders.

Context {W : Type} {RT : Runtime W}.
Variable penv : process_env.

(** The lines of a body and its counters: one server, one line. *)
Lemma iteration_profile hostDataPath serverId c w c' w' t :
  iteration penv hostDataPath serverId c w = (c', w', t) ->
  successCount c' = (successCount c + count is_created t)%nat /\
  failureCount c' = (failureCount c + count is_error t)%nat /\
  (count is_created t + count is_error t + count is_skip t = 1)%nat /\
  count is_outer t = 0%nat /\
  pathExists_paths t =
    [path_join (path_join (DATA_DIR penv) serverId) "metadata.json"].
Proof.
  run_iteration.
  all: intros [= <- <- <-]; cbn; repeat split; lia.
Qed.

Lemma iteration_call_order hostDataPath serverId c w c' w' t :
  iteration penv hostDataPath serverId c w = (c', w', t) ->
  calls_in_order t.
Proof.
  run_iteration.
  all: intros [= <- <- <-].
  all: try (apply calls_in_order_none; reflexivity).
  all: intros pre x post Heq; split_trace Heq pre.
  all: repeat match goal with u : unit |- _ => destruct u end.
  all: cbn [call_ready]; try exact I.
  all: first [ eexists _, _; split; [|reflexivity];
               solve [repeat first [reflexivity | apply suffix_cons_r]]
             | eexists; solve [repeat first [reflexivity | apply suffix_cons_r]]
             | solve [repeat first [reflexivity | apply suffix_cons_r]] ].
Qed.

End Orders.

Section Sources.

Context {W : Type} {RT : Runtime W}.
Variable penv : process_env.

(** The container a body asks for is the description built from the
    metadata it has read from the file of its directory. *)
Lemma iteration_create_source hostDataPath serverId c w c' w' t cfg r :
  iteration penv hostDataPath serverId c w = (c', w', t) ->
  EvCreateContainer cfg r ∈ t ->
  exists json m v,
    EvReadJson (path_join (path_join (DATA_DIR penv) serverId) "metadata.json")
      (Fulfilled json) ∈ t /\
    toObject json = Normal m /\
    buildConfig penv (path_join hostDataPath serverId) serverId m = Normal (cfg, v).
Proof.
  run_iteration.
  all: intros [= <- <- <-] Hc; in_trace Hc.
  all: eexists _, _, _; split; [find_in_trace|]; split; eassumption.
Qed.

(** What follows the answers in the run of a body. *)
Lemma iteration_answers hostDataPath serverId c w c' w' t :
  iteration penv hostDataPath serverId c w = (c', w', t) ->
  answers_followed t.
Proof.
  run_iteration.
  all: intros [= <- <- <-] pre x post Heq; split_trace Heq pre.
  all: split; [intros Hr; try discriminate Hr|intros ? ? ? Hx Ht; try discriminate Hx].
  all: try (eexists _, _; split; [reflexivity|]; cbn; tauto).
  all: simplify_eq; try congruence.
  all: match goal with
       | H1 : toObject ?j = Throw ?a, H2 : toObject ?j = Throw ?b |- _ =>
           assert (b = a) as -> by congruence
       end.
  all: eexists _, _; reflexivity.
Qed.

End Sources.

(** ** Runs of the loop and of the script, by their events *)

Lemma answer_followed_app (x : event) (post k : list event) :
  answer_followed x post -> answer_followed x (post ++ k).
Proof.
  intros [Hr Hn]. split.
  - intros H. destruct (Hr H) as (l & post' & -> & Hl). by exists l, (post' ++ k).
  - intros p json e Hx Ht. destruct (Hn p json e Hx Ht) as (d & post' & ->).
    by exists d, (post' ++ k).
Qed.

Lemma answers_followed_app (t1 t2 : list event) :
  answers_followed t1 -> answers_followed t2 -> answers_followed (t1 ++ t2).
Proof.
  intros H1 H2 pre x post Heq.
  apply app_eq_inv in Heq as [(k & -> & Hk)|(k & -> & Hk)].
  - destruct k as [|y k]; simpl in Hk.
    + apply (H2 [] x post). by rewrite <- Hk.
    + injection Hk as <- ->. apply answer_followed_app. by apply (H1 pre x k).
  - by apply (H2 k x post).
Qed.

Lemma answers_followed_nil : answers_followed [].
Proof. intros [|? ?] x post H; discriminate H. Qed.

Lemma answers_followed_cons (x : event) (t : list event) :
  answer_followed x t -> answers_followed t -> answers_followed (x :: t).
Proof.
  intros Hx Ht [|y pre] z post Heq; simpl in Heq; injection Heq as <- ->; [done|].
  by apply (Ht pre z post).
Qed.

Lemma readdir_entries_app (t1 t2 : list event) :
  readdir_entries (t1 ++ t2) = readdir_entries t1 ++ readdir_entries t2.
Proof. unfold readdir_entries. by rewrite omap_app, concat_app. Qed.

Lemma omap_exit_line_app (t1 t2 : list event) :
  omap exit_line (t1 ++ t2) = omap exit_line t1 ++ omap exit_line t2.
Proof. apply omap_app. Qed.

(** A run without events of the script outside the loop has no line that
    goes with [process.exit], no line of the summary and no [readdir]. *)
Lemma inner_events (t : list event) :
  count is_outer t = 0%nat ->
  omap exit_line t = [] /\ readdir_entries t = [] /\
  forall x, x ∈ t -> is_outer x = false.
Proof.
  intros H. split; [|split].
  - induction t as [|x t IH]; [done|]. rewrite count_cons in H.
    destruct x as [[]| | | | | | | | | ]; simpl in *; try lia; apply IH; lia.
  - induction t as [|x t IH]; [done|]. rewrite count_cons in H.
    destruct x as [[]| | | | | | | | | ]; simpl in *; try lia; apply IH; lia.
  - intros x Hx. by eapply count_zero.
Qed.

Section MoreBatch.

Context {W : Type} {RT : Runtime W}.
Variable penv : process_env.

(** What holds of the events of every body and is kept by putting runs
    one after the other holds of the run of the loop. *)
Lemma serverLoop_events (P : list event -> Prop) hostDataPath :
  P [] -> (forall t1 t2, P t1 -> P t2 -> P (t1 ++ t2)) ->
  (forall d c w c' w' t, iteration penv hostDataPath d c w = (c', w', t) -> P t) ->
  forall serverDirs c w c' w' t,
    serverLoop penv hostDataPath serverDirs c w = (c', w', t) -> P t.
Proof.
  intros Hnil Happ Hit serverDirs.
  induction serverDirs as [|d ds IH]; intros c w c' w' t; simpl.
  - by intros [= <- <- <-].
  - destruct (iteration penv hostDataPath d c w) as [[c1 w1] t1] eqn:E1.
    destruct (serverLoop penv hostDataPath ds c1 w1) as [[c2 w2] t2] eqn:E2.
    intros [= <- <- <-]. apply Happ; [by eapply Hit | by eapply IH].
Qed.

Lemma serverLoop_profile hostDataPath serverDirs c w c' w' t :
  serverLoop penv hostDataPath serverDirs c w = (c', w', t) ->
  successCount c' = (successCount c + count is_created t)%nat /\
  failureCount c' = (failureCount c + count is_error t)%nat /\
  (count is_created t + count is_error t + count is_skip t = length serverDirs)%nat /\
  count is_outer t = 0%nat /\
  pathExists_paths t = metadataPath penv <$> serverDirs.
Proof.
  revert c w c' w' t. induction serverDirs as [|d ds IH]; intros c w c' w' t; simpl.
  - intros [= <- <- <-]. cbn. repeat split; lia.
  - destruct (iteration penv hostDataPath d c w) as [[c1 w1] t1] eqn:E1.
    destruct (serverLoop penv hostDataPath ds c1 w1) as [[c2 w2] t2] eqn:E2.
    intros [= <- <- <-].
    destruct (iteration_profile penv _ _ _ _ _ _ _ E1) as (Hs1 & Hf1 & Hn1 & Ho1 & Hp1).
    destruct (IH _ _ _ _ _ E2) as (Hs2 & Hf2 & Hn2 & Ho2 & Hp2).
    rewrite !count_app, pathExists_paths_app, Hp1, Hp2.
    repeat split; try lia. 
Qed.

Lemma serverLoop_call_order hostDataPath serverDirs c w c' w' t :
  serverLoop penv hostDataPath serverDirs c w = (c', w', t) -> calls_in_order t.
Proof.
  apply (serverLoop_events calls_in_order).
  - by apply calls_in_order_none.
  - apply calls_in_order_app.
  - apply iteration_call_order.
Qed.

Lemma serverLoop_answers hostDataPath serverDirs c w c' w' t :
  serverLoop penv hostDataPath serverDirs c w = (c', w', t) -> answers_followed t.
Proof.
  apply (serverLoop_events answers_followed).
  - apply answers_followed_nil.
  - apply answers_followed_app.
  - apply iteration_answers.
Qed.

Lemma serverLoop_create_source hostDataPath serverDirs c w c' w' t cfg r :
  serverLoop penv hostDataPath serverDirs c w = (c', w', t) ->
  EvCreateContainer cfg r ∈ t ->
  exists d json m v,
    d ∈ serverDirs /\
    EvReadJson (metadataPath penv d) (Fulfilled json) ∈ t /\
    toObject json = Normal m /\
    buildConfig penv (path_join hostDataPath d) d m = Normal (cfg, v).
Proof.
  revert c w c' w' t. induction serverDirs as [|d ds IH]; intros c w c' w' t; simpl.
  - intros [= <- <- <-] H. by apply elem_of_nil in H.
  - destruct (iteration penv hostDataPath d c w) as [[c1 w1] t1] eqn:E1.
    destruct (serverLoop penv hostDataPath ds c1 w1) as [[c2 w2] t2] eqn:E2.
    intros [= <- <- <-] Hin. apply elem_of_app in Hin as [Hin|Hin].
    + destruct (iteration_create_source penv _ _ _ _ _ _ _ _ _ E1 Hin)
        as (json & m & v & Hj & Hm & Hb).
      exists d, json, m, v. split; [apply list_elem_of_here|].
      split; [apply elem_of_app; by left|done].
    + destruct (IH _ _ _ _ _ E2 Hin) as (d' & json & m & v & Hd & Hj & Hm & Hb).
      exists d', json, m, v. split; [by apply list_elem_of_further|].
      split; [apply elem_of_app; by right|done].
Qed.

Lemma getHostDataPath_events (w : W) :
  exists p w1 t, getHostDataPath penv w = (Normal p, w1, t) /\ search_events penv t.
Proof.
  unfold getHostDataPath, tryCatch, bind, await, log, ret, search_events.
  destruct (docker_listContainers w) as [[cs|e] w1]; cbn.
  - destruct (find_minecraftMount cs) as [mount|]; cbn; eauto 12.
  - eauto 10.
Qed.

Lemma recreateServers_events (w0 : W) r w' t :
  recreateServers penv w0 = (r, w', t) -> run_events penv r t.
Proof.
  unfold recreateServers, tryCatch, bind, await, log, ret, exit, run_events.
  destruct (fs_pathExists (DATA_DIR penv) w0) as [[[|]|e] w1] eqn:E0;
    cbn -[getHostDataPath serverLoop summary serverDirs_of].
  2: { intros [= <- <- <-]. right; left. done. }
  2: { intros [= <- <- <-]. left. by exists e. }
  destruct (getHostDataPath_events w1) as (hdp & w2 & th & Eh & Hs).
  rewrite Eh. cbn -[getHostDataPath serverLoop summary serverDirs_of].
  destruct (fs_readdir (DATA_DIR penv) w2) as [[items|e] w3] eqn:E2;
    cbn -[getHostDataPath serverLoop summary serverDirs_of].
  2: { intros [= <- <- <-]. right; right. exists th. split; [done|]. left. exists e.
       split; [done|]. unfold banner. cbn. by rewrite <- ?app_assoc. }
  destruct (serverDirs_of items) as [|d ds] eqn:Ed;
    cbn -[getHostDataPath serverLoop summary serverDirs_of].
  { intros [= <- <- <-]. right; right. exists th. split; [done|]. right; left.
    exists items. split; [done|]. split; [done|].
    unfold banner. cbn. by rewrite <- ?app_assoc. }
  destruct (serverLoop penv hdp (d :: ds) _ w3) as [[c w4] tl] eqn:El.
  rewrite summary_run. cbn -[getHostDataPath serverLoop summary serverDirs_of summary_lines].
  intros [= <- <- <-]. right; right. exists th. split; [done|]. right; right.
  exists hdp, items, w3, c, w4, tl. rewrite Ed. repeat (split; [done|]).
  unfold banner. cbn. by rewrite <- ?app_assoc.
Qed.

End MoreBatch.

(** ** The script as a whole *)

(** The ways of a run, one goal each, with the events of the search spelled
    out. *)
Ltac script_cases Er :=
  let Hs := fresh "Hs" in
  apply recreateServers_events in Er;
  destruct Er as [(? & -> & ->)|[(-> & ->)|(? & Hs & [(? & -> & ->)|[(? & ? & -> & ->)|
    (? & ? & ? & ? & ? & ? & ? & ? & -> & ->)]])]];
  [ | | destruct Hs as [(? & ->)|(? & ? & -> & [->|(? & ->)])] .. ].

Lemma summary_lines_cases (c : counters) :
  exists l1 l2,
    summary_lines c =
      [EvLog LogRule; EvLog (LogSuccessCount (successCount c))] ++ l1 ++ [EvLog LogRule] ++ l2 /\
    ((failureCount c = 0%nat /\ l1 = []) \/
     ((0 < failureCount c)%nat /\ l1 = [EvLog (LogFailedCount (failureCount c))])) /\
    ((failureCount c = 0%nat /\ (0 < successCount c)%nat /\ l2 = [EvLog LogAllRecreated]) \/
     (((0 < failureCount c)%nat \/ successCount c = 0%nat) /\ l2 = [])).
Proof.
  unfold summary_lines. eexists _, _. split; [reflexivity|].
  destruct (failureCount c) as [|f]; destruct (successCount c) as [|s]; cbn;
    split; first [left; repeat split; (reflexivity || lia) | right; repeat split; (reflexivity || lia)
                 | right; split; [left; lia|reflexivity] | right; split; [right; lia|reflexivity]].
Qed.

Section Whole.

Context {W : Type} {RT : Runtime W}.
Variable penv : process_env.

(** X11. A run of the script ends in one of two ways. It completes, with the
    summary as its last lines and none of the three lines that go with
    [process.exit]; or it leaves through [process.exit], and then its last
    event is the one such line it has written, with the status of that line:
    1 after the line of the missing data directory or the fatal line, 0
    after the line of no server directories, and before it the script has
    asked Docker for the one listing at most. It never throws, so the
    handler put on the promise at top level never runs; and servers that
    fail do not change the status. *)
Theorem recreateServers_outcome (w0 : W) r w' t :
  recreateServers penv w0 = (r, w', t) ->
  (r = Normal tt /\ omap exit_line t = [] /\ exists pre c, t = pre ++ summary_lines c) \/
  (exists code pre x,
      r = Exit code /\ t = pre ++ [x] /\ exit_line x = Some code /\
      omap exit_line pre = [] /\ count is_docker pre <= 1)%nat.
Proof.
  intros Er. script_cases Er.
  1-8: right; eexists _, _, _; split; [reflexivity|]; split;
         [match goal with |- ?l = _ => change l with (removelast l ++ [List.last l (banner penv)]) end;
          reflexivity|]; split; [reflexivity|]; split; [reflexivity|cbn; lia].
  all: left; split; [reflexivity|].
  all: match goal with
       | H : serverLoop _ _ _ _ _ = _ |- _ =>
           destruct (serverLoop_profile penv _ _ _ _ _ _ _ H) as (_ & _ & _ & Ho & _);
           destruct (inner_events _ Ho) as (Hx & _ & _)
       end.
  all: split; [|eexists _, _; rewrite !app_assoc; reflexivity].
  all: rewrite !omap_exit_line_app, Hx.
  all: match goal with |- context [summary_lines ?c] =>
         destruct (summary_lines_cases c) as (l1 & l2 & -> & [[_ ->]|[_ ->]] & [(_ & _ & ->)|[_ ->]])
       end; reflexivity.
Qed.

(** What the outer events of a completed run count. *)
Lemma search_events_quiet (th : list event) :
  search_events penv th ->
  count is_created th = 0%nat /\ count is_error th = 0%nat /\ count is_skip th = 0%nat /\
  count is_ordered_call th = 0%nat /\ pathExists_paths th = [] /\ readdir_entries th = [] /\
  (forall x, x ∈ th -> is_outer x = true \/ exists r, x = EvListContainers r) /\
  answers_followed th.
Proof.
  intros [(e & ->)|(cs & l & -> & [->|(s & ->)])].
  all: repeat (split; [reflexivity|]).
  all: split; [intros x Hx; in_trace Hx; eauto|].
  all: repeat (apply answers_followed_cons;
               [split; [intros Hr; try discriminate Hr|intros ? ? ? Hx; discriminate Hx]|]);
       try apply answers_followed_nil.
  eexists _, _; split; [reflexivity|]. cbn. tauto.
Qed.

(** X12. The numbers of the summary are the numbers of the lines written:
    in a run that completes, the line of the successes gives the number of
    lines that report a created container; the line of the failures is
    written exactly when some server has failed and gives the number of
    lines that report a failed server; the closing line is written exactly
    when no server has failed and some container was created; and the
    number of directories announced is the number of created, failed and
    skipped servers together. *)
Theorem summary_counts_lines (w0 : W) w' t :
  recreateServers penv w0 = (Normal tt, w', t) ->
  (forall n, EvLog (LogSuccessCount n) ∈ t <-> n = count is_created t) /\
  (forall n, EvLog (LogFailedCount n) ∈ t <-> n = count is_error t /\ (0 < n)%nat) /\
  (EvLog LogAllRecreated ∈ t <-> count is_error t = 0%nat /\ (0 < count is_created t)%nat) /\
  (exists n, EvLog (LogFoundDirs n) ∈ t /\
             (count is_created t + count is_error t + count is_skip t = n)%nat).
Proof.
  intros Er. apply recreateServers_events in Er.
  destruct Er as [(? & [=] & _)|[([=] & _)|(th & Hs & [(? & [=] & _)|[(? & _ & [=] & _)|
    (hdp & items & w3 & c & w4 & tl & Hne & El & _ & ->)]])]].
  destruct (search_events_quiet th Hs) as (Hc & He & Hk & _ & _ & _ & Hth & _).
  destruct (serverLoop_profile penv _ _ _ _ _ _ _ El) as (Hsc & Hfc & Hn & Ho & _).
  destruct (inner_events _ Ho) as (_ & _ & Hin).
  simpl in Hsc, Hfc.
  assert (Hcounts : forall f, f = is_created \/ f = is_error \/ f = is_skip ->
            count f ([banner penv; EvPathExists (DATA_DIR penv) (Fulfilled true)] ++ th ++
                     [EvReaddir (DATA_DIR penv) (Fulfilled items);
                      EvLog (LogFoundDirs (length (serverDirs_of items)))] ++ tl ++
                     summary_lines c) = count f tl).
  { intros f Hf.
    assert (count f th = 0%nat) as Hz by (destruct Hf as [->|[->| ->]]; assumption).
    rewrite !count_app, Hz.
    destruct (summary_lines_cases c) as (l1 & l2 & -> & [[_ ->]|[_ ->]] & [(_ & _ & ->)|[_ ->]]);
      destruct Hf as [->|[->| ->]]; cbn; lia. }
  rewrite !Hcounts by tauto. rewrite <- Hsc, <- Hfc.
  assert (Houter : forall l, is_outer (EvLog l) = true ->
            EvLog l ∈ [banner penv; EvPathExists (DATA_DIR penv) (Fulfilled true)] ++ th ++
                     [EvReaddir (DATA_DIR penv) (Fulfilled items);
                      EvLog (LogFoundDirs (length (serverDirs_of items)))] ++ tl ++
                     summary_lines c <->
            EvLog l ∈ banner penv :: th ++
                      EvLog (LogFoundDirs (length (serverDirs_of items))) :: summary_lines c).
  { intros l Hl. rewrite !elem_of_app, !elem_of_cons, !elem_of_app, !elem_of_cons, elem_of_nil.
    split; [|tauto].
    intros [[?|[?|?]]|[?|[[?|[?|?]]|[Hx|?]]]]; try tauto; try discriminate.
    apply Hin in Hx. congruence. }
  assert (Hsearch : forall l, EvLog l ∈ th ->
            l = LogSearchingMount \/ (exists n, l = LogFoundContainers n) \/
            (exists m, l = LogHostPathFailed m) \/ (exists d, l = LogNoMount d) \/
            exists d, l = LogUsingMount d).
  { intros l Hl. destruct Hs as [(e & ->)|(cs & l' & -> & [->|(s & ->)])];
      in_trace Hl; eauto 10. }
  split; [|split; [|split]].
  - intros n. rewrite Houter by reflexivity.
    rewrite elem_of_cons, elem_of_app, elem_of_cons. unfold banner. split.
    + intros [?|[Hl|[?|Hl]]]; try discriminate.
      * apply Hsearch in Hl. destruct Hl as [?|[[? ?]|[[? ?]|[[? ?]|[? ?]]]]]; discriminate.
      * destruct (summary_lines_cases c) as (l1 & l2 & Hsl & [[_ ->]|[_ ->]] & [(_ & _ & ->)|[_ ->]]);
          rewrite Hsl in Hl; in_trace Hl; reflexivity.
    + intros ->. right; right; right. unfold summary_lines.
      apply list_elem_of_further, list_elem_of_here.
  - intros n. rewrite Houter by reflexivity.
    rewrite elem_of_cons, elem_of_app, elem_of_cons. unfold banner. split.
    + intros [?|[Hl|[?|Hl]]]; try discriminate.
      * apply Hsearch in Hl. destruct Hl as [?|[[? ?]|[[? ?]|[[? ?]|[? ?]]]]]; discriminate.
      * destruct (summary_lines_cases c) as (l1 & l2 & Hsl & [[? ->]|[? ->]] & [(_ & _ & ->)|[_ ->]]);
          rewrite Hsl in Hl; in_trace Hl; split; (reflexivity || lia).
    + intros [-> Hpos]. right; right; right. unfold summary_lines.
      destruct (0 <? failureCount c)%nat eqn:E; [|apply Nat.ltb_ge in E; lia].
      do 2 apply list_elem_of_further. apply list_elem_of_here.
  - rewrite Houter by reflexivity.
    rewrite elem_of_cons, elem_of_app, elem_of_cons. unfold banner. split.
    + intros [?|[Hl|[?|Hl]]]; try discriminate.
      * apply Hsearch in Hl. destruct Hl as [?|[[? ?]|[[? ?]|[[? ?]|[? ?]]]]]; discriminate.
      * destruct (summary_lines_cases c) as (l1 & l2 & Hsl & [[? ->]|[? ->]] & [(? & ? & ->)|[? ->]]);
          rewrite Hsl in Hl; in_trace Hl; split; lia.
    + intros [Hz Hpos]. right; right; right.
      destruct (summary_lines_cases c) as (l1 & l2 & Hsl & [[? ->]|[? ->]] & [(? & ? & ->)|[? ->]]);
        rewrite Hsl; try lia; find_in_trace.
  - exists (length (serverDirs_of items)). split; [|lia].
    apply Houter; [reflexivity|]. apply list_elem_of_further, elem_of_app. right.
    apply list_elem_of_here.
Qed.

(** X13. In any run of the script the calls on a container come in order,
    each right after the call it rests on: a container is started right
    after the fulfilled request that made it, under the handle that request
    gave; it is inspected right after its fulfilled start; the line of a
    created container comes right after that fulfilled inspection and shows
    the first twelve characters of the [Id] it gave; and the image is pulled
    only right after its rejected inspection and the line that announces the
    pull. *)
Theorem recreateServers_call_order (w0 : W) r w' t :
  recreateServers penv w0 = (r, w', t) ->
  forall pre x post, t = pre ++ x :: post ->
    match x with
    | EvStart h _ => exists cfg, [EvCreateContainer cfg (Fulfilled h)] `suffix_of` pre
    | EvInspect h _ => [EvStart h (Fulfilled tt)] `suffix_of` pre
    | EvPull image _ =>
        exists e, [EvImageInspect image (Rejected e); EvLog (LogPulling image)]
                    `suffix_of` pre
    | EvLog (LogCreated id12) =>
        exists h info, [EvInspect h (Fulfilled info)] `suffix_of` pre /\
                       id12 = substring0 12 (Inspected.Id info)
    | _ => True
    end.
Proof.
  intros Er. change (calls_in_order t). script_cases Er.
  1-8: apply calls_in_order_none; reflexivity.
  all: match goal with
       | H : serverLoop _ _ _ _ _ = _ |- _ => pose proof (serverLoop_call_order penv _ _ _ _ _ _ _ H)
       end.
  all: do 3 (apply calls_in_order_app; [by apply calls_in_order_none|]).
  all: apply calls_in_order_app; [done|].
  all: apply calls_in_order_none.
  all: match goal with |- context [summary_lines ?c] =>
         destruct (summary_lines_cases c) as (l1 & l2 & -> & [[_ ->]|[_ ->]] & [(_ & _ & ->)|[_ ->]])
       end; reflexivity.
Qed.

(** X14. Every container a run asks for comes from a server directory and
    its file: its name is an entry of the data directory that starts with
    [bedrock-], the label [server-id] carries that name, and its description
    is the one built from the metadata that was read, in the same run, from
    [metadata.json] of the directory of that name. *)
Theorem created_from_metadata (w0 : W) r w' t cfg res :
  recreateServers penv w0 = (r, w', t) ->
  EvCreateContainer cfg res ∈ t ->
  exists items hdp json m v,
    EvReaddir (DATA_DIR penv) (Fulfilled items) ∈ t /\
    name cfg ∈ items /\ startsWith (name cfg) "bedrock-" = true /\
    Labels cfg !! "server-id" = Some (VStr (name cfg)) /\
    EvReadJson (metadataPath penv (name cfg)) (Fulfilled json) ∈ t /\
    toObject json = Normal m /\
    buildConfig penv (path_join hdp (name cfg)) (name cfg) m = Normal (cfg, v).
Proof.
  intros Er Hin. apply recreateServers_events in Er.
  destruct Er as [(? & _ & ->)|[(_ & ->)|(th & Hs & [(? & _ & ->)|[(? & _ & _ & ->)|
    (hdp & items & w3 & c & w4 & tl & Hne & El & _ & ->)]])]].
  1,2: in_trace Hin.
  1,2: destruct (search_events_quiet th Hs) as (_ & _ & _ & _ & _ & _ & Hth & _);
       rewrite !elem_of_app in Hin; destruct Hin as [Hin|[Hin|Hin]]; try (in_trace Hin);
       destruct (Hth _ Hin) as [?|[? ?]]; discriminate.
  destruct (search_events_quiet th Hs) as (_ & _ & _ & _ & _ & _ & Hth & _).
  destruct (serverLoop_profile penv _ _ _ _ _ _ _ El) as (_ & _ & _ & Ho & _).
  rewrite !elem_of_app in Hin. destruct Hin as [Hin|[Hin|[Hin|[Hin|Hin]]]].
  - in_trace Hin.
  - destruct (Hth _ Hin) as [?|[? ?]]; discriminate.
  - in_trace Hin.
  - destruct (serverLoop_create_source penv _ _ _ _ _ _ _ _ _ El Hin)
      as (d & json & m & v & Hd & Hj & Hm & Hb).
    destruct (buildConfig_fields penv _ _ _ _ _ Hb) as (_ & Hname & Hl & _).
    rewrite Hname.
    apply list_elem_of_In, List.filter_In in Hd as [Hd Hpre].
    exists items, hdp, json, m, v.
    split; [rewrite !elem_of_app; right; right; left; apply list_elem_of_here|].
    split; [by apply list_elem_of_In|]. split; [exact Hpre|]. split; [exact Hl|].
    split; [rewrite !elem_of_app; tauto|]. split; [exact Hm|exact Hb].
  - destruct (summary_lines_cases c) as (l1 & l2 & Hsl & [[_ ->]|[_ ->]] & [(_ & _ & ->)|[_ ->]]);
      rewrite Hsl in Hin; in_trace Hin.
Qed.

(** The events of a run of the script are followed as they should. *)
Lemma recreateServers_answers (w0 : W) r w' t :
  recreateServers penv w0 = (r, w', t) -> answers_followed t.
Proof.
  assert (Hlog : forall l t0, answers_followed t0 -> answers_followed (EvLog l :: t0)).
  { intros l t0 H. apply answers_followed_cons; [|done].
    split; [intros Hr; discriminate Hr|intros ? ? ? Hx; discriminate Hx]. }
  assert (Hsum : forall c, answers_followed (summary_lines c)).
  { intros c.
    destruct (summary_lines_cases c) as (l1 & l2 & -> & [[_ ->]|[_ ->]] & [(_ & _ & ->)|[_ ->]]);
      cbn; repeat apply Hlog; apply answers_followed_nil. }
  assert (Hyes : forall p t0, answers_followed t0 ->
                              answers_followed (EvPathExists p (Fulfilled true) :: t0)).
  { intros p t0 H. apply answers_followed_cons; [|done].
    split; [intros Hr; discriminate Hr|intros ? ? ? Hx; discriminate Hx]. }
  intros Er. apply recreateServers_events in Er.
  destruct Er as [(e & _ & ->)|[(_ & ->)|(th & Hs & Hrest)]].
  - apply Hlog. apply answers_followed_cons; [|apply Hlog, answers_followed_nil].
    split; [|intros ? ? ? Hx; discriminate Hx].
    intros _. eexists _, _. split; [reflexivity|]. cbn. tauto.
  - apply Hlog. apply answers_followed_cons; [|apply Hlog, answers_followed_nil].
    split; [intros Hr; discriminate Hr|intros ? ? ? Hx; discriminate Hx].
  - destruct (search_events_quiet th Hs) as (_ & _ & _ & _ & _ & _ & _ & Hth).
    destruct Hrest as [(e & _ & ->)|[(items & _ & _ & ->)|
      (hdp & items & w3 & c & w4 & tl & Hne & El & _ & ->)]].
    + cbn [app]. apply Hlog, Hyes. apply answers_followed_app; [done|].
      apply answers_followed_cons; [|apply Hlog, answers_followed_nil].
      split; [|intros ? ? ? Hx; discriminate Hx].
      intros _. eexists _, _. split; reflexivity.
    + cbn [app]. apply Hlog, Hyes. apply answers_followed_app; [done|].
      apply answers_followed_cons; [|apply Hlog, answers_followed_nil].
      split; [intros Hr; discriminate Hr|intros ? ? ? Hx; discriminate Hx].
    + cbn [app]. apply Hlog, Hyes. apply answers_followed_app; [done|].
      apply answers_followed_cons;
        [split; [intros Hr; discriminate Hr|intros ? ? ? Hx; discriminate Hx]|].
      apply Hlog. apply answers_followed_app; [|apply Hsum].
      by eapply serverLoop_answers.
Qed.

(** X15. No rejection goes unreported: in any run of the script, the event
    right after a rejected call is the line written for it. It carries the
    message of the rejection: the line of the check or of the search after a
    rejected listing, the fatal line after [readdir], the fatal line or the
    line of the failed server after [pathExists], the line of the failed
    server after any other call; but for the rejected inspection of the
    image, which is followed by the announcement of the pull. *)
Theorem rejection_reported (w0 : W) r w' t pre x post :
  recreateServers penv w0 = (r, w', t) ->
  t = pre ++ x :: post -> is_rejection x = true ->
  exists l post', post = EvLog l :: post' /\ reports l x.
Proof.
  intros Er Heq Hx.
  by destruct (recreateServers_answers _ _ _ _ Er pre x post Heq) as [H _]; apply H.
Qed.

(** X16. Metadata that is [null] fails its server before Docker is asked
    anything about it: in any run of the script, a [metadata.json] that is
    read as [null] is followed by the line that names the server and then,
    at once, by the line of its failure, with the message of the
    [TypeError]. *)
Theorem null_metadata_fails (w0 : W) r w' t pre p json post e :
  recreateServers penv w0 = (r, w', t) ->
  t = pre ++ EvReadJson p (Fulfilled json) :: post ->
  toObject json = Throw e ->
  exists d post',
    post = EvLog (LogProcessing d) :: EvLog (LogError (message e)) :: post'.
Proof.
  intros Er Heq Ht.
  destruct (recreateServers_answers _ _ _ _ Er pre _ post Heq) as [_ H].
  by eapply H.
Qed.

(** X17. What the script asks the file system about: first the data
    directory, then [metadata.json] of each entry of the directory that
    starts with [bedrock-], once each, in the order of the entries; and of
    nothing else. *)
Theorem metadata_asked_in_order (w0 : W) r w' t :
  recreateServers penv w0 = (r, w', t) ->
  pathExists_paths t =
    DATA_DIR penv :: (metadataPath penv <$> serverDirs_of (readdir_entries t)).
Proof.
  intros Er. apply recreateServers_events in Er.
  destruct Er as [(e & _ & ->)|[(_ & ->)|(th & Hs & Hrest)]]; [reflexivity..|].
  destruct (search_events_quiet th Hs) as (_ & _ & _ & _ & Hp & Hr & _ & _).
  destruct Hrest as [(e & _ & ->)|[(items & Hnone & _ & ->)|
    (hdp & items & w3 & c & w4 & tl & Hne & El & _ & ->)]].
  - rewrite !pathExists_paths_app, !readdir_entries_app, Hp, Hr. reflexivity.
  - rewrite !pathExists_paths_app, !readdir_entries_app, Hp, Hr. cbn -[serverDirs_of].
    rewrite app_nil_r, Hnone. reflexivity.
  - destruct (serverLoop_profile penv _ _ _ _ _ _ _ El) as (_ & _ & _ & Ho & Hpl).
    destruct (inner_events _ Ho) as (_ & Hrl & _).
    rewrite !pathExists_paths_app, !readdir_entries_app, Hp, Hr, Hpl, Hrl.
    destruct (summary_lines_cases c) as (l1 & l2 & -> & [[_ ->]|[_ ->]] & [(_ & _ & ->)|[_ ->]]);
      cbn -[serverDirs_of]; by rewrite !app_nil_r.
Qed.

(** X24. The order of the image check and the request for a container:
    whenever a run of the script asks for a container, the image of the
    description is the server image and the events just before are its
    fulfilled inspection, or its rejected inspection followed by the
    announcement of the pull and the fulfilled promise of [docker.pull].
    This is about the order of the calls only; whether the image is there
    when that promise is fulfilled is the daemon's affair. *)
Theorem creation_after_image w0 r w' t :
  recreateServers penv w0 = (r, w', t) ->
  forall pre cfg res post,
    t = pre ++ EvCreateContainer cfg res :: post ->
    Image cfg = BEDROCK_IMAGE /\ image_ready pre (Image cfg).
Proof.
  intros Er.
  destruct (recreateServers_run penv w0) as (r' & w'' & t' & Er' & Hcases).
  rewrite Er in Er'. injection Er' as <- <- <-.
  destruct Hcases as [(code & -> & Hc & _)|
                      (w1 & hdp & w2 & th & items & w3 & c & tl &
                       E0 & Eh & E2 & Hne & El & -> & ->)].
  - intros pre cfg res post ->. rewrite count_app, count_cons in Hc. simpl in Hc. lia.
  - destruct (getHostDataPath_run penv w1) as (hdp' & w2' & th' & Eh' & _ & Hc & _).
    rewrite Eh in Eh'. injection Eh' as <- <- <-.
    destruct (serverLoop_binds penv _ _ _ _ _ _ _ El) as [_ Hb].
    destruct (summary_lines_quiet c) as [Hqc _].
    intros pre cfg res post Heq. split.
    + assert (EvCreateContainer cfg res ∈
                [banner penv; EvPathExists (DATA_DIR penv) (Fulfilled true)] ++ th ++
                [EvReaddir (DATA_DIR penv) (Fulfilled items);
                 EvLog (LogFoundDirs (length (serverDirs_of items)))] ++ tl ++
                summary_lines c) as Hin.
      { rewrite Heq. apply elem_of_app. right. apply list_elem_of_here. }
      rewrite !elem_of_app in Hin. destruct Hin as [Hin|[Hin|[Hin|[Hin|Hin]]]].
      * in_trace Hin.
      * pose proof (count_zero is_create _ _ Hc Hin). discriminate.
      * in_trace Hin.
      * by destruct (Hb cfg res Hin) as (Hi & _).
      * pose proof (count_zero is_create _ _ Hqc Hin). discriminate.
    + revert pre cfg res post Heq. fold (creations_guarded
        ([banner penv; EvPathExists (DATA_DIR penv) (Fulfilled true)] ++ th ++
         [EvReaddir (DATA_DIR penv) (Fulfilled items);
          EvLog (LogFoundDirs (length (serverDirs_of items)))] ++ tl ++
         summary_lines c)).
      do 3 (apply creations_guarded_app; [by apply creations_guarded_none|]).
      apply creations_guarded_app;
        [by eapply serverLoop_guarded | by apply creations_guarded_none].
Qed.

End Whole.

Lemma summary_counts_lines_witness :
  let run := recreateServers (RT := Sim.runtime) Sim.penv0 Sim.w_batch in
  EvLog (LogSuccessCount 2) ∈ run.2 /\ EvLog (LogFailedCount 1) ∈ run.2 /\
  count is_created run.2 = 2%nat /\ count is_error run.2 = 1%nat /\
  EvLog LogAllRecreated ∉ run.2.
Proof.
  intros run.
  assert (run = (Normal tt, run.1.2, run.2)) as Er by (vm_compute; reflexivity).
  destruct (summary_counts_lines (RT := Sim.runtime) Sim.penv0 Sim.w_batch run.1.2 run.2 Er) as (Hs & Hf & Ha & _).
  assert (count is_created run.2 = 2%nat) as Hc by (vm_compute; reflexivity).
  assert (count is_error run.2 = 1%nat) as He by (vm_compute; reflexivity).
  split; [apply Hs; by rewrite Hc|]. split; [apply Hf; rewrite He; split; [reflexivity|lia]|].
  split; [exact Hc|]. split; [exact He|].
  intros Hall. apply Ha in Hall. lia.
Defined.



Lemma recreateServers_outcome_witness :
  let run := recreateServers (RT := Sim.runtime) Sim.penv0 Sim.w0 in
  let nowhere := {| env_DATA_DIR := Some "/nowhere"; env_DOCKER_NETWORK := None;
                    env_ENABLE_SSH := None |} in
  let run' := recreateServers (RT := Sim.runtime) nowhere Sim.w0 in
  (run.1.1 = Normal tt /\ count is_error run.2 = 1%nat /\ omap exit_line run.2 = []) /\
  (exists pre x, run'.1.1 = Exit 1 /\ run'.2 = pre ++ [x] /\ exit_line x = Some 1).
Proof.
  intros run nowhere run'. split.
  - destruct (recreateServers_outcome (RT := Sim.runtime) Sim.penv0 Sim.w0
                run.1.1 run.1.2 run.2 (run_eta _)) as [(Hr & Hx & _)|(code & pre & x & Hr & _)].
    + split; [exact Hr|]. split; [vm_compute; reflexivity|exact Hx].
    + vm_compute in Hr. discriminate Hr.
  - destruct (recreateServers_outcome (RT := Sim.runtime) nowhere Sim.w0
                run'.1.1 run'.1.2 run'.2 (run_eta _))
      as [(Hr & _)|(code & pre & x & Hr & Ht & Hx & _)].
    + vm_compute in Hr. discriminate Hr.
    + assert (code = 1) as -> by (vm_compute in Hr; congruence).
      exists pre, x. auto.
Defined.

Lemma recreateServers_call_order_witness :
  let t := (recreateServers (RT := Sim.runtime) Sim.penv0 Sim.w0).2 in
  (exists cfg, [EvCreateContainer cfg (Fulfilled "c0ffee-bedrock-a")] `suffix_of` take 21 t) /\
  (exists e, [EvImageInspect BEDROCK_IMAGE (Rejected e); EvLog (LogPulling BEDROCK_IMAGE)]
               `suffix_of` take 19 t).
Proof.
  intros t. split.
  - apply (recreateServers_call_order (RT := Sim.runtime) Sim.penv0 Sim.w0 _ _ t (run_eta _)
             (take 21 t) (EvStart "c0ffee-bedrock-a" (Fulfilled tt)) (drop 22 t)).
    vm_compute. reflexivity.
  - apply (recreateServers_call_order (RT := Sim.runtime) Sim.penv0 Sim.w0 _ _ t (run_eta _)
             (take 19 t) (EvPull BEDROCK_IMAGE (Fulfilled tt)) (drop 20 t)).
    vm_compute. reflexivity.
Defined.

Lemma created_from_metadata_witness :
  let t := (recreateServers (RT := Sim.runtime) Sim.penv0 Sim.w0).2 in
  exists cfg res,
    t !! 20%nat = Some (EvCreateContainer cfg res) /\
    exists items hdp json m v,
      EvReaddir "/srv" (Fulfilled items) ∈ t /\
      name cfg ∈ items /\ startsWith (name cfg) "bedrock-" = true /\
      Labels cfg !! "server-id" = Some (VStr (name cfg)) /\
      EvReadJson (metadataPath (RT := Sim.runtime) Sim.penv0 (name cfg)) (Fulfilled json) ∈ t /\
      toObject json = Normal m /\
      buildConfig Sim.penv0 (@path_join _ Sim.runtime hdp (name cfg)) (name cfg) m
        = Normal (cfg, v).
Proof.
  intros t.
  assert (exists cfg res, t !! 20%nat = Some (EvCreateContainer cfg res)) as (cfg & res & Ht).
  { vm_compute. eauto. }
  exists cfg, res. split; [exact Ht|].
  apply (created_from_metadata (RT := Sim.runtime) Sim.penv0 Sim.w0 _ _ t cfg res (run_eta _)).
  by eapply list_elem_of_lookup_2.
Defined.

Lemma rejection_reported_witness :
  let t := (recreateServers (RT := Sim.runtime) Sim.penv0 Sim.w0).2 in
  let x := EvReadJson "/srv/bedrock-b/metadata.json"
             (Rejected (Error "Unexpected token in JSON")) in
  exists l post', drop 28 t = EvLog l :: post' /\ reports l x.
Proof.
  intros t x.
  apply (rejection_reported (RT := Sim.runtime) Sim.penv0 Sim.w0 _ _ t (take 27 t) x
           (drop 28 t) (run_eta _)).
  - vm_compute. reflexivity.
  - reflexivity.
Defined.

Lemma null_metadata_fails_witness :
  let w := {| Sim.files := {[ "/srv" := Sim.Dir ["bedrock-n"];
                              "/srv/bedrock-n/metadata.json" := Sim.Json VNull ]};
              Sim.containers := []; Sim.listingUp := true; Sim.imageLocal := true;
              Sim.registryUp := true |} in
  let t := (recreateServers (RT := Sim.runtime) Sim.penv0 w).2 in
  exists d post',
    drop 10 t = EvLog (LogProcessing d)
                :: EvLog (LogError "Cannot read properties of null (reading 'name')")
                :: post'.
Proof.
  intros w t.
  apply (null_metadata_fails (RT := Sim.runtime) Sim.penv0 w _ _ t (take 9 t)
           "/srv/bedrock-n/metadata.json" VNull (drop 10 t)
           (TypeError "Cannot read properties of null (reading 'name')") (run_eta _)).
  - vm_compute. reflexivity.
  - reflexivity.
Defined.

Lemma metadata_asked_in_order_witness :
  let t := (recreateServers (RT := Sim.runtime) Sim.penv0 Sim.w0).2 in
  pathExists_paths t =
    ["/srv"; "/srv/bedrock-a/metadata.json"; "/srv/bedrock-b/metadata.json";
     "/srv/bedrock-c/metadata.json"].
Proof.
  intros t.
  rewrite (metadata_asked_in_order (RT := Sim.runtime) Sim.penv0 Sim.w0 _ _ t (run_eta _)).
  vm_compute. reflexivity.
Defined.

Lemma creation_after_image_witness :
  let t := (recreateServers (RT := Sim.runtime) Sim.penv0 Sim.w0).2 in
  exists cfg res,
    t !! 20%nat = Some (EvCreateContainer cfg res) /\
    Image cfg = BEDROCK_IMAGE /\ image_ready (take 20 t) (Image cfg).
Proof.
  intros t.
  assert (exists cfg res, t !! 20%nat = Some (EvCreateContainer cfg res)) as (cfg & res & Ht).
  { vm_compute. eauto. }
  exists cfg, res. split; [exact Ht|].
  apply (creation_after_image (RT := Sim.runtime) Sim.penv0 Sim.w0
           (recreateServers (RT := Sim.runtime) Sim.penv0 Sim.w0).1.1
           (recreateServers (RT := Sim.runtime) Sim.penv0 Sim.w0).1.2 t
           (run_eta _)
           (take 20 t) cfg res (drop 21 t)).
  symmetry. by apply take_drop_middle.
Defined.

(** ** The connection to the daemon *)

Lemma startsWith_append (p r : string) : startsWith (p +:+ r) p = true.
Proof.
  unfold startsWith. induction p as [|c p IH]; simpl; [by destruct r|].
  destruct (Ascii.ascii_dec c c) as [_|Hne]; [apply IH|done].
Qed.

Lemma replace_prefix (pattern rest : string) :
  replace (pattern +:+ rest) pattern "" = rest.
Proof.
  assert (Hd : forall p r, substring_from (String.length p) (p +:+ r) = r).
  { induction p as [|c p IH]; intros r; simpl; [done|apply IH]. }
  assert (Hu : forall s, replace s pattern "" =
                         if String.prefix pattern s
                         then "" +:+ substring_from (String.length pattern) s
                         else match s with
                              | EmptyString => EmptyString
                              | String c r => String c (replace r pattern "")
                              end) by (by intros [|? ?]).
  rewrite Hu. fold (startsWith (pattern +:+ rest) pattern).
  rewrite startsWith_append. simpl. apply Hd.
Qed.

Section ConnectionProperties.

Variable URL : string -> Url.t + error.
Variable parseInt : string -> number.

(** X18. A socket given as [unix://] and a path is reached at that path: the
    scheme is taken off once, at the front, whatever the path is, also when
    the path has [unix://] in it again; the platform is not looked at. *)
Theorem dockerConfig_unix (path platform : string) :
  dockerConfig URL parseInt (Some ("unix://" +:+ path)) platform =
  Normal {| host := None; port := None; socketPath := Some path |}.
Proof.
  unfold dockerConfig.
  change (truthy (env_value (Some ("unix://" +:+ path)))) with true.
  change (startsWith (default "" (Some ("unix://" +:+ path))) "tcp://") with false.
  change (default "" (Some ("unix://" +:+ path))) with ("unix://" +:+ path).
  rewrite startsWith_append. cbv iota.
  by rewrite replace_prefix.
Qed.

(** X19. Whatever [DOCKER_HOST] and the platform are, the options name one
    way to the daemon: a socket, or a host with a port, never both and never
    none. The script can fail here only on a [DOCKER_HOST] that starts with
    [tcp://]; a host with a port comes from such a [DOCKER_HOST] or, when it
    is unset or empty, from the platform [win32]; any other [DOCKER_HOST],
    whatever its scheme, is taken as the path of a socket, and then the
    platform is not looked at. *)
Theorem dockerConfig_one_way (DOCKER_HOST : option string) (platform : string) :
  match dockerConfig URL parseInt DOCKER_HOST platform with
  | Normal o =>
      (is_Some (socketPath o) <-> host o = None) /\
      (is_Some (host o) <-> is_Some (port o)) /\
      (is_Some (host o) ->
       (exists s, DOCKER_HOST = Some s /\ startsWith s "tcp://" = true) \/
       ((DOCKER_HOST = None \/ DOCKER_HOST = Some "") /\ platform = "win32")) /\
      (forall s, DOCKER_HOST = Some s -> s <> "" -> startsWith s "tcp://" = false ->
                 forall platform', dockerConfig URL parseInt DOCKER_HOST platform' = Normal o)
  | Throw _ => exists s, DOCKER_HOST = Some s /\ startsWith s "tcp://" = true
  | Continue | Exit _ => False
  end.
Proof.
  unfold dockerConfig.
  destruct DOCKER_HOST as [s|]; simpl;
    [destruct (String.eqb_spec s "") as [->|Hne]; simpl;
       [|destruct (startsWith s "tcp://") eqn:Et;
           [destruct (URL s) as [url|e] eqn:Eu; simpl; [|by eauto]
           |destruct (startsWith s "unix://") eqn:Eu; simpl]]|];
    try (destruct (String.eqb_spec platform "win32") as [->|Hp]; simpl).
  all: split; [split; [intros [? H]|intros H]; (discriminate H || eauto)|].
  all: split; [split; intros [? H]; (discriminate H || eauto)|].
  all: split; [intros [? H]; try discriminate H; eauto|].
  all: intros ? [= <-] ? ?; try congruence.
  all: intros platform'; destruct (String.eqb_spec s "") as [->|_]; [done|]; simpl.
  all: by rewrite Et, Eu.
Qed.


End ConnectionProperties.

(** ** The entrypoint of the container *)

Section EntrypointRuns.

Import Entrypoint.
Context {S : Type} {SYS : System S}.

(** Every way through the script, one goal each. *)
Ltac run_entrypoint :=
  unfold entrypoint, as_root, setup_group, seq, echo, run, run_or_true, skip;
  repeat match goal with
         | |- context [id_u ?s] => destruct (id_u s) as [[| |]|] eqn:?
         | |- context [id_un ?s] => destruct (id_un s) eqn:?
         | |- context [is_socket ?p ?s] => destruct (is_socket p s) eqn:?
         | |- context [String.eqb ?a ?b] => destruct (String.eqb_spec a b)
         | |- context [getent_group ?k ?s] => destruct (getent_group k s) eqn:?
         | |- context [run_command ?c ?s] =>
             let ok := fresh "ok" in destruct (run_command c s) as [ok ?] eqn:?; destruct ok
         | _ => progress cbn
         end.

(** X20. As root the script never runs the command as root: it hands over to
    [su-exec node] with the arguments as they were given, right after the
    line that announces it, or it is stopped by a command on the groups that
    failed, and that command is never a [delgroup]. Started as another user
    it changes nothing, runs no command on the groups and hands over to the
    command as it is, unless [id -un] fails. *)
Theorem entrypoint_hands_over args s o s' t :
  entrypoint args s = (o, s', t) ->
  (id_u s = Some 0 ->
     (o = Exec ("su-exec" :: "node" :: args) /\ exists pre, t = pre ++ [Said SayDropping]) \/
     (o = Aborted /\
      exists pre c, t = pre ++ [Ran c false] /\ forall g, c <> Delgroup g)) /\
  (id_u s <> Some 0 ->
     s' = s /\ commands t = [] /\
     ((exists user, id_un s = Some user /\ o = Exec args) \/
      (id_un s = None /\ o = Aborted))).
Proof.
  run_entrypoint.
  all: intros [= <- <- <-]; split; intros Hu; try congruence.
  all: try (split; [reflexivity|split; [reflexivity|eauto]]).
  all: first
    [ left; split; [reflexivity|];
      match goal with |- exists pre, ?l = _ => exists (removelast l) end; reflexivity
    | right; split; [reflexivity|];
      match goal with |- exists pre c, ?l = _ /\ _ => exists (removelast l) end;
      eexists; split; [reflexivity|discriminate] ].
Qed.

(** X21. When the script hands over as root with a socket whose group number
    it could read and is not 0, the user [node] has just been added to the
    group [docker], and that group has the number of the socket as far as
    the script can tell: the group that had the number was already called
    [docker] and no other command was run, or [addgroup -g] with that number
    has succeeded. *)
Theorem entrypoint_group_ready args s s' t argv :
  entrypoint args s = (Exec argv, s', t) ->
  id_u s = Some 0 -> is_socket socket s = true -> DOCKER_GID s <> "0" ->
  exists pre,
    t = pre ++ [Said SayAdding; Ran (AddgroupUser "node" "docker") true; Said SayDropping] /\
    ((exists entry, getent_group (DOCKER_GID s) s = Some entry /\
                    cut_f1 entry = "docker" /\ commands pre = []) \/
     Ran (AddgroupGid (DOCKER_GID s) "docker") true ∈ pre).
Proof.
  intros Hrun Hu Hs Hg. revert Hrun.
  unfold entrypoint, as_root. rewrite Hu.
  unfold seq at 1 2, echo at 1. rewrite Hs.
  destruct (String.eqb_spec (DOCKER_GID s) "0") as [|_]; [done|]. cbn [negb].
  generalize (DOCKER_GID s). intros gid.
  unfold setup_group, seq, echo, run, run_or_true, skip.
  repeat match goal with
         | |- context [String.eqb ?a ?b] => destruct (String.eqb_spec a b)
         | |- context [getent_group ?k ?s] => destruct (getent_group k s) eqn:?
         | |- context [run_command ?c ?s] =>
             let ok := fresh "ok" in destruct (run_command c s) as [ok ?] eqn:?; destruct ok
         | _ => progress cbn
         end.
  all: intros [= <- <- <-].
  all: match goal with
       | |- exists pre, ?l = _ /\ _ => exists (take (length l - 3) l)
       end; split; [reflexivity|]; cbn.
  all: first [ left; eexists; split; [reflexivity|split; [assumption|reflexivity]]
             | right; find_in_trace ].
Qed.

(** X22. Without a socket, or with a socket whose group number is 0 or
    cannot be read by either form of [stat], the script as root leaves the
    groups alone and still hands over to [su-exec node]. *)
Theorem entrypoint_no_socket args s o s' t :
  entrypoint args s = (o, s', t) ->
  id_u s = Some 0 ->
  is_socket socket s = false \/ DOCKER_GID s = "0" \/
    (stat_c socket s = None /\ stat_f socket s = None) ->
  o = Exec ("su-exec" :: "node" :: args) /\ s' = s /\ commands t = [].
Proof.
  intros Hrun Hu Hs. revert Hrun.
  assert (is_socket socket s = false \/ DOCKER_GID s = "0") as [Hn|Hz].
  { destruct Hs as [?|[?|[H1 H2]]]; auto. right. unfold DOCKER_GID. by rewrite H1, H2. }
  - unfold entrypoint, as_root, seq, echo. rewrite Hu, Hn. cbn. by intros [= <- <- <-].
  - unfold entrypoint, as_root, seq, echo. rewrite Hu, Hz.
    destruct (is_socket socket s); cbn; by intros [= <- <- <-].
Qed.

(** X23. The commands on the groups that a run of the script makes are at
    most three, in one order: a [delgroup], of the group [docker] when no
    group has the number of the socket, or of the group that has that
    number when it is not called [docker]; then [addgroup -g] of [docker]
    with the number of the socket; then [addgroup] of [node] to [docker].
    Whether the [delgroup] succeeds changes nothing; nothing follows an
    [addgroup] that fails. *)
Theorem entrypoint_commands args s o s' t :
  entrypoint args s = (o, s', t) ->
  let gid := DOCKER_GID s in
  let add_user ok := (AddgroupUser "node" "docker", ok) in
  let add_group ok := (AddgroupGid gid "docker", ok) in
  exists del rest,
    commands t = del ++ rest /\
    (del = [] \/
     (exists ok, del = [(Delgroup "docker", ok)] /\ getent_group gid s = None /\
                 is_Some (getent_group "docker" s)) \/
     (exists ok entry, del = [(Delgroup (cut_f1 entry), ok)] /\
                       getent_group gid s = Some entry /\ cut_f1 entry <> "docker")) /\
    (rest = [] /\ del = [] \/
     (exists ok, rest = [add_user ok] /\ del = [] /\
                 exists entry, getent_group gid s = Some entry /\ cut_f1 entry = "docker") \/
     rest = [add_group false] \/
     exists ok, rest = [add_group true; add_user ok]).
Proof.
  intros Hrun gid. revert Hrun. subst gid.
  unfold entrypoint, as_root, setup_group, seq, echo, run, run_or_true, skip.
  repeat match goal with
         | _ => progress cbn
         | |- context [id_u ?s] => destruct (id_u s) as [[| |]|] eqn:?
         | |- context [id_un ?s] => destruct (id_un s) eqn:?
         | |- context [is_socket ?p ?s] => destruct (is_socket p s) eqn:?
         | |- context [String.eqb ?a ?b] => destruct (String.eqb_spec a b)
         | |- context [getent_group ?k ?s] => destruct (getent_group k s) eqn:?
         | |- context [run_command ?c ?s] =>
             let ok := fresh "ok" in destruct (run_command c s) as [ok ?] eqn:?; destruct ok
         | _ => progress cbn
         end.
  all: intros [= <- <- <-]; cbn.
  all: first
    [ exists [], []; split; [reflexivity|]; split; [by left|by left]
    | eexists [], [_]; split; [reflexivity|]; split; [by left|]; right; left;
      eexists; split; [reflexivity|]; split; [reflexivity|]; eexists; split; eauto; fail
    | eexists [], [_]; split; [reflexivity|]; split; [by left|]; right; right; left; reflexivity
    | eexists [], [_; _]; split; [reflexivity|]; split; [by left|]; right; right; right;
      eexists; reflexivity
    | eexists [_], [_]; split; [reflexivity|]; split;
        [right; left; eexists; split; [reflexivity|]; split; [reflexivity|eauto]
        |right; right; left; reflexivity]
    | eexists [_], [_; _]; split; [reflexivity|]; split;
        [right; left; eexists; split; [reflexivity|]; split; [reflexivity|eauto]
        |right; right; right; eexists; reflexivity]
    | eexists [_], [_]; split; [reflexivity|]; split;
        [right; right; eexists _, _; split; [reflexivity|]; split; [reflexivity|assumption]
        |right; right; left; reflexivity]
    | eexists [_], [_; _]; split; [reflexivity|]; split;
        [right; right; eexists _, _; split; [reflexivity|]; split; [reflexivity|assumption]
        |right; right; right; eexists; reflexivity] ].
Qed.

End EntrypointRuns.

Lemma entrypoint_hands_over_witness :
  let args := ["node"; "server.js"] in
  let run := Entrypoint.entrypoint (SYS := Entrypoint.Sim.sys) args Entrypoint.Sim.s0 in
  let run' := Entrypoint.entrypoint (SYS := Entrypoint.Sim.sys) args Entrypoint.Sim.s_node in
  (run.1.1 = Entrypoint.Aborted /\
   exists pre c, run.2 = pre ++ [Entrypoint.Ran c false] /\
                 forall g, c <> Entrypoint.Delgroup g) /\
  (run'.1.2 = Entrypoint.Sim.s_node /\ Entrypoint.commands run'.2 = [] /\
   run'.1.1 = Entrypoint.Exec args).
Proof.
  intros args run run'. split.
  - destruct (entrypoint_hands_over (SYS := Entrypoint.Sim.sys) args Entrypoint.Sim.s0
                run.1.1 run.1.2 run.2 (run_eta _)) as [H _].
    destruct (H eq_refl) as [[Hr _]|[Hr Ht]]; [vm_compute in Hr; discriminate Hr|].
    split; [exact Hr|exact Ht].
  - destruct (entrypoint_hands_over (SYS := Entrypoint.Sim.sys) args Entrypoint.Sim.s_node
                run'.1.1 run'.1.2 run'.2 (run_eta _)) as [_ H].
    destruct H as (Hs & Hc & [(user & _ & Ho)|[Hn _]]); [discriminate| |discriminate Hn].
    repeat split; assumption.
Defined.

Lemma entrypoint_group_ready_witness :
  let args := ["node"; "server.js"] in
  let run := Entrypoint.entrypoint (SYS := Entrypoint.Sim.sys) args Entrypoint.Sim.s_fresh in
  exists pre,
    run.2 = pre ++ [Entrypoint.Said Entrypoint.SayAdding;
                    Entrypoint.Ran (Entrypoint.AddgroupUser "node" "docker") true;
                    Entrypoint.Said Entrypoint.SayDropping] /\
    Entrypoint.Ran (Entrypoint.AddgroupGid "998" "docker") true ∈ pre.
Proof.
  intros args run.
  destruct (entrypoint_group_ready (SYS := Entrypoint.Sim.sys) args Entrypoint.Sim.s_fresh
              run.1.2 run.2 ("su-exec" :: "node" :: args))
    as (pre & Ht & [(entry & He & _)|Hin]).
  - vm_compute. reflexivity.
  - reflexivity.
  - reflexivity.
  - discriminate.
  - discriminate He.
  - exists pre. split; [exact Ht|exact Hin].
Defined.

Lemma entrypoint_no_socket_witness :
  let args := ["node"; "server.js"] in
  let run := Entrypoint.entrypoint (SYS := Entrypoint.Sim.sys) args Entrypoint.Sim.s_plain in
  run.1.1 = Entrypoint.Exec ("su-exec" :: "node" :: args) /\
  run.1.2 = Entrypoint.Sim.s_plain /\ Entrypoint.commands run.2 = [].
Proof.
  intros args run.
  apply (entrypoint_no_socket (SYS := Entrypoint.Sim.sys) args Entrypoint.Sim.s_plain
           run.1.1 run.1.2 run.2 (run_eta _) eq_refl).
  left. reflexivity.
Defined.

Lemma entrypoint_commands_witness :
  let args := ["node"; "server.js"] in
  let run := Entrypoint.entrypoint (SYS := Entrypoint.Sim.sys) args Entrypoint.Sim.s0 in
  Entrypoint.commands run.2 =
    [(Entrypoint.Delgroup "ping", true); (Entrypoint.AddgroupGid "998" "docker", false)] /\
  exists del rest, Entrypoint.commands run.2 = del ++ rest /\ (length del <= 1)%nat /\ (length rest <= 2)%nat.
Proof.
  intros args run. split; [vm_compute; reflexivity|].
  destruct (entrypoint_commands (SYS := Entrypoint.Sim.sys) args Entrypoint.Sim.s0
              run.1.1 run.1.2 run.2 (run_eta _)) as (del & rest & Hc & Hd & Hr).
  exists del, rest. split; [exact Hc|]. split.
  - destruct Hd as [->|[(? & -> & _)|(? & ? & -> & _)]]; simpl; lia.
  - destruct Hr as [[-> _]|[(? & -> & _)|[->|(? & ->)]]]; simpl; lia.
Defined.
